(** * MotionPitch: the /generate orchestration of [app.py]

    A shallow embedding of the request handler [generate] and of the
    services it drives ([AIService.get_cached_architect], [generate_image],
    [generate_video], [plan_presentation]) together with the guest quota
    decorator [guest_limit_check].

    Python state (the Flask session, the request globals [g], the module
    global [cached_architect_name], the database) lives in a [World] record
    that is threaded through a small state-and-exception monad.  Everything
    the program obtains from outside (replies of the Gemini client, fresh
    uuids, the completion order of the thread pool) is supplied by oracle
    records, so that every theorem quantifies over all behaviours of the
    collaborators. *)

From Stdlib Require Import ZArith Lia Ascii String DecimalString.
From stdpp Require Import base option list strings gmap.

Open Scope string_scope.
Open Scope Z_scope.

(** ** Python values used by the handler *)

Module Py.

(** Exceptions the modelled code can raise or catch. *)
Inductive Exn : Type :=
| ValueError          (* int() on a malformed literal *)
| UnboundLocalError   (* read of a local that was never assigned *)
| IndexError          (* list subscript out of range *)
| SubscriptError      (* KeyError or TypeError of a subscript on the parsed reply *)
| JSONDecodeError     (* json.loads on malformed text *)
| OSError             (* open() / file system *)
| RemoteError         (* any exception raised inside the genai client *)
| StorageError.       (* db.session.commit *)

(** Truthiness of a [str], and of an optional [str] ([None] is falsy). *)
Definition truthy_str (s : string) : bool := negb (String.eqb s "").

Definition truthy (o : option string) : bool :=
  match o with
  | Some s => truthy_str s
  | None => false
  end.

(** [str(n)] for an [int]. *)
Definition str_of_int (n : Z) : string := NilZero.string_of_int (Z.to_int n).

(** [f"{x}"] for a value that is a [str] or [None]. *)
Definition format_opt (o : option string) : string :=
  match o with
  | Some s => s
  | None => "None"
  end.

(** *** [int(s)] on a [str]

    A [str] is kept as its UTF-8 encoding, and [int] looks at its code
    points.  CPython first maps every white-space character to a space and
    every decimal digit of any script to its ASCII digit
    ([_PyUnicode_TransformDecimalAndSpaceToASCII]); code points below 127
    are left as they are, so of these only [\t\n\v\f\r] and the space count
    as white space (the separators U+001C to U+001F do not).  The literal
    is then read in base 10 ([PyLong_FromString]): surrounding white space
    is skipped, one sign may come first, the body consists of digits in
    which single underscores may separate digits, and a body of more than
    [int_max_str_digits] digits is refused.  Every refusal is a
    [ValueError]. *)

(** The code points of a UTF-8 text.  A byte that starts no well-formed
    sequence (there is none in the encoding of a [str]) is read as
    U+FFFD. *)
Definition continuation (b : N) : bool := ((0x80 <=? b) && (b <? 0xC0))%N.

Fixpoint code_points (bytes : list N) : list N :=
  match bytes with
  | [] => []
  | b0 :: rest =>
      if (b0 <? 0x80)%N then b0 :: code_points rest
      else
        match rest with
        | b1 :: rest1 =>
            if ((0xC0 <=? b0) && (b0 <? 0xE0))%N && continuation b1
            then ((b0 - 0xC0) * 0x40 + (b1 - 0x80))%N :: code_points rest1
            else
              match rest1 with
              | b2 :: rest2 =>
                  if ((0xE0 <=? b0) && (b0 <? 0xF0))%N && continuation b1 && continuation b2
                  then (((b0 - 0xE0) * 0x40 + (b1 - 0x80)) * 0x40 + (b2 - 0x80))%N
                         :: code_points rest2
                  else
                    match rest2 with
                    | b3 :: rest3 =>
                        if ((0xF0 <=? b0) && (b0 <? 0xF8))%N
                           && continuation b1 && continuation b2 && continuation b3
                        then ((((b0 - 0xF0) * 0x40 + (b1 - 0x80)) * 0x40 + (b2 - 0x80)) * 0x40
                              + (b3 - 0x80))%N :: code_points rest3
                        else 0xFFFD%N :: code_points rest
                    | [] => 0xFFFD%N :: code_points rest
                    end
              | [] => 0xFFFD%N :: code_points rest
              end
        | [] => [0xFFFD%N]
        end
  end.

Definition code_points_of_str (s : string) : list N :=
  code_points (N_of_ascii <$> list_ascii_of_string s).

(** White space for [int]: [Py_ISSPACE] below 127, [Py_UNICODE_ISSPACE]
    from there on. *)
Definition is_space (c : N) : bool :=
  (((9 <=? c) && (c <=? 13)) || (c =? 32) || (c =? 0x85) || (c =? 0xA0) || (c =? 0x1680)
   || ((0x2000 <=? c) && (c <=? 0x200A)) || (c =? 0x2028) || (c =? 0x2029)
   || (c =? 0x202F) || (c =? 0x205F) || (c =? 0x3000))%N.

(** The decimal digits ([Py_UNICODE_TODECIMAL]): each script has its ten
    digits in a row; the list gives the digit zero of each row, after the
    Unicode data of CPython 3.11 (Unicode 14.0). *)
Definition decimal_zeros : list N :=
  [0x30; 0x660; 0x6F0; 0x7C0; 0x966; 0x9E6; 0xA66; 0xAE6;
   0xB66; 0xBE6; 0xC66; 0xCE6; 0xD66; 0xDE6; 0xE50; 0xED0;
   0xF20; 0x1040; 0x1090; 0x17E0; 0x1810; 0x1946; 0x19D0; 0x1A80;
   0x1A90; 0x1B50; 0x1BB0; 0x1C40; 0x1C50; 0xA620; 0xA8D0; 0xA900;
   0xA9D0; 0xA9F0; 0xAA50; 0xABF0; 0xFF10; 0x104A0; 0x10D30; 0x11066;
   0x110F0; 0x11136; 0x111D0; 0x112F0; 0x11450; 0x114D0; 0x11650; 0x116C0;
   0x11730; 0x118E0; 0x11950; 0x11C50; 0x11D50; 0x11DA0; 0x16A60; 0x16AC0;
   0x16B50; 0x1D7CE; 0x1D7D8; 0x1D7E2; 0x1D7EC; 0x1D7F6; 0x1E140; 0x1E2F0;
   0x1E950; 0x1FBF0]%N.

Definition digit_of (c : N) : option Z :=
  (fun zero => Z.of_N (c - zero))
    <$> List.find (fun zero => ((zero <=? c) && (c <=? zero + 9))%N) decimal_zeros.

(** [sys.get_int_max_str_digits()], which the application leaves at its
    default. *)
Definition int_max_str_digits : nat := 4300.

Fixpoint lstrip (s : list N) : list N :=
  match s with
  | c :: rest => if is_space c then lstrip rest else s
  | [] => []
  end.

Definition strip (s : list N) : list N :=
  rev (lstrip (rev (lstrip s))).

(** [digits acc count prev_digit s]: reads the digit/underscore body;
    [count] is the number of digits read so far and [prev_digit] tells
    whether the previous character was a digit. *)
Fixpoint digits (acc : Z) (count : nat) (prev_digit : bool) (s : list N) : option Z :=
  match s with
  | [] => if prev_digit && (count <=? int_max_str_digits)%nat then Some acc else None
  | c :: rest =>
      match digit_of c with
      | Some d => digits (10 * acc + d) (S count) true rest
      | None =>
          if (c =? 0x5F)%N && prev_digit          (* an underscore after a digit *)
          then match rest with
               | c' :: _ =>
                   match digit_of c' with
                   | Some _ => digits acc count false rest
                   | None => None
                   end
               | [] => None
               end
          else None
      end
  end.

Definition int_of_str (s : string) : option Z :=
  match strip (code_points_of_str s) with
  | c :: rest =>
      if (c =? 0x2D)%N then Z.opp <$> digits 0 0 false rest          (* - *)
      else if (c =? 0x2B)%N then digits 0 0 false rest               (* + *)
      else digits 0 0 false (c :: rest)
  | [] => None
  end.

End Py.

(** ** Data model *)

(** A slide as planned ([Slide] in the response schema).  The handler reads
    [video_prompt] with [dict.get], so that key may be absent. *)
Record SlideSpec : Type := mkSlideSpec {
  title : string;
  content : string;
  visual_prompt : string;
  video_prompt : option string
}.

(** The parsed plan ([PresentationSchema]). *)
Record Plan : Type := mkPlan {
  plan_title : string;
  plan_slides : list SlideSpec
}.

(** A parsed reply in which keys the handler subscripts are missing.
    [json.loads] returns whatever the text denotes, and nothing checks it
    against the schema.  For each element of [plan['slides']] the record
    tells which of the keys are there ([None]: the subscript raises; an
    element that is not an object has none of them).  [NoSlides] stands for
    a value on which [len(plan['slides'])] raises: not an object, an object
    without [slides], or [slides] without a length. *)
Record PartialSlide : Type := mkPartialSlide {
  title_key : option string;
  content_key : option string;
  visual_prompt_key : option string;
  video_prompt_key : option string
}.

Inductive PartialPlan : Type :=
| NoSlides
| Slides (plan_title_key : option string) (items : list PartialSlide).

Definition has_key {A} (v : option A) : bool :=
  match v with
  | Some _ => true
  | None => false
  end.

Definition complete_slide (s : PartialSlide) : bool :=
  has_key (visual_prompt_key s) && has_key (title_key s) && has_key (content_key s).

(** Some key the handler subscripts is missing. *)
Definition deficient (p : PartialPlan) : bool :=
  match p with
  | NoSlides => true
  | Slides plan_title_key items => negb (has_key plan_title_key && forallb complete_slide items)
  end.

Inductive MediaType : Type := image | video.

(** One entry of [slides] as stored in [Presentation.slides_data]. *)
Record SlideResult : Type := mkSlideResult {
  slide_title : string;
  slide_content : string;
  media_url : string;
  media_type : MediaType
}.

Record User : Type := mkUser {
  user_ident : Z;
  email : string;
  password_hash : string;
  name : string
}.

(** A row of the [Presentation] table.  [slides_data] is the Python list
    [slides], whose slots start out as [None]. *)
Record Presentation : Type := mkPresentation {
  pres_id : string;
  pres_title : string;
  slides_data : list (option SlideResult);
  pres_user_id : option Z;
  has_video : bool
}.

(** What the route returns: [jsonify(...)] with its status code. *)
Inductive Response : Type :=
| ErrorJson (status : nat) (error : string)   (* {'success': False, 'error': ...} *)
| RedirectJson (redirect : string).           (* {'success': True, 'redirect': ...} *)

(** ** Effects *)

(** An argument of [client.models.generate_content(contents=...)]. *)
Inductive Content : Type :=
| FileRef (file_name : string)
| Text (text : string).

(** What the process does to the outside (remote calls, sleeps, the
    database commit), recorded in the order it happens.  Log lines and the
    [socketio.emit] progress messages are not recorded. *)
Inductive Event : Type :=
| CachesCreate                                               (* client.caches.create *)
| FilesUpload (path : string)                                (* client.files.upload *)
| FilesGet                                                   (* client.files.get *)
| Sleep (seconds : nat)                                      (* time.sleep *)
| PlanCall (contents : list Content) (cached_content : option string)
| ImageCall (prompt : string) (slide_index : nat)            (* executor.submit(generate_image) *)
| VideosGenerate (image_path : string) (prompt : string)     (* client.models.generate_videos *)
| OperationsGet                                              (* client.operations.get *)
| FilesDownload (file_path : string)                         (* client.files.download *)
| DbCommit.                                                  (* db.session.add; commit *)

(** Process and request state:
    - [session]: the Flask session of the client, a dict with the integer
      entries ['user_id'] and ['guest_usage'], as the code reads and
      assigns it;
    - [g_user]: [g.user], set by the [before_request] hook;
    - [cached_architect_name]: the module global of that name;
    - [users], [presentations]: the two database tables;
    - [trace]: the outgoing calls made so far. *)
Record World : Type := mkWorld {
  session : gmap string Z;
  g_user : option User;
  cached_architect_name : option string;
  users : list User;
  presentations : list Presentation;
  trace : list Event
}.

Definition set_session (s : gmap string Z) (w : World) : World :=
  mkWorld s (g_user w) (cached_architect_name w) (users w) (presentations w) (trace w).

Definition set_g_user (u : option User) (w : World) : World :=
  mkWorld (session w) u (cached_architect_name w) (users w) (presentations w) (trace w).

Definition set_cached_architect_name (c : option string) (w : World) : World :=
  mkWorld (session w) (g_user w) c (users w) (presentations w) (trace w).

Definition add_presentation (p : Presentation) (w : World) : World :=
  mkWorld (session w) (g_user w) (cached_architect_name w) (users w)
          (presentations w ++ [p]) (trace w).

Definition log_event (e : Event) (w : World) : World :=
  mkWorld (session w) (g_user w) (cached_architect_name w) (users w)
          (presentations w) (trace w ++ [e]).

(** The world after the events [delta] have been emitted. *)
Definition extend_trace (delta : list Event) (w : World) : World :=
  mkWorld (session w) (g_user w) (cached_architect_name w) (users w)
          (presentations w) (trace w ++ delta).

(** Result of running a piece of the program: a value, a raised exception,
    or [Hang] when an unbounded wait loop has used up its fuel. *)
Inductive Res (A : Type) : Type :=
| Ok (a : A)
| Raise (e : Py.Exn)
| Hang.
Arguments Ok {A} a.
Arguments Raise {A} e.
Arguments Hang {A}.

Definition M (A : Type) : Type := World -> Res A * World.

Definition ret {A} (a : A) : M A := fun w => (Ok a, w).

Definition bind {A B} (m : M A) (k : A -> M B) : M B :=
  fun w =>
    match m w with
    | (Ok a, w') => k a w'
    | (Raise e, w') => (Raise e, w')
    | (Hang, w') => (Hang, w')
    end.

Definition raise {A} (e : Py.Exn) : M A := fun w => (Raise e, w).
Definition hang {A} : M A := fun w => (Hang, w).
Definition get_world : M World := fun w => (Ok w, w).
Definition modify (f : World -> World) : M unit := fun w => (Ok tt, f w).
Definition emit (e : Event) : M unit := modify (log_event e).

(** [try: body except Exception: handler] -- state changes made by [body]
    before it raised are kept. *)
Definition try_except {A} (body : M A) (handler : Py.Exn -> M A) : M A :=
  fun w =>
    match body w with
    | (Raise e, w') => handler e w'
    | r => r
    end.

Notation "x <- m ;; k" := (bind m (fun x => k))
  (at level 20, m at level 99, k at level 200, only parsing).
Notation "' pat <- m ;; k" := (bind m (fun x => match x with pat => k end))
  (at level 20, pat pattern, m at level 99, k at level 200, only parsing).
Notation "m ;;; k" := (bind m (fun _ => k))
  (at level 20, k at level 200, only parsing).

(** Tests used to guard a step that may raise. *)
Definition require (b : bool) (e : Py.Exn) : M unit :=
  if b then ret tt else raise e.

Definition from_reply {A} (reply : option A) (e : Py.Exn) : M A :=
  match reply with
  | Some a => ret a
  | None => raise e
  end.

(** [l[i]] and [l[i] = v] on a Python list: both raise out of range. *)
Definition subscript {A} (l : list A) (i : nat) : M A :=
  from_reply (l !! i) Py.IndexError.

Definition setitem {A} (l : list A) (i : nat) (v : A) : M (list A) :=
  if decide (i < length l)%nat then ret (<[i := v]> l) else raise Py.IndexError.

(** ** Configuration *)

Definition UPLOAD_FOLDER : string := "static/uploads".
Definition max_polls : nat := 120.

(** The bound written into [guest_limit_check]. *)
Definition GUEST_LIMIT : Z := 15.

(** [os.path.join(folder, filename)] for a relative [filename]. *)
Definition path_join (folder filename : string) : string :=
  folder ++ "/" ++ filename.

Definition newline : string := String (ascii_of_nat 10) EmptyString.

(** ** Oracles for the collaborators *)

(** Reply of [client.caches.create]: it raises, or yields a cache whose
    [name] is given. *)
Inductive CacheReply : Type :=
| CacheRaises
| CacheCreated (cache_name : string).

(** Reply to one image task.  [ImageParts parts uuid saved]: the call
    returned; [parts] tells for each part of the response whether it has
    [inline_data]; [uuid] is the fresh [uuid4()]; [saved] is false when
    [as_image()] or [img.save] raises. *)
Inductive ImageReply : Type :=
| ImageRaises
| ImageParts (parts : list bool) (uuid : string) (saved : bool).

(** A long-running video operation as seen by the poller:
    [operation.done] and [operation.response.generated_videos]
    ([None] when there is no response). *)
Record Operation : Type := mkOperation {
  op_done : bool;
  generated_videos : option (list string)
}.

(** Everything [generate_video] obtains from outside.  A reply [None]
    stands for a raised exception. *)
Record VideoEnv : Type := mkVideoEnv {
  image_readable : bool;                   (* open(image_path, "rb") *)
  submitted : option Operation;            (* client.models.generate_videos *)
  poll_reply : nat -> option Operation;    (* k-th client.operations.get *)
  video_uuid : string;
  download_ok : bool                       (* client.files.download *)
}.

Inductive FileState : Type := PROCESSING | ACTIVE | FAILED.

(** Reply of the planning call: the client raises, the text is not JSON,
    the text is JSON for a falsy value ([null], [{}], ...), or the text is
    JSON for a truthy value.  Of a truthy value the handler subscripts
    [title], [slides] and, in each slide, [title], [content] and
    [visual_prompt] ([video_prompt] it reads with [get]): [PlanText] is a
    value that has them all, as the [response_schema] of the call asks for;
    [PlanTextPartial] is a value in which one is missing. *)
Inductive PlanReply : Type :=
| PlanCallRaises
| PlanTextInvalid
| PlanTextFalsy
| PlanText (p : Plan)
| PlanTextPartial (p : PartialPlan) (missing : deficient p = true).

(** Value returned by [plan_presentation]. *)
Inductive PlanValue : Type :=
| PlanNone
| PlanFalsy
| PlanDict (p : Plan)
| PlanPartial (p : PartialPlan) (missing : deficient p = true).

(** Everything one request obtains from outside.  The uuids stand for the
    strings produced by [uuid.uuid4()]; [completion_order] lists the
    positions of the image futures in the order [as_completed] yields them. *)
Record Remote : Type := mkRemote {
  doc_uuid : string;
  upload_reply : option (string * FileState);   (* client.files.upload *)
  file_get_reply : nat -> option FileState;     (* k-th client.files.get *)
  cache_reply : CacheReply;
  plan_reply : PlanReply;
  image_reply : nat -> ImageReply;
  completion_order : list nat;
  video_env : VideoEnv;
  pres_uuid : string;
  commit_ok : bool
}.

(** The incoming request: [request.form] and, for [request.files], the
    [filename] of each uploaded file. *)
Record Request : Type := mkRequest {
  form : gmap string string;
  files : gmap string string
}.

(** ** The services and the handler *)

Section App.

(** [url_for('static', filename=..., _external=...)] and
    [url_for('viewer', pid=...)], left abstract. *)
Variable url_for_static : bool -> string -> string.
Variable url_for_viewer : string -> string.

(** *** [AIService.get_cached_architect] *)

Definition get_cached_architect (reply : CacheReply) : M (option string) :=
  w <- get_world;;
  if negb (Py.truthy (cached_architect_name w)) then
    try_except
      (emit CachesCreate;;;
       match reply with
       | CacheCreated cache_name =>
           modify (set_cached_architect_name (Some cache_name));;;
           w' <- get_world;;
           ret (cached_architect_name w')
       | CacheRaises => raise Py.RemoteError
       end)
      (fun _ => ret None)
  else ret (cached_architect_name w).

(** *** [AIService.generate_image]

    Runs on a pool worker and never raises; returns
    [(slide_index, filename, filepath)]. *)
Definition generate_image (reply : ImageReply) (prompt : string) (slide_index : nat)
  : nat * option string * option string :=
  match reply with
  | ImageRaises => (slide_index, None, None)
  | ImageParts parts uuid saved =>
      match filter (fun has_inline_data => has_inline_data = true) parts with
      | [] => (slide_index, None, None)
      | _ :: _ =>
          if saved then
            let filename := "img_" ++ uuid ++ ".png" in
            let filepath := path_join UPLOAD_FOLDER filename in
            (slide_index, Some filename, Some filepath)
          else (slide_index, None, None)
      end
  end.

(** *** [AIService.generate_video] *)

(** The [while not operation.done and poll_count < max_polls] loop.  The
    loop test comes first, so [fuel = max_polls] iterations are enough. *)
Fixpoint poll_until_done (env : VideoEnv) (fuel : nat)
         (operation : Operation) (poll_count : nat) : M (Operation * nat) :=
  if negb (op_done operation) && (poll_count <? max_polls)%nat then
    match fuel with
    | O => hang
    | S fuel' =>
        emit (Sleep 5);;;
        emit OperationsGet;;;
        operation' <- from_reply (poll_reply env poll_count) Py.RemoteError;;
        poll_until_done env fuel' operation' (S poll_count)
    end
  else ret (operation, poll_count).

Definition has_generated_video (operation : Operation) : bool :=
  match generated_videos operation with
  | Some (_ :: _) => true
  | _ => false
  end.

Definition generate_video_body (env : VideoEnv) (image_path prompt : string)
  : M (option string) :=
  require (image_readable env) Py.OSError;;;
  emit (VideosGenerate image_path ("Cinematic 4k. " ++ prompt));;;
  operation <- from_reply (submitted env) Py.RemoteError;;
  ' (operation, _) <- poll_until_done env max_polls operation 0%nat;;
  if negb (op_done operation) then ret None
  else if negb (has_generated_video operation) then ret None
  else
    let filename := "veo_" ++ video_uuid env ++ ".mp4" in
    let filepath := path_join UPLOAD_FOLDER filename in
    emit (FilesDownload filepath);;;
    require (download_ok env) Py.RemoteError;;;
    ret (Some (url_for_static true ("uploads/" ++ filename))).

Definition generate_video (env : VideoEnv) (image_path prompt : string)
  : M (option string) :=
  try_except (generate_video_body env image_path prompt) (fun _ => ret None).

(** *** [AIService.plan_presentation] *)

(** The wait [while file_ref.state.name == "PROCESSING"] has no bound of
    its own; [fuel] bounds the number of iterations the model follows. *)
Fixpoint wait_processing (remote : Remote) (fuel : nat)
         (state : FileState) (gets : nat) : M FileState :=
  match state with
  | PROCESSING =>
      match fuel with
      | O => hang
      | S fuel' =>
          emit (Sleep 1);;;
          emit FilesGet;;;
          state' <- from_reply (file_get_reply remote gets) Py.RemoteError;;
          wait_processing remote fuel' state' (S gets)
      end
  | _ => ret state
  end.

(** The [if pdf_path:] block; returns the new [contents] and
    [user_prompt].  When anything in the [try] raises, both are left as
    they were. *)
Definition upload_pdf (remote : Remote) (fuel : nat) (pdf_path : string)
           (contents : list Content) (user_prompt : string)
  : M (list Content * string) :=
  try_except
    (emit (FilesUpload pdf_path);;;
     ' (file_name, state) <- from_reply (upload_reply remote) Py.RemoteError;;
     wait_processing remote fuel state 0%nat;;;
     ret ((contents ++ [FileRef file_name])%list,
          user_prompt ++ newline ++ newline ++ "Refer to the uploaded PDF file for facts."))
    (fun _ => ret (contents, user_prompt)).

Definition plan_presentation (remote : Remote) (fuel : nat)
           (topic : option string) (slide_count : Z)
           (pdf_path url_link : option string) : M PlanValue :=
  let contents := [] in
  let user_prompt :=
    "Topic: " ++ Py.format_opt topic ++ ". Length: " ++ Py.str_of_int slide_count ++ " slides." in
  let user_prompt :=
    if Py.truthy url_link
    then user_prompt ++ newline ++ newline ++ "Context URL: " ++ Py.format_opt url_link
                     ++ " (Browse this site for content)."
    else user_prompt in
  ' (contents, user_prompt) <-
    (if Py.truthy pdf_path
     then upload_pdf remote fuel (Py.format_opt pdf_path) contents user_prompt
     else ret (contents, user_prompt));;
  let contents := (contents ++ [Text user_prompt])%list in
  cached_name <- get_cached_architect (cache_reply remote);;
  try_except
    (emit (PlanCall contents cached_name);;;
     match plan_reply remote with
     | PlanCallRaises => raise Py.RemoteError
     | PlanTextInvalid => raise Py.JSONDecodeError
     | PlanTextFalsy => ret PlanFalsy
     | PlanText p => ret (PlanDict p)
     | PlanTextPartial p missing => ret (PlanPartial p missing)
     end)
    (fun _ => ret PlanNone).

(** *** The media batch of [generate] *)

(** The locals of [generate] that live across iterations of the
    [as_completed] loop: the list [slides] and the variable [media_url]
    ([None] while it has not been assigned). *)
Record Batch : Type := mkBatch {
  slides : list (option SlideResult);
  media_url_var : option string
}.

(** Body of [for future in as_completed(future_to_slide)], for the future
    whose result is [(idx, img_url, local_path)]. *)
Definition on_completed (plan : Plan) (enable_video : bool) (env : VideoEnv)
           (result : nat * option string * option string) (st : Batch) : M Batch :=
  let '(idx, img_url, local_path) := result in
  s_data <- subscript (plan_slides plan) idx;;
  ' (img_url, media_url_var, media_type) <-
    match img_url with
    | None =>
        ret ("placeholder.png", media_url_var st, image)
    | Some filename =>
        let media_url := url_for_static true ("uploads/" ++ filename) in
        if enable_video && (idx =? 0)%nat && Py.truthy (video_prompt s_data)
           && Py.truthy local_path
        then
          video_url <- generate_video env (Py.format_opt local_path)
                                      (Py.format_opt (video_prompt s_data));;
          if Py.truthy video_url
          then ret (filename, video_url, video)
          else ret (filename, Some media_url, image)
        else ret (filename, Some media_url, image)
    end;;
  media_url <-
    (if Py.truthy_str img_url
     then from_reply media_url_var Py.UnboundLocalError
     else ret (url_for_static false "placeholder.png"));;
  slides' <- setitem (slides st) idx
               (Some (mkSlideResult (title s_data) (content s_data) media_url media_type));;
  ret (mkBatch slides' media_url_var).

Fixpoint fan_in (plan : Plan) (enable_video : bool) (env : VideoEnv)
         (completed : list (nat * option string * option string)) (st : Batch)
  : M Batch :=
  match completed with
  | [] => ret st
  | result :: rest =>
      st' <- on_completed plan enable_video env result st;;
      fan_in plan enable_video env rest st'
  end.

(** [executor.submit] for each [(i, s)] of [enumerate(plan['slides'])]:
    the calls go out in index order, starting at index [i]. *)
Fixpoint submit_all (i : nat) (specs : list SlideSpec) : M unit :=
  match specs with
  | [] => ret tt
  | s :: rest => emit (ImageCall (visual_prompt s) i);;; submit_all (S i) rest
  end.

(** The result of every future, in submission order. *)
Definition futures (remote : Remote) (plan : Plan)
  : list (nat * option string * option string) :=
  imap (fun i s => generate_image (image_reply remote i) (visual_prompt s) i)
       (plan_slides plan).

(** The results in the order [as_completed] yields them. *)
Definition as_completed (remote : Remote) (plan : Plan)
  : list (nat * option string * option string) :=
  omap (fun k => futures remote plan !! k) (completion_order remote).

Definition media_batch (remote : Remote) (plan : Plan) (enable_video : bool)
  : M (list (option SlideResult)) :=
  let slides0 := replicate (length (plan_slides plan)) None in
  submit_all 0 (plan_slides plan);;;
  st <- fan_in plan enable_video (video_env remote) (as_completed remote plan)
               (mkBatch slides0 None);;
  ret (slides st).

(** *** The same steps on a reply in which keys are missing

    [plan_presentation] returns the parsed reply as it is, so lines 410 to
    463 of [generate] also run on a [PartialPlan]; a subscript of a missing
    key raises. *)

Definition lookup_key {A} (v : option A) : M A := from_reply v Py.SubscriptError.

(** The dict comprehension: the submissions made before the first element
    without [visual_prompt] have gone out when the subscript raises. *)
Fixpoint submit_partial (i : nat) (items : list PartialSlide) : M unit :=
  match items with
  | [] => ret tt
  | s :: rest =>
      prompt <- lookup_key (visual_prompt_key s);;
      emit (ImageCall prompt i);;;
      submit_partial (S i) rest
  end.

Definition futures_partial (remote : Remote) (items : list PartialSlide)
  : list (nat * option string * option string) :=
  imap (fun i s => generate_image (image_reply remote i) (default "" (visual_prompt_key s)) i)
       items.

(** [as_completed] yields every future of the dict once it is done.  The
    futures [completion_order] does not list are taken to be done last, in
    the order of submission. *)
Definition yield_order (remote : Remote) (n : nat) : list nat :=
  (completion_order remote
     ++ filter (fun k => k ∉ completion_order remote) (seq 0 n))%list.

Definition as_completed_partial (remote : Remote) (items : list PartialSlide)
  : list (nat * option string * option string) :=
  omap (fun k => futures_partial remote items !! k) (yield_order remote (length items)).

(** Body of the loop: the dict display of line 444 subscripts [title] and
    [content] after the video step and before it reads [media_url]. *)
Definition on_completed_partial (items : list PartialSlide) (enable_video : bool)
           (env : VideoEnv) (result : nat * option string * option string) (st : Batch)
  : M Batch :=
  let '(idx, img_url, local_path) := result in
  s_data <- subscript items idx;;
  ' (img_url, media_url_var, media_type) <-
    match img_url with
    | None =>
        ret ("placeholder.png", media_url_var st, image)
    | Some filename =>
        let media_url := url_for_static true ("uploads/" ++ filename) in
        if enable_video && (idx =? 0)%nat && Py.truthy (video_prompt_key s_data)
           && Py.truthy local_path
        then
          video_url <- generate_video env (Py.format_opt local_path)
                                      (Py.format_opt (video_prompt_key s_data));;
          if Py.truthy video_url
          then ret (filename, video_url, video)
          else ret (filename, Some media_url, image)
        else ret (filename, Some media_url, image)
    end;;
  slide_title <- lookup_key (title_key s_data);;
  slide_content <- lookup_key (content_key s_data);;
  media_url <-
    (if Py.truthy_str img_url
     then from_reply media_url_var Py.UnboundLocalError
     else ret (url_for_static false "placeholder.png"));;
  slides' <- setitem (slides st) idx
               (Some (mkSlideResult slide_title slide_content media_url media_type));;
  ret (mkBatch slides' media_url_var).

Fixpoint fan_in_partial (items : list PartialSlide) (enable_video : bool) (env : VideoEnv)
         (completed : list (nat * option string * option string)) (st : Batch)
  : M Batch :=
  match completed with
  | [] => ret st
  | result :: rest =>
      st' <- on_completed_partial items enable_video env result st;;
      fan_in_partial items enable_video env rest st'
  end.

Definition use_partial_plan (remote : Remote) (p : PartialPlan) (enable_video : bool)
  : M Response :=
  match p with
  | NoSlides => raise Py.SubscriptError
  | Slides plan_title_key items =>
      let slides0 := replicate (length items) None in
      submit_partial 0 items;;;
      st <- fan_in_partial items enable_video (video_env remote)
                           (as_completed_partial remote items) (mkBatch slides0 None);;
      w <- get_world;;
      pres_title <- lookup_key plan_title_key;;
      let new_pres :=
        mkPresentation (pres_uuid remote) pres_title (slides st)
                       (user_ident <$> g_user w) enable_video in
      emit DbCommit;;;
      require (commit_ok remote) Py.StorageError;;;
      modify (add_presentation new_pres);;;
      ret (RedirectJson (url_for_viewer (pres_id new_pres)))
  end.

(** *** The route [/generate] *)

Definition form_flag (rq : Request) (field value : string) : bool :=
  match form rq !! field with
  | Some s => String.eqb s value
  | None => false
  end.

(** [int(request.form.get('slide_count', 3))] *)
Definition read_slide_count (rq : Request) : M Z :=
  match form rq !! "slide_count" with
  | None => ret 3
  | Some s => from_reply (Py.int_of_str s) Py.ValueError
  end.

Definition guest_usage (w : World) : Z :=
  default 0 (session w !! "guest_usage").

(** [if not g.user: session['guest_usage'] = session.get('guest_usage', 0) + 1] *)
Definition count_guest_request : M unit :=
  w <- get_world;;
  match g_user w with
  | Some _ => ret tt
  | None => modify (set_session (<["guest_usage" := guest_usage w + 1]> (session w)))
  end.

(** Step 3 of [generate], "SAVE". *)
Definition save_presentation (remote : Remote) (plan : Plan)
           (slides : list (option SlideResult)) (enable_video : bool) : M Response :=
  w <- get_world;;
  let new_pres :=
    mkPresentation (pres_uuid remote) (plan_title plan) slides
                   (user_ident <$> g_user w) enable_video in
  emit DbCommit;;;
  require (commit_ok remote) Py.StorageError;;;
  modify (add_presentation new_pres);;;
  ret (RedirectJson (url_for_viewer (pres_id new_pres))).

(** Steps 1 to 3 of [generate]: plan, media batch, save. *)
Definition build_presentation (remote : Remote) (fuel : nat)
           (topic : option string) (slide_count : Z)
           (pdf_path url_link : option string) (enable_video : bool) : M Response :=
  plan <- plan_presentation remote fuel topic slide_count pdf_path url_link;;
  match plan with
  | PlanNone | PlanFalsy => ret (ErrorJson 500 "Planning Failed")
  | PlanDict plan =>
      slides <- media_batch remote plan enable_video;;
      save_presentation remote plan slides enable_video
  | PlanPartial p _ => use_partial_plan remote p enable_video
  end.

Definition generate (remote : Remote) (fuel : nat) (rq : Request) : M Response :=
  let topic := form rq !! "topic" in
  slide_count <- read_slide_count rq;;
  let enable_video := form_flag rq "enable_video" "true" in
  let url_link := form rq !! "url_link" in
  let pdf_file := files rq !! "pdf_file" in
  count_guest_request;;;
  (* pdf_file.save(pdf_path) writes the upload to disk; the file system is
     not part of the model *)
  let pdf_path :=
    if Py.truthy pdf_file
    then Some (path_join UPLOAD_FOLDER ("doc_" ++ doc_uuid remote ++ ".pdf"))
    else None in
  build_presentation remote fuel topic slide_count pdf_path url_link enable_video.

Definition guest_limit_reached : Response :=
  ErrorJson 403 "Guest limit reached (15). Please Register!".

(** [@guest_limit_check] *)
Definition guest_limit_check (f : M Response) : M Response :=
  w <- get_world;;
  match g_user w with
  | Some _ => f
  | None =>
      let usage := guest_usage w in
      if GUEST_LIMIT <=? usage
      then ret guest_limit_reached
      else f
  end.

(** [db.session.get(User, uid)] *)
Definition get_user (w : World) (uid : Z) : option User :=
  List.find (fun u => user_ident u =? uid) (users w).

(** [@app.before_request load_user] *)
Definition load_user : M unit :=
  modify (set_g_user None);;;
  w <- get_world;;
  match session w !! "user_id" with
  | Some uid => modify (set_g_user (get_user w uid))
  | None => ret tt
  end.

(** One POST to [/generate]. *)
Definition post_generate (remote : Remote) (fuel : nat) (rq : Request) : M Response :=
  load_user;;;
  guest_limit_check (generate remote fuel rq).

End App.

(** ** The account routes and the viewer *)

(** What a route other than [/generate] returns: a redirect, a plain
    string body with its status, or the rendered viewer template with the
    presentation it was given. *)
Inductive Page : Type :=
| Redirect (url : string)                (* redirect(url_for(...)) *)
| Body (status : nat) (text : string)    (* return "...", status *)
| ViewerPage (pres : Presentation).      (* render_template('viewer.html', pres=pres) *)

(** How such a route ends: with a page, with the [BadRequestKeyError]
    that [request.form[key]] raises for a missing key, or with another
    exception. *)
Inductive Reply : Type :=
| Replied (page : Page)
| BadRequestKeyError (key : string)
| Unhandled (e : Py.Exn).

(** What [register] obtains from outside: the primary key the database
    gives the new row, the salted hash [generate_password_hash] returns,
    and whether [db.session.commit] succeeds. *)
Record Signup : Type := mkSignup {
  new_user_id : Z;
  salted_hash : string;
  signup_commit_ok : bool
}.

Definition add_user (u : User) (w : World) : World :=
  mkWorld (session w) (g_user w) (cached_architect_name w) (users w ++ [u])
          (presentations w) (trace w).

(** [User.query.filter_by(email=...).first()] *)
Definition user_by_email (w : World) (address : string) : option User :=
  List.find (fun u => String.eqb (email u) address) (users w).

(** [db.session.get(Presentation, pid)] *)
Definition get_presentation (w : World) (pid : string) : option Presentation :=
  List.find (fun p => String.eqb (pres_id p) pid) (presentations w).

(** The world a view function starts in: [load_user] has run. *)
Definition before_request (w : World) : World := (load_user w).2.

Section Accounts.

(** [url_for('index')] and werkzeug's [check_password_hash], left abstract. *)
Variable url_for_index : string.
Variable check_password_hash : string -> string -> bool.

(** [register] *)
Definition register (signup : Signup) (rq : Request) (w : World) : Reply * World :=
  let data := form rq in
  match data !! "email" with
  | None => (BadRequestKeyError "email", w)
  | Some address =>
      match user_by_email w address with
      | Some _ => (Replied (Body 200 "Email taken <a href='/'>Back</a>"), w)
      | None =>
          match data !! "password" with
          | None => (BadRequestKeyError "password", w)
          | Some password =>
              let hashed := salted_hash signup in
              match data !! "name" with
              | None => (BadRequestKeyError "name", w)
              | Some name =>
                  let w := log_event DbCommit w in
                  if signup_commit_ok signup then
                    let user := mkUser (new_user_id signup) address hashed name in
                    let w := add_user user w in
                    let w := set_session (<["user_id" := user_ident user]> (session w)) w in
                    (Replied (Redirect url_for_index), w)
                  else (Unhandled Py.StorageError, w)
              end
          end
      end
  end.

(** [login].  The password field is read only when a user was found. *)
Definition login (rq : Request) (w : World) : Reply * World :=
  let data := form rq in
  match data !! "email" with
  | None => (BadRequestKeyError "email", w)
  | Some address =>
      match user_by_email w address with
      | Some user =>
          match data !! "password" with
          | None => (BadRequestKeyError "password", w)
          | Some password =>
              if check_password_hash (password_hash user) password
              then (Replied (Redirect url_for_index),
                    set_session (<["user_id" := user_ident user]> (session w)) w)
              else (Replied (Body 200 "Invalid <a href='/'>Back</a>"), w)
          end
      | None => (Replied (Body 200 "Invalid <a href='/'>Back</a>"), w)
      end
  end.

(** [logout]: [session.pop('user_id', None)] *)
Definition logout (w : World) : Reply * World :=
  (Replied (Redirect url_for_index), set_session (delete "user_id" (session w)) w).

(** [viewer] *)
Definition viewer (pid : string) (w : World) : Reply * World :=
  match get_presentation w pid with
  | None => (Replied (Body 404 "Not Found"), w)
  | Some pres => (Replied (ViewerPage pres), w)
  end.

(** The routes as served: [load_user] runs before the view function. *)
Definition post_register (signup : Signup) (rq : Request) (w : World) : Reply * World :=
  register signup rq (before_request w).

Definition post_login (rq : Request) (w : World) : Reply * World :=
  login rq (before_request w).

Definition get_logout (w : World) : Reply * World :=
  logout (before_request w).

Definition get_viewer (pid : string) (w : World) : Reply * World :=
  viewer pid (before_request w).

End Accounts.

(** ** Running the model *)

(** The user [load_user] finds for the session of [w]. *)
Definition current_user (w : World) : option User :=
  match session w !! "user_id" with
  | Some uid => get_user w uid
  | None => None
  end.

(** The form field [slide_count] is absent or a literal [int] accepts. *)
Definition slide_count_readable (rq : Request) : bool :=
  match form rq !! "slide_count" with
  | Some s => bool_decide (is_Some (Py.int_of_str s))
  | None => true
  end.

(** The session is a signed cookie, which Flask writes when it sends a
    response ([save_session] in [process_response]).  What a request wrote
    into the session therefore reaches the client only if the request is
    answered.  A view that returns is answered.  An exception that leaves
    the view is answered by Flask with a 500 response, unless exceptions
    propagate, as they do in debug mode ([socketio.run(app, debug=True)]
    when the module is run as a script); a request that does not return is
    not answered.  Everything else the request did stays done. *)
Definition answered {A} (debug : bool) (r : Res A) : bool :=
  match r with
  | Ok _ => true
  | Raise _ => negb debug
  | Hang => false
  end.

Definition after_request {A} (debug : bool) (w : World) (out : Res A * World) : World :=
  if answered debug out.1 then out.2 else set_session (session w) out.2.

(** One POST to [/generate] as the client sees it. *)
Definition request_generate (url_for_static : bool -> string -> string)
           (url_for_viewer : string -> string) (debug : bool)
           (remote : Remote) (fuel : nat) (rq : Request) (w : World)
  : Res Response * World :=
  let out := post_generate url_for_static url_for_viewer remote fuel rq w in
  (out.1, after_request debug w out).

(** Successive POSTs of one client to [/generate], each with its own
    oracle.  A request that raises leaves the server running. *)
Fixpoint serve (url_for_static : bool -> string -> string) (url_for_viewer : string -> string)
         (debug : bool) (requests : list (Remote * nat * Request)) (w : World)
  : list (Res Response) * World :=
  match requests with
  | [] => ([], w)
  | (remote, fuel, rq) :: rest =>
      let '(r, w') := request_generate url_for_static url_for_viewer debug remote fuel rq w in
      let '(rs, w'') := serve url_for_static url_for_viewer debug rest w' in
      (r :: rs, w'')
  end.

(** Successive calls of [get_cached_architect] within one process; the
    k-th call would receive [replies !! k] from [client.caches.create]. *)
Fixpoint call_cache_manager (replies : list CacheReply) : M (list (option string)) :=
  match replies with
  | [] => ret []
  | reply :: rest =>
      handle <- get_cached_architect reply;;
      handles <- call_cache_manager rest;;
      ret (handle :: handles)
  end.

(** Counting events of a trace. *)
Fixpoint count_events (p : Event -> bool) (tr : list Event) : nat :=
  match tr with
  | [] => 0%nat
  | e :: rest => ((if p e then 1 else 0) + count_events p rest)%nat
  end.

Definition is_caches_create (e : Event) : bool :=
  match e with CachesCreate => true | _ => false end.

Definition is_operations_get (e : Event) : bool :=
  match e with OperationsGet => true | _ => false end.

(** Events of media generation and of persistence. *)
Definition is_media_or_save (e : Event) : bool :=
  match e with
  | ImageCall _ _ | VideosGenerate _ _ | OperationsGet | FilesDownload _ | DbCommit => true
  | _ => false
  end.

(** The events the media batch can emit. *)
Definition is_batch (e : Event) : bool :=
  match e with
  | ImageCall _ _ | VideosGenerate _ _ | Sleep _ | OperationsGet | FilesDownload _ => true
  | _ => false
  end.

(** The events of the document upload. *)
Definition is_upload (e : Event) : bool :=
  match e with
  | FilesUpload _ | FilesGet | Sleep _ => true
  | _ => false
  end.

(** The events [plan_presentation] can emit. *)
Definition is_planning (e : Event) : bool :=
  match e with
  | CachesCreate | FilesUpload _ | FilesGet | Sleep _ | PlanCall _ _ => true
  | _ => false
  end.

(** One round of the poller: [time.sleep(5)], then [client.operations.get]. *)
Definition poll_round : list Event := [Sleep 5; OperationsGet].

(** Number of [client.operations.get] calls made so far. *)
Definition polls (w : World) : nat := count_events is_operations_get (trace w).

(** Number of [client.caches.create] calls made so far. *)
Definition cache_creations (w : World) : nat := count_events is_caches_create (trace w).

(** *** Concrete inputs for the examples *)

(** A URL builder after Flask's defaults: static files under [/static/],
    external URLs prefixed by the host. *)
Definition flask_static (external : bool) (filename : string) : string :=
  (if external then "http://localhost:5000" else "") ++ "/static/" ++ filename.

Definition flask_viewer (pid : string) : string := "/viewer/" ++ pid.

(** A fresh process with a fresh anonymous session. *)
Definition fresh : World := mkWorld ∅ None None [] [] [].

Definition first_slide : SlideSpec :=
  mkSlideSpec "Beyond Binary" "Qubits" "Abstract qubit" (Some "Slow pan").

Definition second_slide : SlideSpec :=
  mkSlideSpec "The Problem" "Decoherence" "Frozen chip" (Some "Zoom out").

Definition one_slide : Plan := mkPlan "Quantum Computing" [first_slide].

Definition two_slides : Plan := mkPlan "Quantum Computing" [first_slide; second_slide].

Definition image_ok (uuid : string) : ImageReply := ImageParts [true] uuid true.

(** A video operation that never completes, and one that is done at the
    third poll. *)
Definition pending : Operation := mkOperation false None.

Definition video_never_done : VideoEnv :=
  mkVideoEnv true (Some pending) (fun _ => Some pending) "v" true.

Definition video_done_at_3 : VideoEnv :=
  mkVideoEnv true (Some pending)
             (fun k => Some (mkOperation (2 <=? k)%nat (Some ["clip"]))) "v" true.

Definition oracle (plan : PlanReply) (images : nat -> ImageReply)
           (order : list nat) (env : VideoEnv) : Remote :=
  mkRemote "d" None (fun _ => None) CacheRaises plan images order env "p" true.

Definition request_of (fields : list (string * string)) : Request :=
  mkRequest (list_to_map fields) ∅.

(** Image replies: every task succeeds; every task fails; only the task
    of slide [k] fails. *)
Definition images_ok (i : nat) : ImageReply :=
  image_ok (Py.str_of_int (Z.of_nat i)).

Definition images_fail (i : nat) : ImageReply := ImageRaises.

Definition images_fail_at (k : nat) (i : nat) : ImageReply :=
  if (i =? k)%nat then ImageRaises else images_ok i.

(** One slide whose image task fails. *)
Definition remote_image_fails : Remote :=
  oracle (PlanText one_slide) images_fail [0%nat] video_never_done.

(** Two slides; slide 0 completes first and succeeds, slide 1 fails. *)
Definition remote_second_fails : Remote :=
  oracle (PlanText two_slides) (images_fail_at 1) [0%nat; 1%nat] video_never_done.

(** Two slides, both images succeed, slide 1 completes first; the video of
    slide 0 is ready at the third poll, or never. *)
Definition remote_video_ready : Remote :=
  oracle (PlanText two_slides) images_ok [1%nat; 0%nat] video_done_at_3.

Definition remote_video_times_out : Remote :=
  oracle (PlanText two_slides) images_ok [1%nat; 0%nat] video_never_done.

(** The [str] with the given UTF-8 bytes, and a literal of [n] digits. *)
Definition str_of_bytes (bytes : list nat) : string :=
  string_of_list_ascii (ascii_of_nat <$> bytes).

Definition ones (n : nat) : string := string_of_list_ascii (replicate n "1"%char).

(** A plan written as a reply in which no key is missing. *)
Definition slide_as_partial (s : SlideSpec) : PartialSlide :=
  mkPartialSlide (Some (title s)) (Some (content s)) (Some (visual_prompt s)) (video_prompt s).

Definition plan_as_partial (plan : Plan) : PartialPlan :=
  Slides (Some (plan_title plan)) (slide_as_partial <$> plan_slides plan).

(** The planner is answered with a value whose second slide lacks
    [content]; the images succeed in the order of submission. *)
Definition partial_two_slides : PartialPlan :=
  Slides (Some "Quantum Computing")
         [mkPartialSlide (Some "Beyond Binary") (Some "Qubits") (Some "Abstract qubit")
                         (Some "Slow pan");
          mkPartialSlide (Some "The Problem") None (Some "Frozen chip") (Some "Zoom out")].

Definition remote_partial_plan : Remote :=
  oracle (PlanTextPartial partial_two_slides eq_refl) images_ok [0%nat; 1%nat] video_done_at_3.

(** A well-formed request for two slides with video. *)
Definition request_two_slides : Request :=
  request_of [("topic", "Quantum Computing"); ("slide_count", "2");
              ("enable_video", "true")].

(** A request whose slide count is not an integer literal. *)
Definition request_malformed_count : Request :=
  request_of [("topic", "Quantum Computing"); ("slide_count", "three")].

(** The planning call raises. *)
Definition remote_plan_fails : Remote :=
  oracle PlanCallRaises images_ok [0%nat; 1%nat] video_done_at_3.

(** A document is attached; its processing ends at the third poll; then
    the planning text does not parse. *)
Definition remote_document_plan_fails : Remote :=
  mkRemote "d" (Some ("files/deck", PROCESSING))
           (fun k => Some (if (k <? 2)%nat then PROCESSING else ACTIVE))
           CacheRaises PlanTextInvalid images_ok [0%nat; 1%nat] video_done_at_3 "p" true.

Definition request_with_document : Request :=
  mkRequest (list_to_map [("topic", "Quantum Computing"); ("slide_count", "2")])
            (list_to_map [("pdf_file", "deck.pdf")]).

(** A request that asks for zero slides. *)
Definition request_zero_slides : Request :=
  request_of [("topic", "Quantum Computing"); ("slide_count", "0")].

(** ** Relating the world before and after a computation *)

(** [respects R m]: whatever [m] does and however it ends, the world it
    leaves is [R]-related to the world it started from. *)
Definition respects {A} (R : relation World) (m : M A) : Prop :=
  forall w, R w (m w).2.

(** The component [proj] of the world is left as it was. *)
Definition keeps {X} (proj : World -> X) : relation World :=
  fun w w' => proj w' = proj w.

(** The trace grew, by events that all satisfy [P]. *)
Definition appends (P : Event -> bool) : relation World :=
  fun w w' =>
    exists delta, trace w' = (trace w ++ delta)%list /\ Forall (fun e => P e = true) delta.

(** The wait for the uploaded document ends within [n] polls: the upload
    raised, or the file was not [PROCESSING] to begin with, or one of the
    first [n] calls of [client.files.get] raises or reports another state. *)
Definition upload_settles (remote : Remote) (n : nat) : Prop :=
  match upload_reply remote with
  | Some (_, PROCESSING) =>
      exists k, (k < n)%nat /\ file_get_reply remote k <> Some PROCESSING
  | _ => True
  end.

(** No document is attached, or the wait for it ends within [fuel] polls. *)
Definition upload_returns (remote : Remote) (fuel : nat) (pdf_path : option string) : Prop :=
  Py.truthy pdf_path = false \/ exists n, (n <= fuel)%nat /\ upload_settles remote n.

(** The image task of slide [idx] succeeded: it produced the file
    [filename], saved at the non-empty path [path]. *)
Definition image_succeeded (remote : Remote) (plan : Plan) (idx : nat)
           (filename path : string) : Prop :=
  exists s, plan_slides plan !! idx = Some s
            /\ generate_image (image_reply remote idx) (visual_prompt s) idx
               = (idx, Some filename, Some path)
            /\ Py.truthy_str path = true.

(** A slot holding a video is slot 0, video was requested, slide 0 has
    a video prompt, and one of the [completed] results is an image for
    index 0 with a local path. *)
Definition video_justified (plan : Plan) (enable_video : bool)
           (completed : list (nat * option string * option string))
           (slides : list (option SlideResult)) : Prop :=
  forall i r,
    slides !! i = Some (Some r) -> media_type r = video ->
    enable_video = true /\ i = 0%nat
    /\ exists s filename path,
        plan_slides plan !! 0%nat = Some s
        /\ Py.truthy (video_prompt s) = true
        /\ (0%nat, Some filename, Some path) ∈ completed
        /\ Py.truthy_str path = true.

(** The slide made from the image [filename] of a planned slide, and the
    slide with the placeholder URL, [url_for('static',
    filename='placeholder.png')], that the handler names for failed
    images. *)
Definition image_slide (url_for_static : bool -> string -> string)
           (s : SlideSpec) (filename : string) : SlideResult :=
  mkSlideResult (title s) (content s) (url_for_static true ("uploads/" ++ filename)) image.

Definition placeholder_slide (url_for_static : bool -> string -> string)
           (s : SlideSpec) : SlideResult :=
  mkSlideResult (title s) (content s) (url_for_static false "placeholder.png") image.

(** Slots that hold a slide hold the title and content of the planned slide
    of the same index. *)
Definition aligned (plan : Plan) (slides : list (option SlideResult)) : Prop :=
  length slides = length (plan_slides plan)
  /\ forall i r, slides !! i = Some (Some r) ->
                 exists s, plan_slides plan !! i = Some s
                           /\ slide_title r = title s /\ slide_content r = content s.

(** ** Notions used for the services beyond the orchestration claims *)


(** The remote calls of the video step. *)
Definition is_video_call (e : Event) : bool :=
  match e with
  | VideosGenerate _ _ | OperationsGet | FilesDownload _ => true
  | _ => false
  end.

Definition is_videos_generate (e : Event) : bool :=
  match e with VideosGenerate _ _ => true | _ => false end.

(** The image calls of a plan: one per slide, in index order. *)
Definition image_calls (plan : Plan) : list Event :=
  imap (fun i s => ImageCall (visual_prompt s) i) (plan_slides plan).

(** The file name and the local path [generate_video] gives a video. *)
Definition video_filename (env : VideoEnv) : string := "veo_" ++ video_uuid env ++ ".mp4".
Definition video_filepath (env : VideoEnv) : string := path_join UPLOAD_FOLDER (video_filename env).

(** The operation [first] is seen done after [n] polls, as [last]: it is
    done when submitted ([n = 0]), or it is pending, the first [n - 1]
    polls report pending operations and the [n]-th reports [last], done. *)
Definition done_after (env : VideoEnv) (first : Operation) (n : nat) (last : Operation)
  : Prop :=
  (n = 0%nat /\ last = first /\ op_done first = true)
  \/ (op_done first = false
      /\ exists k, n = S k /\ (k < max_polls)%nat
                   /\ (forall j, (j < k)%nat ->
                                 exists op, poll_reply env j = Some op /\ op_done op = false)
                   /\ poll_reply env k = Some last /\ op_done last = true).

(** The base prompt of [plan_presentation], and the notes it appends for a
    URL and for an uploaded document. *)
Definition base_prompt (topic : option string) (slide_count : Z) : string :=
  "Topic: " ++ Py.format_opt topic ++ ". Length: " ++ Py.str_of_int slide_count ++ " slides.".

Definition url_note (url_link : string) : string :=
  newline ++ newline ++ "Context URL: " ++ url_link ++ " (Browse this site for content).".

Definition pdf_note : string :=
  newline ++ newline ++ "Refer to the uploaded PDF file for facts.".

(** The prompt before the document is looked at. *)
Definition prompt_with_url (topic : option string) (slide_count : Z)
           (url_link : option string) : string :=
  if Py.truthy url_link
  then base_prompt topic slide_count ++ url_note (Py.format_opt url_link)
  else base_prompt topic slide_count.

(** The slide a successful video gives slide 0. *)
Definition video_slide (s : SlideSpec) (video_url : string) : SlideResult :=
  mkSlideResult (title s) (content s) video_url video.

(** Email addresses of the user table. *)
Definition emails (w : World) : list string := email <$> users w.

(** The document upload raises. *)
Definition remote_upload_raises : Remote :=
  mkRemote "d" None (fun _ => None) (CacheCreated "cachedContents/a1") (PlanText two_slides)
           images_ok [0%nat; 1%nat] video_done_at_3 "p" true.

(** The document ends in state [FAILED] at the second poll. *)
Definition remote_document_failed : Remote :=
  mkRemote "d" (Some ("files/deck", PROCESSING))
           (fun k => Some (if (k <? 1)%nat then PROCESSING else FAILED))
           (CacheCreated "cachedContents/a1") (PlanText two_slides)
           images_ok [0%nat; 1%nat] video_done_at_3 "p" true.

(** A user table with one row, a signup oracle, and toy password hashing
    for the examples: the hash is the password behind a salt. *)
Definition ada : User := mkUser 1 "ada@example.org" "salt$lovelace" "Ada".

Definition one_user : World := mkWorld ∅ None None [ada] [] [].

Definition signup_grace : Signup := mkSignup 2 "salt$hopper" true.

Definition toy_check (hashed password : string) : bool :=
  String.eqb hashed ("salt$" ++ password).

Definition form_grace : Request :=
  request_of [("email", "grace@example.org"); ("password", "hopper"); ("name", "Grace")].

(** The session of the user [ada], who used up the guest quota before
    logging in. *)
Definition returning_user : World :=
  mkWorld (<["user_id" := 1]> (<["guest_usage" := 15]> ∅)) None None [ada] [] [].

(** The value the planner makes of the reply of the planning call. *)
Definition planned (reply : PlanReply) : PlanValue :=
  match reply with
  | PlanCallRaises | PlanTextInvalid => PlanNone
  | PlanTextFalsy => PlanFalsy
  | PlanText p => PlanDict p
  | PlanTextPartial p missing => PlanPartial p missing
  end.

(** One iteration of the wait for the uploaded document. *)
Definition file_round : list Event := [Sleep 1; FilesGet].

(** The events of the [if pdf_path:] block when it makes [gets] calls of
    [client.files.get]. *)
Definition upload_events (pdf_path : string) (gets : nat) : list Event :=
  FilesUpload pdf_path :: concat (replicate gets file_round).

(** The upload returns the file [name] and the file is seen out of
    [PROCESSING], in state [last], after [gets] calls of
    [client.files.get]. *)
Definition document_ready (remote : Remote) (name : string) (gets : nat) (last : FileState)
  : Prop :=
  last <> PROCESSING
  /\ match gets with
     | O => upload_reply remote = Some (name, last)
     | S k =>
         upload_reply remote = Some (name, PROCESSING)
         /\ (forall j, (j < k)%nat -> file_get_reply remote j = Some PROCESSING)
         /\ file_get_reply remote k = Some last
     end.

(** The upload raises ([gets = 0]), or the file is [PROCESSING] and the
    [gets]-th call of [client.files.get] is the first one to raise. *)
Definition document_fails (remote : Remote) (gets : nat) : Prop :=
  match gets with
  | O => upload_reply remote = None
  | S k =>
      (exists name, upload_reply remote = Some (name, PROCESSING))
      /\ (forall j, (j < k)%nat -> file_get_reply remote j = Some PROCESSING)
      /\ file_get_reply remote k = None
  end.

(** The handle the cache manager returns in the world [w], and the remote
    calls it makes for it. *)
Definition cache_handle (reply : CacheReply) (w : World) : option string :=
  if Py.truthy (cached_architect_name w) then cached_architect_name w
  else match reply with
       | CacheCreated cache_name => Some cache_name
       | CacheRaises => None
       end.

Definition cache_events (w : World) : list Event :=
  if Py.truthy (cached_architect_name w) then [] else [CachesCreate].

(** The second poll for the document raises. *)
Definition remote_document_poll_raises : Remote :=
  mkRemote "d" (Some ("files/deck", PROCESSING))
           (fun k => if (k <? 1)%nat then Some PROCESSING else None)
           (CacheCreated "cachedContents/a1") (PlanText two_slides)
           images_ok [0%nat; 1%nat] video_done_at_3 "p" true.

(** The document stays in state [PROCESSING]. *)
Definition remote_document_stuck : Remote :=
  mkRemote "d" (Some ("files/deck", PROCESSING)) (fun _ => Some PROCESSING)
           (CacheCreated "cachedContents/a1") (PlanText two_slides)
           images_ok [0%nat; 1%nat] video_done_at_3 "p" true.

(** A process that already holds a cache handle. *)
Definition warm : World := mkWorld ∅ None (Some "cachedContents/a0") [] [] [].

(** * Properties *)

#[local] Instance keeps_preorder {X} (proj : World -> X) : PreOrder (keeps proj).
Proof.
  split.
  - intros w. reflexivity.
  - intros w1 w2 w3 H12 H23. unfold keeps in *. congruence.
Qed.

#[local] Instance appends_preorder (P : Event -> bool) : PreOrder (appends P).
Proof.
  split.
  - intros w. exists []. split; [by rewrite app_nil_r | constructor].
  - intros w1 w2 w3 (d1 & E1 & F1) (d2 & E2 & F2).
    exists (d1 ++ d2)%list. split.
    + by rewrite E2, E1, app_assoc.
    + by apply Forall_app.
Qed.

(** ** Rules for [respects] *)

Section Respects.

Context {R : relation World} {R_preorder : PreOrder R}.

Lemma respects_ret {A} (a : A) : respects R (ret a).
Proof. intros w. reflexivity. Qed.

Lemma respects_raise {A} (e : Py.Exn) : respects R (@raise A e).
Proof. intros w. reflexivity. Qed.

Lemma respects_hang {A} : respects R (@hang A).
Proof. intros w. reflexivity. Qed.

Lemma respects_get_world : respects R get_world.
Proof. intros w. reflexivity. Qed.

Lemma respects_modify (f : World -> World) :
  (forall w, R w (f w)) -> respects R (modify f).
Proof. intros H w. apply H. Qed.

Lemma respects_bind {A B} (m : M A) (k : A -> M B) :
  respects R m -> (forall a, respects R (k a)) -> respects R (bind m k).
Proof.
  intros Hm Hk w. unfold bind. specialize (Hm w).
  destruct (m w) as [[a | e |] w1]; simpl in *; try done.
  etrans; [exact Hm | apply Hk].
Qed.

Lemma respects_try_except {A} (body : M A) (handler : Py.Exn -> M A) :
  respects R body -> (forall e, respects R (handler e)) ->
  respects R (try_except body handler).
Proof.
  intros Hm Hk w. unfold try_except. specialize (Hm w).
  destruct (body w) as [[a | e |] w1]; simpl in *; try done.
  etrans; [exact Hm | apply Hk].
Qed.

Lemma respects_from_reply {A} (reply : option A) (e : Py.Exn) :
  respects R (from_reply reply e).
Proof. destruct reply; [apply respects_ret | apply respects_raise]. Qed.

Lemma respects_require (b : bool) (e : Py.Exn) : respects R (require b e).
Proof. destruct b; [apply respects_ret | apply respects_raise]. Qed.

Lemma respects_subscript {A} (l : list A) (i : nat) : respects R (subscript l i).
Proof. apply respects_from_reply. Qed.

Lemma respects_setitem {A} (l : list A) (i : nat) (v : A) : respects R (setitem l i v).
Proof. unfold setitem. destruct (decide _); [apply respects_ret | apply respects_raise]. Qed.

End Respects.

Create HintDb respects.

#[local] Hint Resolve respects_ret respects_raise respects_hang respects_get_world
  respects_from_reply respects_require respects_subscript respects_setitem : respects.

(** Breaks a goal [respects R m] down along the structure of [m]. *)
Ltac respects_step :=
  match goal with
  | |- respects _ (bind _ _) => apply respects_bind; [ | intros ? ]
  | |- respects _ (try_except _ _) => apply respects_try_except; [ | intros ? ]
  | |- respects _ (match ?x with _ => _ end) => destruct x
  | |- respects _ (let '(_, _) := ?x in _) => destruct x
  | |- respects _ _ => solve [ eauto with respects ]
  end.

Ltac respects_auto := repeat respects_step.

(** ** What each service may touch *)

Section Footprint.

Context (url_for_static : bool -> string -> string)
        (url_for_viewer : string -> string).
Context (R : relation World) `{!PreOrder R} (P : Event -> bool).
Hypothesis R_emit : forall e w, P e = true -> R w (log_event e w).
Hypothesis R_cache : forall c w, R w (set_cached_architect_name c w).

Lemma respects_emit (e : Event) : P e = true -> respects R (emit e).
Proof. intros H. apply respects_modify. intros w. by apply R_emit. Qed.

Lemma respects_get_cached_architect (reply : CacheReply) :
  P CachesCreate = true -> respects R (get_cached_architect reply).
Proof.
  intros HP. unfold get_cached_architect. respects_auto.
  - by apply respects_emit.
  - apply respects_modify. intros w. apply R_cache.
Qed.

Section Upload.

Hypothesis P_upload : forall e, is_upload e = true -> P e = true.

Lemma respects_wait_processing remote fuel state gets :
  respects R (wait_processing remote fuel state gets).
Proof.
  revert state gets. induction fuel as [| fuel IH]; intros state gets;
    destruct state; simpl; respects_auto;
    try (apply respects_emit, P_upload; reflexivity).
Qed.

Lemma respects_upload_pdf remote fuel pdf_path contents user_prompt :
  respects R (upload_pdf remote fuel pdf_path contents user_prompt).
Proof.
  unfold upload_pdf. respects_auto.
  - apply respects_emit, P_upload; reflexivity.
  - apply respects_wait_processing.
Qed.

End Upload.

Section Planning.

Hypothesis P_planning : forall e, is_planning e = true -> P e = true.

Lemma respects_plan_presentation remote fuel topic slide_count pdf_path url_link :
  respects R (plan_presentation remote fuel topic slide_count pdf_path url_link).
Proof.
  unfold plan_presentation. respects_auto.
  - apply respects_upload_pdf. intros e He. apply P_planning. by destruct e.
  - apply respects_get_cached_architect, P_planning; reflexivity.
  - apply respects_emit, P_planning; reflexivity.
Qed.

End Planning.

Section Media.

Hypothesis P_media : forall e, is_batch e = true -> P e = true.
Hypothesis P_save : P DbCommit = true.
Hypothesis R_save : forall p w, R w (add_presentation p w).

Lemma respects_poll_until_done env fuel operation poll_count :
  respects R (poll_until_done env fuel operation poll_count).
Proof.
  revert operation poll_count.
  induction fuel as [| fuel IH]; intros operation poll_count; simpl;
    respects_auto; try (apply respects_emit, P_media; reflexivity).
Qed.

Lemma respects_generate_video env image_path prompt :
  respects R (generate_video url_for_static env image_path prompt).
Proof.
  unfold generate_video, generate_video_body. respects_auto;
    try (apply respects_emit, P_media; reflexivity).
  apply respects_poll_until_done.
Qed.

Lemma respects_on_completed plan enable_video env result st :
  respects R (on_completed url_for_static plan enable_video env result st).
Proof.
  unfold on_completed. destruct result as [[idx img_url] local_path].
  respects_auto. apply respects_generate_video.
Qed.

Lemma respects_fan_in plan enable_video env completed st :
  respects R (fan_in url_for_static plan enable_video env completed st).
Proof.
  revert st. induction completed as [| result rest IH]; intros st; simpl;
    respects_auto.
  apply respects_on_completed.
Qed.

Lemma respects_submit_all i specs : respects R (submit_all i specs).
Proof.
  revert i. induction specs as [| s rest IH]; intros i; simpl; respects_auto.
  apply respects_emit, P_media; reflexivity.
Qed.

Lemma respects_media_batch remote plan enable_video :
  respects R (media_batch url_for_static remote plan enable_video).
Proof.
  unfold media_batch. respects_auto.
  - apply respects_submit_all.
  - apply respects_fan_in.
Qed.

Lemma respects_save_presentation remote plan slides enable_video :
  respects R (save_presentation url_for_viewer remote plan slides enable_video).
Proof.
  unfold save_presentation. respects_auto.
  - by apply respects_emit.
  - apply respects_modify. intros w. apply R_save.
Qed.

Lemma respects_submit_partial i items : respects R (submit_partial i items).
Proof.
  revert i. induction items as [| s rest IH]; intros i; simpl; unfold lookup_key;
    respects_auto.
  apply respects_emit, P_media; reflexivity.
Qed.

Lemma respects_on_completed_partial items enable_video env result st :
  respects R (on_completed_partial url_for_static items enable_video env result st).
Proof.
  unfold on_completed_partial, lookup_key. destruct result as [[idx img_url] local_path].
  respects_auto. apply respects_generate_video.
Qed.

Lemma respects_fan_in_partial items enable_video env completed st :
  respects R (fan_in_partial url_for_static items enable_video env completed st).
Proof.
  revert st. induction completed as [| result rest IH]; intros st; simpl;
    respects_auto.
  apply respects_on_completed_partial.
Qed.

Lemma respects_use_partial_plan remote p enable_video :
  respects R (use_partial_plan url_for_static url_for_viewer remote p enable_video).
Proof.
  unfold use_partial_plan, lookup_key. destruct p as [| plan_title_key items]; respects_auto.
  - apply respects_submit_partial.
  - apply respects_fan_in_partial.
  - by apply respects_emit.
  - apply respects_modify. intros w. apply R_save.
Qed.

Hypothesis P_planning : forall e, is_planning e = true -> P e = true.

Lemma respects_build_presentation remote fuel topic slide_count pdf_path url_link
      enable_video :
  respects R (build_presentation url_for_static url_for_viewer remote fuel topic
                                 slide_count pdf_path url_link enable_video).
Proof.
  unfold build_presentation. respects_auto.
  - by apply respects_plan_presentation.
  - apply respects_media_batch.
  - apply respects_save_presentation.
  - apply respects_use_partial_plan.
Qed.

End Media.

End Footprint.

(** The relations used below. *)

Lemma appends_emit (P : Event -> bool) e w :
  P e = true -> appends P w (log_event e w).
Proof. intros H. exists [e]. split; [reflexivity | by repeat constructor]. Qed.

Lemma appends_same_trace (P : Event -> bool) w w' :
  trace w' = trace w -> appends P w w'.
Proof. intros H. exists []. split; [by rewrite app_nil_r | constructor]. Qed.

(** ** Results of sequenced computations *)

Lemma bind_eq {A B} (m : M A) (k : A -> M B) (w : World) :
  bind m k w =
  match m w with
  | (Ok a, w1) => k a w1
  | (Raise e, w1) => (Raise e, w1)
  | (Hang, w1) => (Hang, w1)
  end.
Proof. reflexivity. Qed.

Lemma bind_Ok_inv {A B} (m : M A) (k : A -> M B) (w w' : World) (b : B) :
  bind m k w = (Ok b, w') ->
  exists a w1, m w = (Ok a, w1) /\ k a w1 = (Ok b, w').
Proof.
  rewrite bind_eq. destruct (m w) as [[a | e |] w1]; intros H; try discriminate.
  by exists a, w1.
Qed.

(** Runs the monadic plumbing of the goal (or of [H]) as far as it is
    determined, without unfolding the services themselves. *)
Ltac run :=
  repeat (progress (unfold bind, try_except, emit, modify, ret, raise, hang, get_world,
                    require, from_reply, subscript;
                    cbv beta iota; cbn [fst snd negb andb])).

Ltac run_in H :=
  repeat (progress (unfold bind, try_except, emit, modify, ret, raise, hang, get_world,
                    require, from_reply, subscript in H;
                    cbv beta iota in H; cbn [fst snd negb andb] in H)).

Lemma subscript_Ok_inv {A} (l : list A) (i : nat) (a : A) (w w' : World) :
  subscript l i w = (Ok a, w') -> l !! i = Some a /\ w' = w.
Proof.
  unfold subscript, from_reply. destruct (l !! i); run; intros H; [| discriminate].
  by injection H as -> ->.
Qed.

Lemma setitem_Ok_inv {A} (l l' : list A) (i : nat) (v : A) (w w' : World) :
  setitem l i v w = (Ok l', w') ->
  (i < length l)%nat /\ l' = <[i := v]> l /\ w' = w.
Proof.
  unfold setitem. destruct (decide _); run; intros H; [| discriminate].
  by injection H as <- <-.
Qed.

Lemma log_event_extend e w : log_event e w = extend_trace [e] w.
Proof. reflexivity. Qed.

Lemma extend_trace_extend d1 d2 w :
  extend_trace d2 (extend_trace d1 w) = extend_trace (d1 ++ d2) w.
Proof. unfold extend_trace. simpl. by rewrite app_assoc. Qed.

Lemma extend_trace_nil w : extend_trace [] w = w.
Proof. destruct w. unfold extend_trace. simpl. by rewrite app_nil_r. Qed.

Lemma count_events_app p tr1 tr2 :
  count_events p (tr1 ++ tr2) = (count_events p tr1 + count_events p tr2)%nat.
Proof. induction tr1 as [| e tr1 IH]; simpl; [done | rewrite IH; lia]. Qed.

Lemma count_events_rounds n :
  count_events is_operations_get (concat (replicate n poll_round)) = n.
Proof. induction n as [| n IH]; simpl; [done | by rewrite IH]. Qed.

(** ** The prompt cache manager *)

Lemma get_cached_architect_hit (reply : CacheReply) (w : World) :
  Py.truthy (cached_architect_name w) = true ->
  get_cached_architect reply w = (Ok (cached_architect_name w), w).
Proof. intros H. unfold get_cached_architect. rewrite bind_eq. simpl. by rewrite H. Qed.

Lemma get_cached_architect_miss (reply : CacheReply) (w : World) :
  Py.truthy (cached_architect_name w) = false ->
  get_cached_architect reply w =
  match reply with
  | CacheRaises => (Ok None, log_event CachesCreate w)
  | CacheCreated cache_name =>
      (Ok (Some cache_name),
       set_cached_architect_name (Some cache_name) (log_event CachesCreate w))
  end.
Proof.
  intros H. unfold get_cached_architect. rewrite bind_eq. simpl. rewrite H.
  by destruct reply.
Qed.

Lemma call_cache_manager_hits (replies : list CacheReply) (w : World) :
  Py.truthy (cached_architect_name w) = true ->
  call_cache_manager replies w =
  (Ok (replicate (length replies) (cached_architect_name w)), w).
Proof.
  intros H. induction replies as [| reply rest IH]; simpl; [done |].
  rewrite bind_eq, get_cached_architect_hit by done.
  by rewrite bind_eq, IH.
Qed.

Lemma call_cache_manager_failures (fails : nat) (w : World) :
  Py.truthy (cached_architect_name w) = false ->
  call_cache_manager (replicate fails CacheRaises) w =
  (Ok (replicate fails None), extend_trace (replicate fails CachesCreate) w).
Proof.
  revert w. induction fails as [| fails IH]; intros w H; simpl.
  - by rewrite extend_trace_nil.
  - rewrite bind_eq, get_cached_architect_miss by done.
    rewrite bind_eq, IH by done. simpl.
    by rewrite log_event_extend, extend_trace_extend.
Qed.

Lemma call_cache_manager_app (l1 l2 : list CacheReply) (w w1 : World) hs :
  call_cache_manager l1 w = (Ok hs, w1) ->
  call_cache_manager (l1 ++ l2) w =
  match call_cache_manager l2 w1 with
  | (Ok hs', w2) => (Ok (hs ++ hs')%list, w2)
  | r => r
  end.
Proof.
  revert w hs. induction l1 as [| reply rest IH]; intros w hs H; simpl in *.
  - injection H as <- <-. by destruct (call_cache_manager l2 w) as [[? | ? |] ?].
  - rewrite bind_eq in *.
    destruct (get_cached_architect reply w) as [[h | e |] w'] eqn:E; try discriminate.
    rewrite bind_eq in *.
    destruct (call_cache_manager rest w') as [[hs0 | e |] w''] eqn:E'; try discriminate.
    simpl in H. injection H as <- <-.
    rewrite (IH _ _ E').
    by destruct (call_cache_manager l2 w'') as [[? | ? |] ?].
Qed.

Lemma cache_creations_extend (n : nat) (w : World) :
  cache_creations (extend_trace (replicate n CachesCreate) w) = (cache_creations w + n)%nat.
Proof.
  unfold cache_creations. simpl. rewrite count_events_app. f_equal.
  induction n as [| n IH]; simpl; [done | by rewrite IH].
Qed.

(** C5, as amended.  In a process that holds no handle, every call of the
    cache manager that finds no handle makes one remote creation call: a
    run of [fails] failing creations makes [fails] remote calls, returns
    [None] each time and leaves the handle unset, so the next call tries
    again; the first creation that succeeds (with a non-empty name) stores
    the handle, and all later calls return it without a remote call. *)
Theorem cache_manager_retries_until_created
        (fails : nat) (handle : string) (later : list CacheReply) (w : World) :
  Py.truthy (cached_architect_name w) = false ->
  Py.truthy_str handle = true ->
  let failed := call_cache_manager (replicate fails CacheRaises) w in
  let all := call_cache_manager (replicate fails CacheRaises ++ CacheCreated handle :: later) w in
  failed.1 = Ok (replicate fails None)
  /\ cache_creations failed.2 = (cache_creations w + fails)%nat
  /\ cached_architect_name failed.2 = cached_architect_name w
  /\ all.1 = Ok (replicate fails None ++ replicate (S (length later)) (Some handle))%list
  /\ cache_creations all.2 = (cache_creations w + fails + 1)%nat
  /\ cached_architect_name all.2 = Some handle.
Proof.
  intros Hunset Hname. simpl.
  rewrite (call_cache_manager_app _ _ _ _ _ (call_cache_manager_failures fails w Hunset)).
  rewrite call_cache_manager_failures by done.
  simpl call_cache_manager. rewrite bind_eq.
  rewrite get_cached_architect_miss by done.
  rewrite bind_eq, call_cache_manager_hits by done.
  simpl. rewrite !cache_creations_extend.
  repeat split; try done.
  unfold cache_creations. simpl. rewrite !count_events_app. simpl.
  assert (count_events is_caches_create (replicate fails CachesCreate) = fails) as ->.
  { clear. induction fails as [| n IH]; simpl; [done | by rewrite IH]. }
  lia.
Qed.

Lemma cache_manager_retries_until_created_witness :
  let all := call_cache_manager
               [CacheRaises; CacheRaises; CacheCreated "cachedContents/a1"; CacheRaises]
               fresh in
  all.1 = Ok [None; None; Some "cachedContents/a1"; Some "cachedContents/a1"]
  /\ cache_creations all.2 = 3%nat.
Proof.
  pose proof (cache_manager_retries_until_created 2 "cachedContents/a1" [CacheRaises] fresh
                eq_refl eq_refl) as H.
  simpl in H. destruct H as (_ & _ & _ & H1 & H2 & _). split; [exact H1 | exact H2].
Defined.

(** C5 as stated fails: when the first creation fails, the second call of
    the same process makes a second remote creation call, and returns the
    handle when that call succeeds. *)
Lemma cache_manager_retry_counterexample :
  let run := call_cache_manager [CacheRaises; CacheCreated "cachedContents/a1"] fresh in
  ~ (cache_creations run.2 <= 1)%nat
  /\ run.1 <> Ok [None; None].
Proof.
  vm_compute. split; [lia | discriminate].
Qed.

(** ** The video poller *)

Lemma poll_until_done_eq (env : VideoEnv) (fuel : nat) (operation : Operation)
      (poll_count : nat) :
  poll_until_done env fuel operation poll_count =
  if negb (op_done operation) && (poll_count <? max_polls)%nat then
    match fuel with
    | O => hang
    | S fuel' =>
        bind (emit (Sleep 5)) (fun _ =>
        bind (emit OperationsGet) (fun _ =>
        bind (from_reply (poll_reply env poll_count) Py.RemoteError) (fun operation' =>
        poll_until_done env fuel' operation' (S poll_count))))
    end
  else ret (operation, poll_count).
Proof. by destruct fuel. Qed.

(** With [fuel] at least the number of polls still permitted, the loop ends
    (it returns or raises) after at most that many polls. *)
Lemma poll_until_done_bounded (env : VideoEnv) (fuel : nat) (operation : Operation)
      (poll_count : nat) (w : World) :
  (max_polls <= poll_count + fuel)%nat ->
  let r := poll_until_done env fuel operation poll_count w in
  r.1 <> Hang /\ (polls r.2 <= polls w + (max_polls - poll_count))%nat.
Proof.
  revert operation poll_count w.
  induction fuel as [| fuel IH]; intros operation poll_count w Hfuel; cbv zeta;
    rewrite poll_until_done_eq;
    destruct (op_done operation) eqn:Hdone;
    destruct (Nat.ltb_spec poll_count max_polls) as [Hlt | Hge];
    cbn [negb andb]; try (simpl; split; [done | lia]).
  - lia.
  - run. destruct (poll_reply env poll_count) as [operation' |]; run.
    + specialize (IH operation' (S poll_count) (log_event OperationsGet (log_event (Sleep 5) w))).
      destruct IH as [IH1 IH2]; [lia |]. split; [exact IH1 |].
      etrans; [exact IH2 |].
      unfold polls. simpl. rewrite !count_events_app. simpl.
      unfold max_polls in *. lia.
    + simpl. split; [done |]. unfold polls. simpl. rewrite !count_events_app. simpl. lia.
Qed.

(** While the operation stays pending, the loop polls until the count
    reaches [max_polls]. *)
Lemma poll_until_done_pending (env : VideoEnv) (fuel : nat) (operation : Operation)
      (poll_count : nat) (w : World) :
  op_done operation = false ->
  (forall k, (k < max_polls)%nat ->
             exists op, poll_reply env k = Some op /\ op_done op = false) ->
  (poll_count + fuel = max_polls)%nat ->
  exists last,
    op_done last = false
    /\ poll_until_done env fuel operation poll_count w =
       (Ok (last, max_polls), extend_trace (concat (replicate fuel poll_round)) w).
Proof.
  intros Hdone Hpending. revert operation poll_count w Hdone.
  induction fuel as [| fuel IH]; intros operation poll_count w Hdone Hfuel;
    rewrite poll_until_done_eq, Hdone;
    destruct (Nat.ltb_spec poll_count max_polls) as [Hlt | Hge]; try lia;
    cbn [negb andb].
  - exists operation. split; [done |].
    simpl. rewrite extend_trace_nil. unfold ret. repeat f_equal. lia.
  - destruct (Hpending poll_count Hlt) as (op & Hreply & Hop).
    run. rewrite Hreply. run.
    destruct (IH op (S poll_count) (log_event OperationsGet (log_event (Sleep 5) w)) Hop)
      as (last & Hlast & ->); [lia |].
    exists last. split; [done |]. f_equal.
    rewrite !log_event_extend, !extend_trace_extend. reflexivity.
Qed.

Section Poller.

Context (url_for_static : bool -> string -> string).

Lemma generate_video_pending (env : VideoEnv) (image_path prompt : string)
      (first : Operation) (w : World) :
  image_readable env = true ->
  submitted env = Some first ->
  op_done first = false ->
  (forall k, (k < max_polls)%nat ->
             exists op, poll_reply env k = Some op /\ op_done op = false) ->
  generate_video url_for_static env image_path prompt w =
  (Ok None,
   extend_trace (VideosGenerate image_path ("Cinematic 4k. " ++ prompt)
                   :: concat (replicate 120 poll_round)) w).
Proof.
  intros Hopen Hsubmit Hfirst Hpending.
  unfold generate_video, generate_video_body.
  run. rewrite Hopen. run. rewrite Hsubmit. run.
  destruct (poll_until_done_pending env max_polls first 0
              (log_event (VideosGenerate image_path ("Cinematic 4k. " ++ prompt)) w)
              Hfirst Hpending eq_refl) as (last & Hlast & ->).
  run. rewrite Hlast. run.
  by rewrite log_event_extend, extend_trace_extend.
Qed.

(** C6.  When the submitted operation never reports completion, the
    poller sleeps 5 seconds before each poll, polls exactly [max_polls]
    = 120 times and returns [None]; and for every behaviour of the
    provider the polling loop ends within 120 polls. *)
Theorem video_poller_times_out (env : VideoEnv) (image_path prompt : string)
        (first : Operation) (w : World) :
  image_readable env = true ->
  submitted env = Some first ->
  op_done first = false ->
  (forall k, (k < max_polls)%nat ->
             exists op, poll_reply env k = Some op /\ op_done op = false) ->
  let r := generate_video url_for_static env image_path prompt w in
  r = (Ok None,
       extend_trace (VideosGenerate image_path ("Cinematic 4k. " ++ prompt)
                       :: concat (replicate 120 poll_round)) w)
  /\ polls r.2 = (polls w + 120)%nat
  /\ (forall env' operation w',
        let loop := poll_until_done env' max_polls operation 0 w' in
        loop.1 <> Hang /\ (polls loop.2 <= polls w' + 120)%nat).
Proof.
  intros Hopen Hsubmit Hfirst Hpending.
  pose proof (generate_video_pending env image_path prompt first w
                Hopen Hsubmit Hfirst Hpending) as Hrun.
  simpl. rewrite Hrun. split; [done |]. split.
  - unfold polls. cbn [snd trace extend_trace].
    rewrite count_events_app. cbn [count_events is_operations_get].
    change (replicate 120 poll_round) with (replicate max_polls poll_round).
    rewrite (count_events_rounds max_polls). reflexivity.
  - intros env' operation w'.
    pose proof (poll_until_done_bounded env' max_polls operation 0 w') as H.
    simpl in H. apply H. lia.
Qed.

End Poller.

Lemma video_poller_times_out_witness :
  (generate_video flask_static video_never_done "static/uploads/img_a.png" "Slow pan" fresh).1
  = Ok None
  /\ polls (generate_video flask_static video_never_done
                           "static/uploads/img_a.png" "Slow pan" fresh).2 = 120%nat.
Proof.
  pose proof (video_poller_times_out flask_static video_never_done
                "static/uploads/img_a.png" "Slow pan" pending fresh
                eq_refl eq_refl eq_refl
                (fun k _ => ex_intro _ pending (conj eq_refl eq_refl))) as H.
  cbv zeta in H. destruct H as (H1 & H2 & _).
  split; [by rewrite H1 | exact H2].
Defined.

(** ** The media batch *)

Lemma generate_image_index reply prompt idx i img_url local_path :
  generate_image reply prompt idx = (i, img_url, local_path) -> i = idx.
Proof.
  unfold generate_image. destruct reply as [| parts uuid saved]; [congruence |].
  destruct (filter _ parts); [congruence |]. destruct saved; congruence.
Qed.

(** A completed future is the result of the image task of its own index. *)
Lemma as_completed_elem remote plan result :
  result ∈ as_completed remote plan ->
  exists s, plan_slides plan !! result.1.1 = Some s
            /\ result = generate_image (image_reply remote result.1.1) (visual_prompt s)
                                       result.1.1.
Proof.
  unfold as_completed, futures. intros H.
  apply list_elem_of_omap in H as (k & _ & Hk).
  rewrite list_lookup_imap in Hk.
  destruct (plan_slides plan !! k) as [s |] eqn:Hs; [| discriminate].
  simpl in Hk. injection Hk as Hk.
  destruct result as [[i img_url] local_path].
  pose proof (generate_image_index _ _ _ _ _ _ Hk) as ->.
  simpl. by exists s.
Qed.


Section Batch.

Context (url_for_static : bool -> string -> string).

(** What a successful iteration of the loop body has done. *)
Lemma on_completed_inv plan enable_video env idx img_url local_path st w st' w' :
  on_completed url_for_static plan enable_video env (idx, img_url, local_path) st w
  = (Ok st', w') ->
  exists s r,
    plan_slides plan !! idx = Some s
    /\ (idx < length (slides st))%nat
    /\ slides st' = <[idx := Some r]> (slides st)
    /\ slide_title r = title s /\ slide_content r = content s
    /\ (media_type r = video ->
        enable_video = true /\ idx = 0%nat /\ Py.truthy (video_prompt s) = true
        /\ Py.truthy local_path = true /\ is_Some img_url).
Proof.
  unfold on_completed. intros H.
  apply bind_Ok_inv in H as (s & w0 & Hs & H).
  apply subscript_Ok_inv in Hs as [Hs ->].
  apply bind_Ok_inv in H as ([[img_url' media_url_var'] media_type'] & w1 & Hmedia & H).
  apply bind_Ok_inv in H as (url & w2 & _ & H).
  apply bind_Ok_inv in H as (slides' & w3 & Hset & H).
  apply setitem_Ok_inv in Hset as (Hlen & -> & ->).
  injection H as <- <-.
  eexists s, _. do 5 (split; [done || reflexivity |]). simpl.
  intros ->.
  destruct img_url as [filename |]; [| by injection Hmedia].
  destruct (enable_video && (idx =? 0)%nat && Py.truthy (video_prompt s)
            && Py.truthy local_path) eqn:Hcond; [| by injection Hmedia].
  apply andb_prop in Hcond as [Hcond Hpath].
  apply andb_prop in Hcond as [Hcond Hprompt].
  apply andb_prop in Hcond as [Henable Hidx].
  apply Nat.eqb_eq in Hidx. by eauto.
Qed.


Lemma on_completed_video_justified plan enable_video env completed result st w st' w' :
  result ∈ completed ->
  video_justified plan enable_video completed (slides st) ->
  on_completed url_for_static plan enable_video env result st w = (Ok st', w') ->
  video_justified plan enable_video completed (slides st').
Proof.
  destruct result as [[idx img_url] local_path]. intros Hin Hinv Hstep.
  apply on_completed_inv in Hstep
    as (s & r & Hs & Hlen & -> & _ & _ & Hvideo).
  intros i r' Hi Htype.
  destruct (decide (i = idx)) as [-> | Hne].
  - rewrite list_lookup_insert_eq in Hi by done. injection Hi as <-.
    destruct (Hvideo Htype) as (Henable & -> & Hprompt & Hpath & [filename ->]).
    destruct local_path as [path |]; [| discriminate].
    split; [done |]. split; [done |]. by exists s, filename, path.
  - rewrite list_lookup_insert_ne in Hi by done. exact (Hinv i r' Hi Htype).
Qed.

Lemma fan_in_video_justified plan enable_video env completed batch st w st' w' :
  batch ⊆ completed ->
  video_justified plan enable_video completed (slides st) ->
  fan_in url_for_static plan enable_video env batch st w = (Ok st', w') ->
  video_justified plan enable_video completed (slides st').
Proof.
  revert st w. induction batch as [| result rest IH]; intros st w Hsub Hinv Hrun.
  - simpl in Hrun. injection Hrun as <- <-. done.
  - simpl in Hrun. apply bind_Ok_inv in Hrun as (st1 & w1 & Hstep & Hrun).
    eapply IH; [| | exact Hrun].
    + intros x Hx. apply Hsub. by right.
    + eapply on_completed_video_justified; [| exact Hinv | exact Hstep].
      apply Hsub. by left.
Qed.

(** C3.  In the slides a batch returns, a slide of type [video] can only be
    slide 0, only when video was requested, only when slide 0 has a
    non-empty video prompt and its image task succeeded with a local path.
    In particular no slide is a video when [enable_video] is false, and no
    slide of index greater than 0 ever is. *)
Theorem video_only_on_first_slide remote plan enable_video w slides w' i r :
  media_batch url_for_static remote plan enable_video w = (Ok slides, w') ->
  slides !! i = Some (Some r) ->
  media_type r = video ->
  enable_video = true /\ i = 0%nat
  /\ exists s filename path,
      plan_slides plan !! 0%nat = Some s
      /\ Py.truthy (video_prompt s) = true
      /\ image_succeeded remote plan 0 filename path.
Proof.
  unfold media_batch. intros Hrun Hi Htype.
  apply bind_Ok_inv in Hrun as ([] & w1 & _ & Hrun).
  apply bind_Ok_inv in Hrun as (st & w2 & Hfan & Hrun).
  injection Hrun as <- <-.
  eapply fan_in_video_justified in Hfan; [| reflexivity |].
  - destruct (Hfan i r Hi Htype)
      as (Henable & -> & s & filename & path & Hs & Hprompt & Hin & Hpath).
    split; [done |]. split; [done |]. exists s, filename, path.
    split; [done |]. split; [done |].
    apply as_completed_elem in Hin as (s' & Hs' & Hgen). simpl in Hs', Hgen.
    exists s'. by rewrite Hs', <- Hgen.
  - intros j r0 Hj. simpl in Hj.
    apply lookup_replicate in Hj as [Hj _]. discriminate.
Qed.

(** The poller turns every failure into [None]: it never raises and its
    loop never runs out of polls. *)
Lemma generate_video_returns env image_path prompt w :
  exists video_url, (generate_video url_for_static env image_path prompt w).1 = Ok video_url.
Proof.
  unfold generate_video, generate_video_body. run.
  destruct (image_readable env); run; [| by eexists].
  destruct (submitted env) as [first |]; run; [| by eexists].
  pose proof (poll_until_done_bounded env max_polls first 0
                (log_event (VideosGenerate image_path ("Cinematic 4k. " ++ prompt)) w)) as Hloop.
  cbv zeta in Hloop. destruct Hloop as [Hloop _]; [lia |].
  destruct (poll_until_done env max_polls first 0 _) as [[[last n] | e |] w1];
    run; [| by eexists | done].
  destruct (op_done last); run; [| by eexists].
  destruct (has_generated_video last); run; [| by eexists].
  destruct (download_ok env); run; by eexists.
Qed.

Lemma generate_image_filename reply prompt idx filename local_path :
  generate_image reply prompt idx = (idx, Some filename, local_path) ->
  Py.truthy_str filename = true.
Proof.
  unfold generate_image. destruct reply as [| parts uuid saved]; [congruence |].
  destruct (filter _ parts); [congruence |]. destruct saved; [| congruence].
  intros H. injection H as <- _. reflexivity.
Qed.


(** The loop body for a slide whose image task succeeded, when the video
    step is not taken or the poller returns [None]. *)
Lemma on_completed_image plan enable_video env idx filename local_path st w s :
  plan_slides plan !! idx = Some s ->
  (idx < length (slides st))%nat ->
  Py.truthy_str filename = true ->
  (generate_video url_for_static env (Py.format_opt local_path)
                  (Py.format_opt (video_prompt s)) w).1 = Ok None ->
  let url := url_for_static true ("uploads/" ++ filename) in
  (on_completed url_for_static plan enable_video env (idx, Some filename, local_path) st w).1
  = Ok (mkBatch (<[idx := Some (mkSlideResult (title s) (content s) url image)]> (slides st))
                (Some url)).
Proof.
  intros Hs Hlen Hname Hvideo. unfold on_completed, setitem. run. rewrite Hs.
  destruct (enable_video && (idx =? 0)%nat && Py.truthy (video_prompt s)
            && Py.truthy local_path).
  - run. destruct (generate_video _ _ _ _ w) as [[video_url | e |] w1];
      simpl in Hvideo; try discriminate.
    injection Hvideo as ->. simpl. rewrite Hname. run.
    by rewrite decide_True by done.
  - run. rewrite Hname. run. by rewrite decide_True by done.
Qed.

(** Once slide 0's result has been handled, slot 0 holds its image slide
    for the rest of the loop. *)
Lemma fan_in_first_slot plan enable_video env s filename path batch st w st' w' :
  plan_slides plan !! 0%nat = Some s ->
  Py.truthy_str filename = true ->
  (forall w0, (generate_video url_for_static env path
                              (Py.format_opt (video_prompt s)) w0).1 = Ok None) ->
  (forall result, result ∈ batch -> result.1.1 = 0%nat ->
                  result = (0%nat, Some filename, Some path)) ->
  fan_in url_for_static plan enable_video env batch st w = (Ok st', w') ->
  slides st !! 0%nat = Some (Some (image_slide url_for_static s filename))
  \/ (0%nat, Some filename, Some path) ∈ batch ->
  slides st' !! 0%nat = Some (Some (image_slide url_for_static s filename)).
Proof.
  intros Hs Hname Hvideo. revert st w.
  induction batch as [| result rest IH]; intros st w Hsame Hrun Hslot.
  - simpl in Hrun. injection Hrun as <- <-.
    destruct Hslot as [Hslot | Hin]; [done | by apply elem_of_nil in Hin].
  - simpl in Hrun. apply bind_Ok_inv in Hrun as (st1 & w1 & Hstep & Hrun).
    eapply IH; [| exact Hrun |].
    { intros x Hx. apply Hsame. by right. }
    destruct result as [[idx img_url] local_path].
    pose proof Hstep as Hinv.
    apply on_completed_inv in Hinv as (s' & r & Hs' & Hlen & Hslides & _).
    destruct (decide (idx = 0%nat)) as [-> | Hne].
    + left.
      assert ((0%nat, img_url, local_path) = (0%nat, Some filename, Some path)) as Heq.
      { apply Hsame; [by left | done]. }
      injection Heq as -> ->.
      pose proof (on_completed_image plan enable_video env 0 filename (Some path) st w s
                    Hs Hlen Hname (Hvideo w)) as Himage.
      cbv zeta in Himage. rewrite Hstep in Himage. simpl in Himage.
      injection Himage as ->. simpl. by rewrite list_lookup_insert_eq.
    + destruct Hslot as [Hslot | Hin].
      * left. by rewrite Hslides, list_lookup_insert_ne.
      * right. apply elem_of_cons in Hin as [Heq | Hin]; [| done].
        injection Heq as <-. done.
Qed.

(** C8.  Suppose slide 0's image task succeeded and the video poller
    returns [None] for it.  Then the loop iteration for slide 0 completes
    normally from any loop state and stores the slide with its image URL
    and type [image]; in the slides a batch returns, slot 0 holds that image
    slide; and the poller itself never raises, whatever the provider does. *)
Theorem video_failure_keeps_image remote plan enable_video s filename path :
  plan_slides plan !! 0%nat = Some s ->
  generate_image (image_reply remote 0) (visual_prompt s) 0 = (0%nat, Some filename, Some path) ->
  (forall w, (generate_video url_for_static (video_env remote) path
                             (Py.format_opt (video_prompt s)) w).1 = Ok None) ->
  (forall st w,
      (0 < length (slides st))%nat ->
      (on_completed url_for_static plan enable_video (video_env remote)
                    (0%nat, Some filename, Some path) st w).1
      = Ok (mkBatch (<[0%nat := Some (image_slide url_for_static s filename)]> (slides st))
                    (Some (url_for_static true ("uploads/" ++ filename)))))
  /\ (forall w slides w',
         media_batch url_for_static remote plan enable_video w = (Ok slides, w') ->
         0%nat ∈ completion_order remote ->
         slides !! 0%nat = Some (Some (image_slide url_for_static s filename)))
  /\ (forall env image_path prompt w,
         exists video_url,
           (generate_video url_for_static env image_path prompt w).1 = Ok video_url).
Proof.
  intros Hs Himage Hvideo.
  pose proof (generate_image_filename _ _ _ _ _ Himage) as Hname.
  split; [| split].
  - intros st w Hlen.
    by apply (on_completed_image plan enable_video (video_env remote) 0 filename (Some path)).
  - intros w slides w' Hrun Horder. unfold media_batch in Hrun.
    apply bind_Ok_inv in Hrun as ([] & w1 & _ & Hrun).
    apply bind_Ok_inv in Hrun as (st & w2 & Hfan & Hrun).
    injection Hrun as <- <-.
    eapply fan_in_first_slot; [exact Hs | exact Hname | exact Hvideo | | exact Hfan |].
    + intros result Hin Hidx.
      apply as_completed_elem in Hin as (s' & Hs' & ->).
      rewrite Hidx in *. rewrite Hs in Hs'. injection Hs' as <-. done.
    + right. unfold as_completed. apply list_elem_of_omap. exists 0%nat. split; [done |].
      unfold futures. by rewrite list_lookup_imap, Hs, <- Himage.
  - apply generate_video_returns.
Qed.


(** *** Shape of the slides a batch returns *)

Lemma fan_in_aligned plan enable_video env batch st w st' w' :
  aligned plan (slides st) ->
  fan_in url_for_static plan enable_video env batch st w = (Ok st', w') ->
  aligned plan (slides st')
  /\ (forall i, is_Some (slides st !! i ≫= id) -> is_Some (slides st' !! i ≫= id))
  /\ (forall result, result ∈ batch -> is_Some (slides st' !! result.1.1 ≫= id)).
Proof.
  revert st w. induction batch as [| result rest IH]; intros st w Halign Hrun.
  - simpl in Hrun. injection Hrun as <- <-.
    split; [done |]. split; [done |]. intros result Hin. by apply elem_of_nil in Hin.
  - simpl in Hrun. apply bind_Ok_inv in Hrun as (st1 & w1 & Hstep & Hrun).
    destruct result as [[idx img_url] local_path].
    apply on_completed_inv in Hstep as (s & r & Hs & Hlen & Hslides & Htitle & Hcontent & _).
    assert (aligned plan (slides st1)) as Halign1.
    { destruct Halign as [Hlength Hslots]. rewrite Hslides. split.
      - by rewrite length_insert.
      - intros i r' Hi. destruct (decide (i = idx)) as [-> | Hne].
        + rewrite list_lookup_insert_eq in Hi by done. injection Hi as <-. by exists s.
        + rewrite list_lookup_insert_ne in Hi by done. by apply Hslots. }
    assert (forall i, is_Some (slides st !! i ≫= id) -> is_Some (slides st1 !! i ≫= id))
      as Hkept.
    { intros i Hi. rewrite Hslides. destruct (decide (i = idx)) as [-> | Hne].
      - by rewrite list_lookup_insert_eq.
      - by rewrite list_lookup_insert_ne. }
    destruct (IH st1 w1 Halign1 Hrun) as (Halign' & Hkept' & Hdone).
    split; [done |]. split; [by auto |].
    intros result Hin. apply elem_of_cons in Hin as [-> | Hin]; [| by apply Hdone].
    apply Hkept'. simpl. rewrite Hslides. by rewrite list_lookup_insert_eq.
Qed.

(** The slides a batch returns are as many as the planned slides and
    index-aligned with them; when every image future has completed, every
    slot holds a slide. *)
Lemma media_batch_aligned remote plan enable_video w slides w' :
  media_batch url_for_static remote plan enable_video w = (Ok slides, w') ->
  aligned plan slides
  /\ (completion_order remote ≡ₚ seq 0 (length (plan_slides plan)) ->
      forall i, (i < length (plan_slides plan))%nat -> exists r, slides !! i = Some (Some r)).
Proof.
  unfold media_batch. intros Hrun.
  apply bind_Ok_inv in Hrun as ([] & w1 & _ & Hrun).
  apply bind_Ok_inv in Hrun as (st & w2 & Hfan & Hrun).
  injection Hrun as <- <-.
  apply fan_in_aligned in Hfan as (Halign & _ & Hdone).
  - split; [done |]. intros Horder i Hi.
    destruct (lookup_lt_is_Some_2 (plan_slides plan) i Hi) as [s Hs].
    assert (generate_image (image_reply remote i) (visual_prompt s) i
            ∈ as_completed remote plan) as Hin.
    { unfold as_completed. apply list_elem_of_omap. exists i. split.
      - rewrite Horder. apply elem_of_seq. lia.
      - unfold futures. by rewrite list_lookup_imap, Hs. }
    apply Hdone in Hin.
    destruct (generate_image _ _ i) as [[j img_url] local_path] eqn:Hgen.
    apply generate_image_index in Hgen as ->. simpl in Hin.
    destruct (slides st !! i) as [[r |] |]; simpl in Hin; try by destruct Hin.
    by exists r.
  - split; [simpl; by rewrite length_replicate |].
    intros i r Hi. simpl in Hi. apply lookup_replicate in Hi as [Hi _]. discriminate.
Qed.



End Batch.

(** C1 fails on the code.  A plan of one slide whose image task fails: the
    batch raises [UnboundLocalError] instead of returning one placeholder
    slide, the request ends with that exception and nothing is stored. *)
Theorem batch_raises_when_image_fails :
  (media_batch flask_static remote_image_fails one_slide false fresh).1
  = Raise Py.UnboundLocalError
  /\ (let out := post_generate flask_static flask_viewer remote_image_fails 0
                               (request_of [("topic", "Quantum Computing");
                                            ("slide_count", "1")]) fresh in
      out.1 = Raise Py.UnboundLocalError /\ presentations out.2 = []).
Proof. vm_compute. done. Qed.

(** C2 fails on the code.  Slide 0 succeeds and completes first, slide 1
    fails, no video: slide 1 is stored with the image URL of slide 0, which
    is not the placeholder. *)
Theorem failed_slide_reuses_previous_url :
  (media_batch flask_static remote_second_fails two_slides false fresh).1
  = Ok [Some (image_slide flask_static first_slide "img_0.png");
        Some (mkSlideResult "The Problem" "Decoherence"
                            "http://localhost:5000/static/uploads/img_0.png" image)]
  /\ mkSlideResult "The Problem" "Decoherence"
                   "http://localhost:5000/static/uploads/img_0.png" image
     <> placeholder_slide flask_static second_slide.
Proof. vm_compute. split; [done | discriminate]. Qed.

Lemma video_only_on_first_slide_witness :
  (media_batch flask_static remote_video_ready two_slides true fresh).1
  = Ok [Some (mkSlideResult "Beyond Binary" "Qubits"
                            "http://localhost:5000/static/uploads/veo_v.mp4" video);
        Some (image_slide flask_static second_slide "img_1.png")]
  /\ (true = true /\ 0%nat = 0%nat
      /\ exists s filename path,
          plan_slides two_slides !! 0%nat = Some s
          /\ Py.truthy (video_prompt s) = true
          /\ image_succeeded remote_video_ready two_slides 0 filename path).
Proof.
  pose (out := media_batch flask_static remote_video_ready two_slides true fresh).
  assert (out = (Ok [Some (mkSlideResult "Beyond Binary" "Qubits"
                             "http://localhost:5000/static/uploads/veo_v.mp4" video);
                     Some (image_slide flask_static second_slide "img_1.png")], out.2)) as Hrun
      by (vm_compute; reflexivity).
  split; [exact (f_equal fst Hrun) |].
  exact (video_only_on_first_slide flask_static remote_video_ready two_slides true fresh
           _ _ 0%nat _ Hrun eq_refl eq_refl).
Defined.

Lemma video_failure_keeps_image_witness :
  (media_batch flask_static remote_video_times_out two_slides true fresh).1
  = Ok [Some (image_slide flask_static first_slide "img_0.png");
        Some (image_slide flask_static second_slide "img_1.png")]
  /\ [Some (image_slide flask_static first_slide "img_0.png");
      Some (image_slide flask_static second_slide "img_1.png")] !! 0%nat
     = Some (Some (image_slide flask_static first_slide "img_0.png")).
Proof.
  pose (out := media_batch flask_static remote_video_times_out two_slides true fresh).
  assert (out = (Ok [Some (image_slide flask_static first_slide "img_0.png");
                     Some (image_slide flask_static second_slide "img_1.png")], out.2)) as Hrun
      by (vm_compute; reflexivity).
  split; [exact (f_equal fst Hrun) |].
  refine (proj1 (proj2 (video_failure_keeps_image flask_static remote_video_times_out
                          two_slides true first_slide "img_0.png" "static/uploads/img_0.png"
                          eq_refl eq_refl _)) fresh _ _ Hrun _).
  - intros w.
    exact (f_equal fst
             (generate_video_pending flask_static video_never_done
                "static/uploads/img_0.png" "Slow pan" pending w
                eq_refl eq_refl eq_refl
                (fun k _ => ex_intro _ pending (conj eq_refl eq_refl)))).
  - by right; left.
Defined.

(** ** Replies in which keys are missing *)

Section PartialReplies.

Context (url_for_static : bool -> string -> string)
        (url_for_viewer : string -> string).

Lemma lookup_key_Ok_inv {A} (v : option A) (a : A) (w w' : World) :
  lookup_key v w = (Ok a, w') -> v = Some a /\ w' = w.
Proof.
  unfold lookup_key, from_reply. destruct v; run; intros H; [| discriminate].
  by injection H as -> ->.
Qed.

Lemma submit_partial_Ok i items w w' :
  submit_partial i items w = (Ok tt, w') ->
  Forall (fun s => has_key (visual_prompt_key s) = true) items.
Proof.
  revert i w. induction items as [| s rest IH]; intros i w Hrun; [constructor |].
  simpl in Hrun. apply bind_Ok_inv in Hrun as (prompt & w1 & Hprompt & Hrun).
  apply lookup_key_Ok_inv in Hprompt as [Hprompt ->].
  apply bind_Ok_inv in Hrun as ([] & w2 & _ & Hrun).
  constructor; [by rewrite Hprompt | by eapply IH].
Qed.

Lemma on_completed_partial_Ok items enable_video env result st w st' w' :
  on_completed_partial url_for_static items enable_video env result st w = (Ok st', w') ->
  exists s, items !! result.1.1 = Some s
            /\ has_key (title_key s) = true /\ has_key (content_key s) = true.
Proof.
  destruct result as [[idx img_url] local_path]. unfold on_completed_partial. intros Hrun.
  apply bind_Ok_inv in Hrun as (s & w1 & Hs & Hrun).
  apply subscript_Ok_inv in Hs as [Hs ->].
  apply bind_Ok_inv in Hrun as ([[img_url' media_url_var'] media_type'] & w2 & _ & Hrun).
  apply bind_Ok_inv in Hrun as (slide_title & w3 & Htitle & Hrun).
  apply lookup_key_Ok_inv in Htitle as [Htitle ->].
  apply bind_Ok_inv in Hrun as (slide_content & w4 & Hcontent & Hrun).
  apply lookup_key_Ok_inv in Hcontent as [Hcontent ->].
  exists s. by rewrite Htitle, Hcontent.
Qed.

Lemma fan_in_partial_Ok items enable_video env batch st w st' w' result :
  fan_in_partial url_for_static items enable_video env batch st w = (Ok st', w') ->
  result ∈ batch ->
  exists s, items !! result.1.1 = Some s
            /\ has_key (title_key s) = true /\ has_key (content_key s) = true.
Proof.
  revert st w. induction batch as [| first rest IH]; intros st w Hrun Hin;
    [by apply elem_of_nil in Hin |].
  simpl in Hrun. apply bind_Ok_inv in Hrun as (st1 & w1 & Hfirst & Hrun).
  apply elem_of_cons in Hin as [-> | Hin].
  - by eapply on_completed_partial_Ok.
  - by eapply IH.
Qed.

(** Every future is yielded. *)
Lemma yield_order_all remote n k :
  (k < n)%nat -> k ∈ yield_order remote n.
Proof.
  intros Hk. unfold yield_order. apply elem_of_app.
  destruct (decide (k ∈ completion_order remote)) as [Hin | Hout]; [by left |].
  right. apply list_elem_of_filter. split; [done |]. apply elem_of_seq. lia.
Qed.

Lemma as_completed_partial_all remote items k s :
  items !! k = Some s ->
  exists result, result ∈ as_completed_partial remote items /\ result.1.1 = k.
Proof.
  intros Hs.
  exists (generate_image (image_reply remote k) (default "" (visual_prompt_key s)) k).
  split.
  - unfold as_completed_partial. apply list_elem_of_omap. exists k. split.
    + apply yield_order_all. by eapply lookup_lt_Some.
    + unfold futures_partial. by rewrite list_lookup_imap, Hs.
  - destruct (generate_image _ _ k) as [[i img_url] local_path] eqn:Himage.
    simpl. by eapply generate_image_index.
Qed.

(** When [completion_order] lists every future, the futures are yielded in
    that order. *)
Lemma yield_order_listed remote n :
  (forall k, (k < n)%nat -> k ∈ completion_order remote) ->
  yield_order remote n = completion_order remote.
Proof.
  intros Hlisted. unfold yield_order.
  assert (filter (fun k => k ∉ completion_order remote) (seq 0 n) = []) as ->;
    [| by rewrite app_nil_r].
  destruct (filter _ (seq 0 n)) as [| k rest] eqn:Hfilter; [done |].
  assert (k ∈ filter (fun k => k ∉ completion_order remote) (seq 0 n)) as Hk
      by (rewrite Hfilter; left).
  apply list_elem_of_filter in Hk as [Hout Hk].
  apply elem_of_seq in Hk. destruct Hout. apply Hlisted. lia.
Qed.

(** The two renderings of lines 410 to 463 agree: on a plan, written as a
    reply with every key, the steps above do what [media_batch] and
    [save_presentation] do. *)
Lemma submit_partial_complete i specs w :
  submit_partial i (slide_as_partial <$> specs) w = submit_all i specs w.
Proof.
  revert i w. induction specs as [| s rest IH]; intros i w; [done |].
  simpl. unfold lookup_key. run. by rewrite IH.
Qed.

Lemma on_completed_partial_complete plan enable_video env result st w :
  on_completed_partial url_for_static (slide_as_partial <$> plan_slides plan) enable_video
                       env result st w
  = on_completed url_for_static plan enable_video env result st w.
Proof.
  destruct result as [[idx img_url] local_path].
  unfold on_completed_partial, on_completed, lookup_key, subscript.
  rewrite list_lookup_fmap. destruct (plan_slides plan !! idx) as [s |]; [| done].
  simpl. rewrite !bind_eq. cbn [from_reply ret].
  cbn [video_prompt_key title_key content_key slide_as_partial].
  destruct img_url as [filename |]; cbn [ret]; [| reflexivity].
  destruct (enable_video && (idx =? 0)%nat && Py.truthy (video_prompt s)
            && Py.truthy local_path); [| reflexivity].
  rewrite !bind_eq.
  destruct (generate_video _ _ _ _ w) as [[video_url | e |] w1]; [| reflexivity ..].
  destruct (Py.truthy video_url); reflexivity.
Qed.

Lemma fan_in_partial_complete plan enable_video env batch st w :
  fan_in_partial url_for_static (slide_as_partial <$> plan_slides plan) enable_video env
                 batch st w
  = fan_in url_for_static plan enable_video env batch st w.
Proof.
  revert st w. induction batch as [| result rest IH]; intros st w; [done |].
  simpl. rewrite !bind_eq, on_completed_partial_complete.
  destruct (on_completed _ _ _ _ _ _ w) as [[st1 | e |] w1]; [apply IH | done ..].
Qed.

Lemma use_partial_plan_complete remote plan enable_video w :
  (forall k, (k < length (plan_slides plan))%nat -> k ∈ completion_order remote) ->
  use_partial_plan url_for_static url_for_viewer remote (plan_as_partial plan) enable_video w
  = bind (media_batch url_for_static remote plan enable_video)
         (fun slides => save_presentation url_for_viewer remote plan slides enable_video) w.
Proof.
  intros Hlisted. unfold use_partial_plan, plan_as_partial, media_batch. cbv zeta.
  assert (as_completed_partial remote (slide_as_partial <$> plan_slides plan)
          = as_completed remote plan) as ->.
  { unfold as_completed_partial, as_completed, futures_partial, futures.
    rewrite length_fmap, yield_order_listed by done.
    f_equal. by rewrite imap_fmap. }
  rewrite length_fmap, !bind_eq, submit_partial_complete.
  destruct (submit_all 0 (plan_slides plan) w) as [[[] | e |] w1]; [| done ..].
  rewrite !bind_eq, fan_in_partial_complete.
  destruct (fan_in _ _ _ _ _ _ w1) as [[st | e |] w2]; [| done ..].
  unfold save_presentation, lookup_key. reflexivity.
Qed.

(** The handler gets to the end only on a reply that has every key. *)
Lemma use_partial_plan_Ok remote p enable_video w resp w' :
  use_partial_plan url_for_static url_for_viewer remote p enable_video w = (Ok resp, w') ->
  deficient p = false.
Proof.
  destruct p as [| plan_title_key items]; [discriminate |].
  unfold use_partial_plan. cbv zeta. intros Hrun.
  apply bind_Ok_inv in Hrun as ([] & w1 & Hsubmit & Hrun).
  apply submit_partial_Ok in Hsubmit.
  apply bind_Ok_inv in Hrun as (st & w2 & Hfan & Hrun).
  apply bind_Ok_inv in Hrun as (w3 & w4 & _ & Hrun).
  apply bind_Ok_inv in Hrun as (pres_title & w5 & Htitle & _).
  apply lookup_key_Ok_inv in Htitle as [-> _].
  simpl. apply negb_false_iff. apply forallb_forall. intros s Hin.
  apply list_elem_of_In, list_elem_of_lookup in Hin as [k Hk].
  destruct (as_completed_partial_all remote items k s Hk) as (result & Hresult & <-).
  destruct (fan_in_partial_Ok _ _ _ _ _ _ _ _ _ Hfan Hresult) as (s' & Hs' & Htitle & Hcontent).
  rewrite Hk in Hs'. injection Hs' as <-.
  rewrite Forall_forall in Hsubmit.
  unfold complete_slide. rewrite Htitle, Hcontent, Hsubmit; [done |].
  by eapply list_elem_of_lookup_2.
Qed.

(** A run of the handler that does not get to the end stores nothing. *)
Lemma use_partial_plan_stores remote p enable_video w :
  (forall resp, (use_partial_plan url_for_static url_for_viewer remote p enable_video w).1
                <> Ok resp) ->
  presentations (use_partial_plan url_for_static url_for_viewer remote p enable_video w).2
  = presentations w.
Proof.
  destruct p as [| plan_title_key items]; [done |].
  unfold use_partial_plan. cbv zeta. rewrite bind_eq.
  pose proof (respects_submit_partial (keeps presentations) (fun _ => true)
                (fun _ _ _ => eq_refl) (fun _ _ => eq_refl) 0%nat items w) as Hsubmit.
  unfold keeps in Hsubmit.
  destruct (submit_partial 0 items w) as [[[] | e |] w1]; simpl in Hsubmit; try done.
  rewrite bind_eq.
  match goal with
  | |- context [ fan_in_partial _ ?i ?v ?e ?b ?st w1 ] =>
      pose proof (respects_fan_in_partial url_for_static (keeps presentations) (fun _ => true)
                    (fun _ _ _ => eq_refl) (fun _ _ => eq_refl) i v e b st w1) as Hfan;
      destruct (fan_in_partial url_for_static i v e b st w1) as [[st' | e' |] w2]
  end; unfold keeps in Hfan; simpl in Hfan; try (intros _; simpl; congruence).
  run. destruct plan_title_key as [pres_title |]; run; [| intros _; simpl; congruence].
  destruct (commit_ok remote); run; [| intros _; simpl; congruence].
  intros Hnever. by destruct (Hnever _ eq_refl).
Qed.

(** On a reply in which a key is missing the handler never gets to the
    end, and stores nothing. *)
Lemma use_partial_plan_fails remote p enable_video w :
  deficient p = true ->
  (forall resp, (use_partial_plan url_for_static url_for_viewer remote p enable_video w).1
                <> Ok resp)
  /\ presentations (use_partial_plan url_for_static url_for_viewer remote p enable_video w).2
     = presentations w.
Proof.
  intros Hmissing.
  assert (forall resp,
             (use_partial_plan url_for_static url_for_viewer remote p enable_video w).1
             <> Ok resp) as Hnever.
  { intros resp Hrun.
    destruct (use_partial_plan url_for_static url_for_viewer remote p enable_video w)
      as [r w'] eqn:Heq.
    simpl in Hrun. subst r. apply use_partial_plan_Ok in Heq. congruence. }
  split; [done | by apply use_partial_plan_stores].
Qed.

End PartialReplies.

(** ** The route *)

Lemma load_user_eq (w : World) :
  load_user w = (Ok tt, set_g_user (current_user w) w).
Proof.
  unfold load_user, current_user, get_user. run. simpl.
  by destruct (session w !! "user_id").
Qed.

Lemma read_slide_count_readable (rq : Request) (w : World) :
  slide_count_readable rq = true ->
  exists n, read_slide_count rq w = (Ok n, w).
Proof.
  unfold slide_count_readable, read_slide_count.
  destruct (form rq !! "slide_count") as [s |]; [| by exists 3].
  intros H. apply bool_decide_eq_true in H as [n Hn]. exists n. by rewrite Hn.
Qed.

Lemma read_slide_count_world (rq : Request) (w : World) :
  (read_slide_count rq w).2 = w.
Proof.
  unfold read_slide_count. destruct (form rq !! "slide_count") as [s |]; [| done].
  by destruct (Py.int_of_str s).
Qed.

Lemma count_guest_request_eq (w : World) :
  count_guest_request w =
  (Ok tt,
   match g_user w with
   | Some _ => w
   | None => set_session (<["guest_usage" := guest_usage w + 1]> (session w)) w
   end).
Proof. unfold count_guest_request. run. by destruct (g_user w). Qed.

Lemma get_cached_architect_returns (reply : CacheReply) (w : World) :
  exists handle w', get_cached_architect reply w = (Ok handle, w').
Proof.
  destruct (Py.truthy (cached_architect_name w)) eqn:H.
  - rewrite get_cached_architect_hit by done. by eexists _, _.
  - rewrite get_cached_architect_miss by done. destruct reply; by eexists _, _.
Qed.

Lemma upload_pdf_never_raises remote fuel pdf_path contents user_prompt w e :
  (upload_pdf remote fuel pdf_path contents user_prompt w).1 <> Raise e.
Proof.
  unfold upload_pdf. run.
  destruct (upload_reply remote) as [[file_name state] |]; run; [| done].
  destruct (wait_processing remote fuel state 0 _) as [[state' | e' |] w1]; run; done.
Qed.

Lemma wait_processing_settles remote fuel state gets w :
  state <> PROCESSING
  \/ (exists k, (gets <= k < gets + fuel)%nat /\ file_get_reply remote k <> Some PROCESSING) ->
  (wait_processing remote fuel state gets w).1 <> Hang.
Proof.
  revert state gets w. induction fuel as [| fuel IH]; intros state gets w Hsettles;
    destruct state; simpl; try done;
    destruct Hsettles as [Hstate | (k & Hk & Hreply)]; try done; try lia.
  run. destruct (file_get_reply remote gets) as [state' |] eqn:Hget; run; [| done].
  apply IH. destruct state'; try (by left).
  right. exists k. split; [| done].
  destruct (decide (k = gets)) as [-> | Hother]; [by rewrite Hget in Hreply | lia].
Qed.

Lemma upload_pdf_settles remote fuel pdf_path contents user_prompt w n :
  upload_settles remote n -> (n <= fuel)%nat ->
  (upload_pdf remote fuel pdf_path contents user_prompt w).1 <> Hang.
Proof.
  unfold upload_settles, upload_pdf. intros Hsettles Hfuel. run.
  destruct (upload_reply remote) as [[file_name state] |]; run; [| done].
  pose proof (wait_processing_settles remote fuel state 0 (log_event (FilesUpload pdf_path) w))
    as Hwait.
  destruct (wait_processing remote fuel state 0 _) as [[state' | e' |] w1]; run; try done.
  simpl in Hwait. intros _. apply Hwait; [| done]. destruct state; try (by left).
  right. destruct Hsettles as (k & Hk & Hreply). exists k. split; [lia | done].
Qed.

Lemma is_planning_not_media (e : Event) :
  is_planning e = true -> is_media_or_save e = false.
Proof. by destruct e. Qed.

Lemma upload_pdf_appends remote fuel pdf_path contents user_prompt :
  respects (appends is_upload) (upload_pdf remote fuel pdf_path contents user_prompt).
Proof.
  apply (respects_upload_pdf (appends is_upload) is_upload); [| done].
  intros e w. apply appends_emit.
Qed.

(** The planner returns what the reply of the planning call determines:
    [None] for a failed call or a failed parse, and else the parsed value as
    it is.  The only other outcome is that the wait for the uploaded
    document does not end, and then no planning call has been made. *)
Lemma plan_presentation_outcome remote fuel topic slide_count pdf_path url_link w :
  let out := plan_presentation remote fuel topic slide_count pdf_path url_link w in
  (out.1 = Ok (planned (plan_reply remote)) \/ (out.1 = Hang /\ appends is_upload w out.2))
  /\ (upload_returns remote fuel pdf_path -> out.1 = Ok (planned (plan_reply remote))).
Proof.
  unfold plan_presentation. cbv zeta. rewrite bind_eq.
  match goal with
  | |- context [ (if Py.truthy pdf_path then ?up else ?skip) w ] =>
      set (upload := (if Py.truthy pdf_path then up else skip) w)
  end.
  assert (forall e, upload.1 <> Raise e) as Hraise.
  { intros e. subst upload. destruct (Py.truthy pdf_path); [| done].
    apply upload_pdf_never_raises. }
  assert (upload_returns remote fuel pdf_path -> upload.1 <> Hang) as Hhang.
  { intros Hreturns. subst upload.
    destruct (Py.truthy pdf_path) eqn:Hpdf; [| done].
    destruct Hreturns as [? | (n & Hn & Hsettles)]; [congruence |].
    by eapply upload_pdf_settles. }
  assert (appends is_upload w upload.2) as Hupload.
  { subst upload. destruct (Py.truthy pdf_path); [apply upload_pdf_appends |].
    by apply appends_same_trace. }
  destruct upload as [[[contents user_prompt] | e |] w1]; simpl in *.
  - rewrite bind_eq.
    destruct (get_cached_architect_returns (cache_reply remote) w1) as (h & w2 & ->).
    run. destruct (plan_reply remote); run; by split; [left |].
  - by destruct (Hraise e).
  - split; [by right |]. intros Hreturns. by destruct (Hhang Hreturns).
Qed.

(** Components of the world that logging and the cache manager leave
    alone are kept by the planner and by the media batch. *)
Lemma plan_presentation_keeps {X} (proj : World -> X)
      remote fuel topic slide_count pdf_path url_link :
  (forall e w, proj (log_event e w) = proj w) ->
  (forall c w, proj (set_cached_architect_name c w) = proj w) ->
  respects (keeps proj) (plan_presentation remote fuel topic slide_count pdf_path url_link).
Proof.
  intros Hlog Hcache.
  apply (respects_plan_presentation (keeps proj) (fun _ => true)); try done.
  intros e w _. apply Hlog.
Qed.

Lemma plan_presentation_appends remote fuel topic slide_count pdf_path url_link :
  respects (appends is_planning)
           (plan_presentation remote fuel topic slide_count pdf_path url_link).
Proof.
  apply (respects_plan_presentation (appends is_planning) is_planning); try done.
  - intros e w. apply appends_emit.
  - intros c w. by apply appends_same_trace.
Qed.

Lemma media_batch_keeps {X} (proj : World -> X) url_for_static remote plan enable_video :
  (forall e w, proj (log_event e w) = proj w) ->
  respects (keeps proj) (media_batch url_for_static remote plan enable_video).
Proof.
  intros Hlog.
  apply (respects_media_batch url_for_static (keeps proj) (fun _ => true)); try done.
  intros e w _. apply Hlog.
Qed.

Lemma build_presentation_keeps {X} (proj : World -> X) url_for_static url_for_viewer
      remote fuel topic slide_count pdf_path url_link enable_video :
  (forall e w, proj (log_event e w) = proj w) ->
  (forall c w, proj (set_cached_architect_name c w) = proj w) ->
  (forall p w, proj (add_presentation p w) = proj w) ->
  respects (keeps proj)
           (build_presentation url_for_static url_for_viewer remote fuel topic slide_count
                               pdf_path url_link enable_video).
Proof.
  intros Hlog Hcache Hsave.
  apply (respects_build_presentation url_for_static url_for_viewer (keeps proj)
                                     (fun _ => true)); try done.
  intros e w _. apply Hlog.
Qed.

Section Route.

Context (url_for_static : bool -> string -> string)
        (url_for_viewer : string -> string).


Lemma post_generate_eq remote fuel rq w :
  post_generate url_for_static url_for_viewer remote fuel rq w =
  guest_limit_check (generate url_for_static url_for_viewer remote fuel rq)
                    (set_g_user (current_user w) w).
Proof. unfold post_generate. by rewrite bind_eq, load_user_eq. Qed.

Lemma save_presentation_eq remote plan slides enable_video w :
  save_presentation url_for_viewer remote plan slides enable_video w =
  if commit_ok remote
  then (Ok (RedirectJson (url_for_viewer (pres_uuid remote))),
        add_presentation (mkPresentation (pres_uuid remote) (plan_title plan) slides
                                         (user_ident <$> g_user w) enable_video)
                         (log_event DbCommit w))
  else (Raise Py.StorageError, log_event DbCommit w).
Proof. unfold save_presentation. run. by destruct (commit_ok remote). Qed.

(** What the handler stores: nothing, or one presentation whose
    [has_video] is the flag it was given. *)
Lemma build_presentation_stores remote fuel topic slide_count pdf_path url_link
      enable_video w :
  let out := build_presentation url_for_static url_for_viewer remote fuel topic slide_count
                                pdf_path url_link enable_video w in
  (presentations out.2 = presentations w
   /\ forall url, out.1 <> Ok (RedirectJson url))
  \/ (exists p, presentations out.2 = (presentations w ++ [p])%list
                /\ has_video p = enable_video
                /\ out.1 = Ok (RedirectJson (url_for_viewer (pres_id p)))).
Proof.
  cbv zeta. unfold build_presentation. rewrite bind_eq.
  pose proof (plan_presentation_keeps presentations remote fuel topic slide_count pdf_path
                url_link (fun _ _ => eq_refl) (fun _ _ => eq_refl) w) as Hplan.
  unfold keeps in Hplan.
  destruct (plan_presentation _ _ _ _ _ _ w) as [[[| | plan | partial missing] | e |] w1];
    simpl in Hplan; try (left; by split).
  2: { destruct (use_partial_plan_fails url_for_static url_for_viewer remote partial
                   enable_video w1 missing) as [Hnever Hsame].
       left. split; [by rewrite Hsame | intros url; apply Hnever]. }
  rewrite bind_eq.
  pose proof (media_batch_keeps presentations url_for_static remote plan enable_video
                (fun _ _ => eq_refl) w1) as Hbatch.
  unfold keeps in Hbatch.
  destruct (media_batch _ _ _ _ w1) as [[slides | e |] w2]; simpl in *;
    [| left; split; [congruence | done] ..].
  rewrite save_presentation_eq. destruct (commit_ok remote).
  - right. eexists. simpl. split; [by rewrite Hbatch, Hplan |]. done.
  - left. simpl. split; [congruence | done].
Qed.

(** The responses the handler can return. *)
Lemma generate_responses remote fuel rq w resp :
  (generate url_for_static url_for_viewer remote fuel rq w).1 = Ok resp ->
  resp = ErrorJson 500 "Planning Failed" \/ exists url, resp = RedirectJson url.
Proof.
  unfold generate. rewrite bind_eq.
  destruct (read_slide_count rq w) as [[n | e |] w0]; try discriminate.
  rewrite bind_eq, count_guest_request_eq.
  match goal with
  | |- context [ build_presentation _ _ ?r ?f ?t ?n ?p ?u ?v ?w ] =>
      pose proof (build_presentation_stores r f t n p u v w) as Hstore;
      unfold build_presentation in *; rewrite bind_eq in *;
      destruct (plan_presentation r f t n p u w) as [[[| | plan | partial missing] | e |] w1]
  end; simpl; try discriminate; try (intros [= <-]; by left).
  2: { intros H.
       by destruct (proj1 (use_partial_plan_fails url_for_static url_for_viewer _ _ _ _ missing)
                      _ H). }
  cbv zeta in Hstore.
  destruct Hstore as [[_ Hno] | (p & _ & _ & Hyes)]; intros H.
  - rewrite H in Hno. right. destruct resp as [status err | url]; [| by eexists].
    exfalso. revert H. rewrite bind_eq.
    destruct (media_batch _ _ _ _ w1) as [[slides | e |] w2]; try discriminate.
    rewrite save_presentation_eq. by destruct (commit_ok remote).
  - rewrite H in Hyes. injection Hyes as ->. right. by eexists.
Qed.

Lemma generate_never_denies remote fuel rq w :
  (generate url_for_static url_for_viewer remote fuel rq w).1 <> Ok guest_limit_reached.
Proof.
  intros H. apply generate_responses in H as [H | [url H]]; discriminate.
Qed.

End Route.

(** ** The guest quota *)

Section Quota.

Context (url_for_static : bool -> string -> string)
        (url_for_viewer : string -> string).

(** The handler changes the session only by counting a guest request. *)
Lemma generate_session remote fuel rq w :
  let out := generate url_for_static url_for_viewer remote fuel rq w in
  users out.2 = users w
  /\ (session out.2 = session w
      \/ (g_user w = None
          /\ session out.2 = <["guest_usage" := guest_usage w + 1]> (session w)))
  /\ (slide_count_readable rq = true -> g_user w = None ->
      session out.2 = <["guest_usage" := guest_usage w + 1]> (session w)).
Proof.
  cbv zeta. unfold generate. rewrite bind_eq.
  pose proof (read_slide_count_world rq w) as Hworld.
  pose proof (read_slide_count_readable rq w) as Hread.
  destruct (read_slide_count rq w) as [[n | e |] w0]; simpl in Hworld; subst w0;
    [| split; [done | split; [by left | intros H; by destruct (Hread H)]] ..].
  rewrite bind_eq, count_guest_request_eq.
  match goal with
  | |- context [ build_presentation _ _ ?r ?f ?t ?n ?p ?u ?v ?w ] =>
      pose proof (build_presentation_keeps session url_for_static url_for_viewer
                    r f t n p u v (fun _ _ => eq_refl) (fun _ _ => eq_refl)
                    (fun _ _ => eq_refl) w) as Hsession;
      pose proof (build_presentation_keeps users url_for_static url_for_viewer
                    r f t n p u v (fun _ _ => eq_refl) (fun _ _ => eq_refl)
                    (fun _ _ => eq_refl) w) as Husers
  end.
  unfold keeps in Hsession, Husers. rewrite Hsession, Husers.
  destruct (g_user w); simpl; split; try done; split; try (by left); try done.
  by right.
Qed.

Lemma guest_limit_check_eq (f : M Response) (w : World) :
  guest_limit_check f w =
  match g_user w with
  | Some _ => f w
  | None => if GUEST_LIMIT <=? guest_usage w then (Ok guest_limit_reached, w) else f w
  end.
Proof.
  unfold guest_limit_check. run. destruct (g_user w); [done |].
  by destruct (GUEST_LIMIT <=? guest_usage w).
Qed.

Lemma guest_usage_set_g_user u w : guest_usage (set_g_user u w) = guest_usage w.
Proof. reflexivity. Qed.

(** A form the handler cannot read ends the request before the counting
    step; a request the handler answers had a readable form. *)
Lemma generate_unreadable remote fuel rq w :
  slide_count_readable rq = false ->
  generate url_for_static url_for_viewer remote fuel rq w = (Raise Py.ValueError, w).
Proof.
  unfold slide_count_readable, generate, read_slide_count. intros Hread.
  destruct (form rq !! "slide_count") as [s |]; [| discriminate].
  apply bool_decide_eq_false in Hread.
  destruct (Py.int_of_str s) as [n |]; [by destruct Hread |]. reflexivity.
Qed.

Lemma generate_Ok_readable remote fuel rq w resp :
  (generate url_for_static url_for_viewer remote fuel rq w).1 = Ok resp ->
  slide_count_readable rq = true.
Proof.
  destruct (slide_count_readable rq) eqn:Hread; [done |].
  by rewrite generate_unreadable.
Qed.

(** A guest below the limit is let through and stays a guest; the count
    the client holds afterwards is one more exactly when the form was
    readable and the request was answered. *)
Lemma request_generate_guest debug remote fuel rq w :
  current_user w = None ->
  guest_usage w < GUEST_LIMIT ->
  let out := request_generate url_for_static url_for_viewer debug remote fuel rq w in
  out.1 <> Ok guest_limit_reached
  /\ guest_usage out.2
     = guest_usage w + (if answered debug out.1 && slide_count_readable rq then 1 else 0)
  /\ current_user out.2 = None.
Proof.
  intros Hguest Hbelow. cbv zeta. unfold request_generate, after_request. cbv zeta.
  rewrite post_generate_eq, guest_limit_check_eq, Hguest.
  cbn [g_user set_g_user fst snd]. rewrite guest_usage_set_g_user.
  destruct (Z.leb_spec GUEST_LIMIT (guest_usage w)) as [Habove | _]; [lia |].
  pose proof (generate_session remote fuel rq (set_g_user None w)) as (Husers & _ & Hsession).
  pose proof (generate_unreadable remote fuel rq (set_g_user None w)) as Hunreadable.
  rewrite guest_usage_set_g_user in Hsession.
  cbn [users session set_g_user] in Husers, Hsession.
  split; [apply generate_never_denies |].
  destruct (answered debug _) eqn:Hanswered; cbn [andb].
  - destruct (slide_count_readable rq) eqn:Hread.
    + specialize (Hsession eq_refl eq_refl). split.
      * unfold guest_usage at 1. rewrite Hsession. by rewrite lookup_insert_eq.
      * unfold current_user, get_user in *. rewrite Hsession, Husers.
        by rewrite lookup_insert_ne.
    + rewrite (Hunreadable eq_refl). simpl. split; [unfold guest_usage; simpl; lia | done].
  - split.
    + unfold guest_usage. simpl. lia.
    + unfold current_user, get_user in *. simpl. by rewrite Husers.
Qed.

Lemma serve_guest debug requests w :
  current_user w = None ->
  guest_usage w + Z.of_nat (length requests) <= GUEST_LIMIT ->
  let served := serve url_for_static url_for_viewer debug requests w in
  Forall (fun r => exists resp, r = Ok resp) served.1 ->
  Forall (fun r => r <> Ok guest_limit_reached) served.1
  /\ guest_usage served.2 = guest_usage w + Z.of_nat (length requests)
  /\ current_user served.2 = None.
Proof.
  revert w. induction requests as [| [[remote fuel] rq] rest IH];
    intros w Hguest Hroom; cbv zeta.
  - simpl. intros _. split; [constructor |]. split; [lia | done].
  - rewrite length_cons, Nat2Z.inj_succ in Hroom.
    destruct (request_generate_guest debug remote fuel rq w Hguest ltac:(lia))
      as (Hallowed & Hcount & Hguest').
    pose proof (generate_Ok_readable remote fuel rq (set_g_user None w)) as Hread.
    assert ((request_generate url_for_static url_for_viewer debug remote fuel rq w).1
            = (generate url_for_static url_for_viewer remote fuel rq (set_g_user None w)).1)
      as Hhandler.
    { unfold request_generate. cbv zeta. cbn [fst].
      rewrite post_generate_eq, guest_limit_check_eq, Hguest.
      cbn [g_user set_g_user]. rewrite guest_usage_set_g_user.
      destruct (Z.leb_spec GUEST_LIMIT (guest_usage w)) as [Habove | _]; [lia | done]. }
    change (serve url_for_static url_for_viewer debug ((remote, fuel, rq) :: rest) w)
      with (let '(r, w') := request_generate url_for_static url_for_viewer debug remote fuel
                                               rq w in
            let '(rs, w'') := serve url_for_static url_for_viewer debug rest w' in
            (r :: rs, w'')).
    destruct (request_generate url_for_static url_for_viewer debug remote fuel rq w)
      as [r w1].
    simpl in Hallowed, Hcount, Hguest', Hhandler.
    specialize (IH w1 Hguest').
    destruct (serve url_for_static url_for_viewer debug rest w1) as [rs w2].
    simpl in *. intros Hanswered.
    apply Forall_cons in Hanswered as [[resp ->] Hanswered].
    rewrite (Hread resp (eq_sym Hhandler)) in Hcount. simpl in Hcount.
    destruct IH as (IH1 & IH2 & IH3); [lia | done |].
    split; [by constructor |]. split; [| done].
    rewrite IH2, Hcount. lia.
Qed.

(** C4, as amended.  For a caller without an account the request is
    handed to the handler exactly when the stored count is below 15; at 15
    or more the guest-limit error is returned and the session is left as it
    was.  The count the client holds after a request that was handed to the
    handler is one more exactly when the slide count of the form is absent
    or a literal [int] reads and the request is answered: the handler
    counts after it has read the form, and the session reaches the client
    only with a response, which a request that does not return never gets
    and a request that raises gets only when exceptions do not propagate.
    In particular every request the handler answers itself is counted.  A
    caller with an account is always handed to the handler, and the session,
    hence any counter, stays as it was.  Starting from a count of 0, fifteen
    requests that the handler answers are all let through, and the
    sixteenth request is denied with the count still 15. *)
Theorem guest_quota debug remote fuel rq w :
  let w1 := set_g_user (current_user w) w in
  let out := request_generate url_for_static url_for_viewer debug remote fuel rq w in
  (current_user w = None ->
   (guest_usage w < 15 ->
    out.1 = (generate url_for_static url_for_viewer remote fuel rq w1).1
    /\ out.1 <> Ok guest_limit_reached
    /\ guest_usage out.2
       = guest_usage w + (if answered debug out.1 && slide_count_readable rq then 1 else 0)
    /\ (forall resp, out.1 = Ok resp -> guest_usage out.2 = guest_usage w + 1))
   /\ (15 <= guest_usage w ->
       out = (Ok guest_limit_reached, w1) /\ session w1 = session w))
  /\ (forall u, current_user w = Some u ->
                out.1 = (generate url_for_static url_for_viewer remote fuel rq w1).1
                /\ out.1 <> Ok guest_limit_reached
                /\ session out.2 = session w)
  /\ count_guest_request w1
     = (Ok tt,
        match current_user w with
        | Some _ => w1
        | None => set_session (<["guest_usage" := guest_usage w + 1]> (session w)) w1
        end)
  /\ (current_user w = None -> guest_usage w = 0 ->
      forall requests last,
        length requests = 15%nat ->
        let served := serve url_for_static url_for_viewer debug requests w in
        Forall (fun r => exists resp, r = Ok resp) served.1 ->
        Forall (fun r => r <> Ok guest_limit_reached) served.1
        /\ guest_usage served.2 = 15
        /\ request_generate url_for_static url_for_viewer debug last.1.1 last.1.2 last.2
                            served.2
           = (Ok guest_limit_reached, set_g_user None served.2)).
Proof.
  cbv zeta.
  assert ((request_generate url_for_static url_for_viewer debug remote fuel rq w).1
          = (post_generate url_for_static url_for_viewer remote fuel rq w).1) as Hfirst
      by reflexivity.
  split; [| split; [| split]].
  - intros Hguest. split.
    + intros Hbelow.
      destruct (request_generate_guest debug remote fuel rq w Hguest)
        as (Hallowed & Hcount & _); [unfold GUEST_LIMIT; lia |].
      assert ((request_generate url_for_static url_for_viewer debug remote fuel rq w).1
              = (generate url_for_static url_for_viewer remote fuel rq
                          (set_g_user (current_user w) w)).1) as Hhandler.
      { rewrite Hfirst, post_generate_eq, guest_limit_check_eq, Hguest.
        cbn [g_user set_g_user]. rewrite guest_usage_set_g_user.
        destruct (Z.leb_spec GUEST_LIMIT (guest_usage w)) as [Habove | _];
          [unfold GUEST_LIMIT in *; lia | done]. }
      split; [done |]. split; [done |]. split; [done |].
      intros resp Hresp. rewrite Hcount, Hresp. cbn [answered andb].
      rewrite Hresp in Hhandler.
      by rewrite (generate_Ok_readable remote fuel rq _ resp (eq_sym Hhandler)).
    + intros Habove. unfold request_generate, after_request. cbv zeta.
      rewrite post_generate_eq, guest_limit_check_eq, Hguest.
      cbn [g_user set_g_user]. rewrite guest_usage_set_g_user.
      destruct (Z.leb_spec GUEST_LIMIT (guest_usage w)) as [_ | Hbelow];
        [done | unfold GUEST_LIMIT in *; lia].
  - intros u Huser.
    assert (post_generate url_for_static url_for_viewer remote fuel rq w
            = generate url_for_static url_for_viewer remote fuel rq
                       (set_g_user (current_user w) w)) as Hhandler.
    { rewrite post_generate_eq, guest_limit_check_eq. cbn [g_user set_g_user].
      by rewrite Huser. }
    split; [by rewrite Hfirst, Hhandler |].
    split; [rewrite Hfirst, Hhandler; apply generate_never_denies |].
    unfold request_generate, after_request. cbv zeta. cbn [snd].
    destruct (answered debug _); [| done].
    rewrite Hhandler, Huser.
    pose proof (generate_session remote fuel rq (set_g_user (Some u) w)) as (_ & H & _).
    destruct H as [H | [H _]]; [exact H | discriminate].
  - rewrite count_guest_request_eq. cbn [g_user set_g_user].
    by destruct (current_user w).
  - intros Hguest Hzero requests last Hlen Hanswered.
    pose proof (serve_guest debug requests w Hguest) as H.
    rewrite Hzero, Hlen in H. cbv zeta in H.
    destruct H as (Hallowed & Hcount & Hguest'); [unfold GUEST_LIMIT; lia | done |].
    split; [done |]. split; [done |].
    unfold request_generate, after_request. cbv zeta.
    rewrite post_generate_eq, guest_limit_check_eq, Hguest'.
    cbn [g_user set_g_user]. rewrite guest_usage_set_g_user, Hcount. reflexivity.
Qed.

End Quota.

Lemma guest_quota_witness :
  let served := serve flask_static flask_viewer true
                      (replicate 15 (remote_video_ready, 0%nat, request_two_slides)) fresh in
  Forall (fun r => r <> Ok guest_limit_reached) served.1
  /\ guest_usage served.2 = 15
  /\ request_generate flask_static flask_viewer true remote_video_ready 0 request_two_slides
                      served.2
     = (Ok guest_limit_reached, set_g_user None served.2).
Proof.
  refine (proj2 (proj2 (proj2 (guest_quota flask_static flask_viewer true remote_video_ready 0
                                 request_two_slides fresh)))
                eq_refl eq_refl
                (replicate 15 (remote_video_ready, 0%nat, request_two_slides))
                (remote_video_ready, 0%nat, request_two_slides) eq_refl _).
  vm_compute. repeat (constructor; [by eexists |]). constructor.
Defined.

(** C4 as stated fails: an allowed guest request need not be counted.  A
    request whose slide count is not an integer literal is let through by
    the quota check, but [int] raises before the counting step, so a guest
    can send sixteen such requests without being denied.  A request whose
    first image fails is counted by the handler, which then raises
    [UnboundLocalError]; in debug mode the client never gets the session
    with the new count. *)
Lemma guest_request_not_counted_counterexample :
  let out := request_generate flask_static flask_viewer false remote_video_ready 0
                              request_malformed_count fresh in
  let served := serve flask_static flask_viewer false
                      (replicate 16 (remote_video_ready, 0%nat, request_malformed_count))
                      fresh in
  let raised := request_generate flask_static flask_viewer true remote_image_fails 0
                                 request_two_slides fresh in
  guest_usage fresh < 15
  /\ out.1 = Raise Py.ValueError
  /\ ~ (guest_usage out.2 = guest_usage fresh + 1)
  /\ served.1 !! 15%nat <> Some (Ok guest_limit_reached)
  /\ raised.1 = Raise Py.UnboundLocalError
  /\ ~ (guest_usage raised.2 = guest_usage fresh + 1).
Proof. vm_compute. repeat split; try done. Qed.

(** ** Planning failures *)

Section PlanningFailure.

Context (url_for_static : bool -> string -> string)
        (url_for_viewer : string -> string).

Lemma build_presentation_plan_fails remote fuel topic slide_count pdf_path url_link
      enable_video w :
  plan_reply remote = PlanCallRaises \/ plan_reply remote = PlanTextInvalid
  \/ plan_reply remote = PlanTextFalsy ->
  let out := build_presentation url_for_static url_for_viewer remote fuel topic slide_count
                                pdf_path url_link enable_video w in
  presentations out.2 = presentations w
  /\ appends is_planning w out.2
  /\ (out.1 = Ok (ErrorJson 500 "Planning Failed")
      \/ (out.1 = Hang /\ appends is_upload w out.2))
  /\ (upload_returns remote fuel pdf_path -> out.1 = Ok (ErrorJson 500 "Planning Failed")).
Proof.
  intros Hreply. cbv zeta. unfold build_presentation. rewrite bind_eq.
  pose proof (plan_presentation_outcome remote fuel topic slide_count pdf_path url_link w)
    as [Hresult Hno_pdf].
  pose proof (plan_presentation_keeps presentations remote fuel topic slide_count pdf_path
                url_link (fun _ _ => eq_refl) (fun _ _ => eq_refl) w) as Hkeeps.
  pose proof (plan_presentation_appends remote fuel topic slide_count pdf_path url_link w)
    as Happends.
  unfold keeps in Hkeeps.
  assert (planned (plan_reply remote) = PlanNone \/ planned (plan_reply remote) = PlanFalsy)
    as Hvalue.
  { destruct Hreply as [-> | [-> | ->]]; [by left | by left | by right]. }
  destruct (plan_presentation remote fuel topic slide_count pdf_path url_link w)
    as [[value | e |] w1]; simpl in *.
  - assert (value = PlanNone \/ value = PlanFalsy) as [-> | ->].
    { destruct Hresult as [[= ->] | [? _]]; [done | discriminate]. }
    all: split; [done |]; split; [done |]; split; [by left | done].
  - destruct Hresult as [? | [? _]]; discriminate.
  - split; [done |]. split; [done |]. split.
    + right. by destruct Hresult as [? | [_ ?]].
    + intros H. by specialize (Hno_pdf H).
Qed.

(** A reply in which a key is missing is handed to the handler, which
    never gets to an answer of its own and stores nothing. *)
Lemma build_presentation_partial remote fuel topic slide_count pdf_path url_link
      enable_video w p missing :
  plan_reply remote = PlanTextPartial p missing ->
  let out := build_presentation url_for_static url_for_viewer remote fuel topic slide_count
                                pdf_path url_link enable_video w in
  (forall resp, out.1 <> Ok resp)
  /\ presentations out.2 = presentations w.
Proof.
  intros Hreply. cbv zeta. unfold build_presentation. rewrite bind_eq.
  pose proof (plan_presentation_outcome remote fuel topic slide_count pdf_path url_link w)
    as [Hresult _].
  pose proof (plan_presentation_keeps presentations remote fuel topic slide_count pdf_path
                url_link (fun _ _ => eq_refl) (fun _ _ => eq_refl) w) as Hkeeps.
  unfold keeps in Hkeeps. rewrite Hreply in Hresult. simpl planned in Hresult.
  destruct (plan_presentation remote fuel topic slide_count pdf_path url_link w)
    as [[value | e |] w1]; simpl in *.
  - destruct Hresult as [[= ->] | [? _]]; [| discriminate].
    destruct (use_partial_plan_fails url_for_static url_for_viewer remote p enable_video w1
                missing) as [Hnever Hsame].
    split; [done | by rewrite Hsame].
  - done.
  - done.
Qed.

(** A trace that grew by upload events only holds no new planning call. *)
Lemma no_plan_call_in_upload w w' delta contents cached_name :
  appends is_upload w w' ->
  trace w' = (trace w ++ delta)%list ->
  PlanCall contents cached_name ∈ delta -> False.
Proof.
  intros (delta' & Htrace & Hupload) Hdelta Hin.
  rewrite Htrace in Hdelta. apply app_inv_head in Hdelta as ->.
  rewrite Forall_forall in Hupload. by specialize (Hupload _ Hin).
Qed.

(** C7, as amended.  When the planning call raises or its text is not
    JSON the planner returns [None], and when the text is JSON for an empty
    value it returns that value; in these cases the request stores nothing
    and makes no image, video or database call, and every request in which
    the planning call was made is answered with the error 'Planning
    Failed'.  That answer is given to every request that passes the quota
    check with a readable form and has no document attached, or a document
    whose processing ends within the polls the model follows; the model
    shows a wait that does not end as [Hang].  Nothing checks the parsed
    value against the schema: a reply in which a key is missing is returned
    by the planner as it is and used by the handler, which then is never
    answered with 'Planning Failed'; the request stores nothing, and the
    only answer it can get from the application itself is the guest-limit
    error. *)
Theorem planning_failure_aborts remote fuel rq w :
  let out := post_generate url_for_static url_for_viewer remote fuel rq w in
  (plan_reply remote = PlanCallRaises \/ plan_reply remote = PlanTextInvalid
   \/ plan_reply remote = PlanTextFalsy ->
   presentations out.2 = presentations w
   /\ (exists delta, trace out.2 = (trace w ++ delta)%list
                     /\ Forall (fun e => is_media_or_save e = false) delta)
   /\ (forall topic slide_count pdf_path url_link w0,
          let plan := plan_presentation remote fuel topic slide_count pdf_path url_link w0 in
          let value := match plan_reply remote with
                       | PlanTextFalsy => PlanFalsy
                       | _ => PlanNone
                       end in
          (plan.1 = Ok value \/ plan.1 = Hang)
          /\ (upload_returns remote fuel pdf_path -> plan.1 = Ok value))
   /\ (forall delta contents cached_name,
          trace out.2 = (trace w ++ delta)%list ->
          PlanCall contents cached_name ∈ delta ->
          out.1 = Ok (ErrorJson 500 "Planning Failed"))
   /\ (current_user w <> None \/ guest_usage w < 15 ->
       slide_count_readable rq = true ->
       upload_returns remote fuel (files rq !! "pdf_file") ->
       out.1 = Ok (ErrorJson 500 "Planning Failed")))
  /\ (forall p missing,
         plan_reply remote = PlanTextPartial p missing ->
         (forall topic slide_count pdf_path url_link w0,
             let plan := plan_presentation remote fuel topic slide_count pdf_path url_link w0 in
             (plan.1 = Ok (PlanPartial p missing) \/ plan.1 = Hang)
             /\ (upload_returns remote fuel pdf_path -> plan.1 = Ok (PlanPartial p missing)))
         /\ out.1 <> Ok (ErrorJson 500 "Planning Failed")
         /\ (forall resp, out.1 = Ok resp -> resp = guest_limit_reached)
         /\ presentations out.2 = presentations w).
Proof.
  cbv zeta. split.
  { intros Hreply.
    assert (forall w1,
               w1 = set_g_user (current_user w) w ->
               let run := generate url_for_static url_for_viewer remote fuel rq w1 in
               presentations run.2 = presentations w
               /\ appends is_planning w run.2
               /\ (run.1 = Ok (ErrorJson 500 "Planning Failed")
                   \/ trace run.2 = trace w
                   \/ appends is_upload w run.2)
               /\ (slide_count_readable rq = true ->
                   upload_returns remote fuel (files rq !! "pdf_file") ->
                   run.1 = Ok (ErrorJson 500 "Planning Failed"))) as Hhandler.
    { intros w1 ->. cbv zeta. unfold generate. rewrite bind_eq.
      pose proof (read_slide_count_world rq (set_g_user (current_user w) w)) as Hworld.
      pose proof (read_slide_count_readable rq (set_g_user (current_user w) w)) as Hread.
      destruct (read_slide_count rq _) as [[n | e |] w0]; simpl in Hworld; subst w0;
        [| split; [done |]; split; [by apply appends_same_trace |];
           split; [by right; left |];
           intros H; by destruct (Hread H) ..].
      rewrite bind_eq, count_guest_request_eq.
      match goal with
      | |- context [ build_presentation _ _ ?r ?f ?t ?n ?p ?u ?v ?w2 ] =>
          pose proof (build_presentation_plan_fails r f t n p u v w2 Hreply)
            as (Hkeeps & Happends & Hresult & Hno_pdf);
          assert (trace w2 = trace w) as Hcount
              by (cbn [g_user set_g_user]; by destruct (current_user w))
      end.
      cbv zeta in Hkeeps, Happends, Hresult, Hno_pdf.
      split; [| split; [| split]].
      - rewrite Hkeeps. cbn [g_user set_g_user]. by destruct (current_user w).
      - etrans; [| exact Happends]. by apply appends_same_trace.
      - destruct Hresult as [Hresult | [_ Hupload]]; [by left |].
        right; right. etrans; [| exact Hupload]. by apply appends_same_trace.
      - intros _ Hfile. apply Hno_pdf.
        destruct Hfile as [Hfile | Hsettles]; [| by right].
        left. by rewrite Hfile. }
    specialize (Hhandler _ eq_refl). cbv zeta in Hhandler.
    destruct Hhandler as (Hkeeps & (delta & Htrace & Hdelta) & Hcall & Hresult).
    rewrite post_generate_eq, guest_limit_check_eq.
    cbn [g_user set_g_user]. rewrite guest_usage_set_g_user.
    assert (forall delta' contents cached_name,
               trace w = (trace w ++ delta')%list ->
               PlanCall contents cached_name ∈ delta' -> False) as Hnone.
    { intros delta' contents cached_name Heq Hin.
      rewrite <- (app_nil_r (trace w)) in Heq at 1.
      apply app_inv_head in Heq as <-. by apply elem_of_nil in Hin. }
    assert (forall delta' contents cached_name,
               trace (generate url_for_static url_for_viewer remote fuel rq
                               (set_g_user (current_user w) w)).2 = (trace w ++ delta')%list ->
               PlanCall contents cached_name ∈ delta' ->
               (generate url_for_static url_for_viewer remote fuel rq
                         (set_g_user (current_user w) w)).1
               = Ok (ErrorJson 500 "Planning Failed")) as Hcalled.
    { intros delta' contents cached_name Heq Hin.
      destruct Hcall as [Hcall | [Hcall | Hcall]]; [done | |].
      - rewrite Hcall in Heq. by destruct (Hnone _ _ _ Heq Hin).
      - by destruct (no_plan_call_in_upload _ _ _ _ _ Hcall Heq Hin). }
    split; [| split; [| split; [| split]]].
    - destruct (current_user w); [done |].
      by destruct (GUEST_LIMIT <=? guest_usage w).
    - destruct (current_user w);
        [| destruct (GUEST_LIMIT <=? guest_usage w)];
        try (exists delta; split; [done |];
             eapply Forall_impl; [exact Hdelta | apply is_planning_not_media]).
      exists []. split; [simpl; by rewrite app_nil_r | constructor].
    - intros topic slide_count pdf_path url_link w0.
      destruct (plan_presentation_outcome remote fuel topic slide_count pdf_path url_link w0)
        as [Hplan Hreturns].
      assert (planned (plan_reply remote)
              = match plan_reply remote with
                | PlanTextFalsy => PlanFalsy
                | _ => PlanNone
                end) as <-.
      { by destruct Hreply as [-> | [-> | ->]]. }
      split; [| done]. destruct Hplan as [? | [? _]]; [by left | by right].
    - intros delta' contents cached_name.
      destruct (current_user w); [by apply Hcalled |].
      destruct (GUEST_LIMIT <=? guest_usage w); [| by apply Hcalled].
      simpl. intros Heq Hin. by destruct (Hnone _ _ _ Heq Hin).
    - intros Hallowed Hread Hreturns.
      destruct (current_user w) as [u |]; [by apply Hresult |].
      destruct Hallowed as [Huser | Hbelow]; [done |].
      destruct (Z.leb_spec GUEST_LIMIT (guest_usage w)) as [Habove | _];
        [unfold GUEST_LIMIT in *; lia |].
      by apply Hresult. }
  intros p missing Hreply.
  assert (forall w1,
             presentations w1 = presentations w ->
             let run := generate url_for_static url_for_viewer remote fuel rq w1 in
             (forall resp, run.1 <> Ok resp) /\ presentations run.2 = presentations w)
    as Hhandler.
  { intros w1 Hsame. cbv zeta. unfold generate. rewrite bind_eq.
    pose proof (read_slide_count_world rq w1) as Hworld.
    destruct (read_slide_count rq w1) as [[n | e |] w0]; simpl in Hworld; subst w0;
      [| by split ..].
    rewrite bind_eq, count_guest_request_eq.
    match goal with
    | |- context [ build_presentation _ _ ?r ?f ?t ?n ?q ?u ?v ?w2 ] =>
        destruct (build_presentation_partial r f t n q u v w2 p missing Hreply)
          as [Hnever Hkeeps];
        assert (presentations w2 = presentations w1) as Hcount
            by (by destruct (g_user w1))
    end.
    split; [done | by rewrite Hkeeps, Hcount]. }
  split.
  { intros topic slide_count pdf_path url_link w0. cbv zeta.
    destruct (plan_presentation_outcome remote fuel topic slide_count pdf_path url_link w0)
      as [Hplan Hreturns].
    rewrite Hreply in Hplan, Hreturns. simpl planned in Hplan, Hreturns.
    split; [| done]. destruct Hplan as [? | [? _]]; [by left | by right]. }
  rewrite post_generate_eq, guest_limit_check_eq.
  cbn [g_user set_g_user]. rewrite guest_usage_set_g_user.
  destruct (Hhandler (set_g_user (current_user w) w) eq_refl) as [Hnever Hkeeps].
  destruct (current_user w) as [u |];
    [| destruct (GUEST_LIMIT <=? guest_usage w)];
    try (split; [apply Hnever |]; split; [| done]; intros resp H; by destruct (Hnever resp)).
  split; [discriminate |]. split; [| done]. by intros resp [= <-].
Qed.

End PlanningFailure.

Lemma planning_failure_aborts_witness :
  let out := post_generate flask_static flask_viewer remote_plan_fails 0
                           request_two_slides fresh in
  out.1 = Ok (ErrorJson 500 "Planning Failed")
  /\ presentations out.2 = [].
Proof.
  pose proof (proj1 (planning_failure_aborts flask_static flask_viewer remote_plan_fails 0
                       request_two_slides fresh) (or_introl eq_refl)) as H.
  cbv zeta in H. destruct H as (Hstored & _ & _ & _ & Hresponse).
  split; [| exact Hstored].
  apply Hresponse; [right; reflexivity | reflexivity | left; reflexivity].
Defined.

(** C7 as stated fails: the parse into a plan can fail without the planner
    noticing.  The second slide of this reply has no [content].  The
    planner returns the value, the handler uses it: both images are
    requested and the video of slide 0 is generated and downloaded, and then
    the subscript raises; the request is not answered with 'Planning
    Failed'. *)
Lemma partial_plan_is_used_counterexample :
  let out := post_generate flask_static flask_viewer remote_partial_plan 0
                           request_two_slides fresh in
  out.1 = Raise Py.SubscriptError
  /\ out.1 <> Ok (ErrorJson 500 "Planning Failed")
  /\ ~ Forall (fun e => is_media_or_save e = false) (trace out.2)
  /\ trace out.2
     = [CachesCreate;
        PlanCall [Text "Topic: Quantum Computing. Length: 2 slides."] None;
        ImageCall "Abstract qubit" 0; ImageCall "Frozen chip" 1;
        VideosGenerate "static/uploads/img_0.png" "Cinematic 4k. Slow pan";
        Sleep 5; OperationsGet; Sleep 5; OperationsGet; Sleep 5; OperationsGet;
        FilesDownload "static/uploads/veo_v.mp4"].
Proof.
  vm_compute. split; [done |]. split; [done |]. split; [| done].
  intros H. apply Forall_cons in H as [_ H]. apply Forall_cons in H as [_ H].
  by apply Forall_cons in H as [H _].
Qed.

(** With a document whose processing takes three polls: the planner waits,
    sends the document with the prompt, and the request ends with
    'Planning Failed'. *)
Example planning_failure_after_upload :
  let out := post_generate flask_static flask_viewer remote_document_plan_fails 5
                           request_with_document fresh in
  out.1 = Ok (ErrorJson 500 "Planning Failed")
  /\ trace out.2
     = [FilesUpload "static/uploads/doc_d.pdf";
        Sleep 1; FilesGet; Sleep 1; FilesGet; Sleep 1; FilesGet;
        CachesCreate;
        PlanCall [FileRef "files/deck";
                  Text ("Topic: Quantum Computing. Length: 2 slides." ++ newline ++ newline
                        ++ "Refer to the uploaded PDF file for facts.")] None].
Proof. vm_compute. done. Qed.

(** ** The slide count *)

Section SlideCount.

Context (url_for_static : bool -> string -> string)
        (url_for_viewer : string -> string).

(** What [int] reads and what it refuses: white space around the literal,
    a sign, single underscores between digits; the separators U+001C to
    U+001F are not white space; digits and white space of other scripts are
    read (U+0663 ARABIC-INDIC DIGIT THREE, U+FF14 U+FF12 FULLWIDTH DIGITS,
    U+00A0 NO-BREAK SPACE); a literal of more than 4300 digits is refused. *)
Example int_reads_literals :
  Py.int_of_str " 12 " = Some 12
  /\ Py.int_of_str "-0" = Some 0
  /\ Py.int_of_str "+7" = Some 7
  /\ Py.int_of_str "1_000" = Some 1000
  /\ Py.int_of_str "007" = Some 7
  /\ Py.int_of_str (str_of_bytes [9; 51; 10]%nat) = Some 3.
Proof. vm_compute. done. Qed.

Example int_refuses_malformed_literals :
  Py.int_of_str "three" = None
  /\ Py.int_of_str "" = None
  /\ Py.int_of_str "4.0" = None
  /\ Py.int_of_str "0x10" = None
  /\ Py.int_of_str "1__0" = None
  /\ Py.int_of_str "_1" = None
  /\ Py.int_of_str "- 1" = None
  /\ Py.int_of_str (str_of_bytes [28; 52]%nat) = None
  /\ Py.int_of_str (str_of_bytes [52; 31]%nat) = None
  /\ Py.int_of_str (str_of_bytes [52; 0]%nat) = None.
Proof. vm_compute. done. Qed.

Example int_reads_other_scripts :
  Py.int_of_str (str_of_bytes [217; 163]%nat) = Some 3
  /\ Py.int_of_str (str_of_bytes [239; 188; 148; 239; 188; 146]%nat) = Some 42
  /\ Py.int_of_str (str_of_bytes [194; 160; 52]%nat) = Some 4
  /\ Py.int_of_str (str_of_bytes [194; 178]%nat) = None.
Proof. vm_compute. done. Qed.

Example int_refuses_long_literals :
  has_key (Py.int_of_str (ones 4300)) = true /\ Py.int_of_str (ones 4301) = None.
Proof. split; vm_compute; reflexivity. Qed.

(** Without a document or a URL, the planning call carries the prompt
    built from the topic and the slide count it was given. *)
Lemma plan_presentation_prompt remote fuel topic slide_count w :
  exists cached_name,
    PlanCall [Text ("Topic: " ++ Py.format_opt topic ++ ". Length: "
                    ++ Py.str_of_int slide_count ++ " slides.")] cached_name
    ∈ trace (plan_presentation remote fuel topic slide_count None None w).2.
Proof.
  unfold plan_presentation. cbv zeta. cbn [Py.truthy]. rewrite bind_eq.
  cbn [ret]. cbv iota beta. rewrite bind_eq.
  destruct (get_cached_architect_returns (cache_reply remote) w) as (h & w1 & ->).
  exists h. run.
  destruct (plan_reply remote); simpl; apply elem_of_app; right; by left.
Qed.

(** C9, as amended.  The slide count is not validated.  When the field
    is absent the count is 3.  When it is present and [int] accepts it, the
    integer it denotes, positive or not, is the count the handler plans
    with, and it is written as given into the planning prompt. *)
Theorem slide_count_used_as_given rq w :
  (form rq !! "slide_count" = None -> read_slide_count rq w = (Ok 3, w))
  /\ (forall s n,
         form rq !! "slide_count" = Some s -> Py.int_of_str s = Some n ->
         read_slide_count rq w = (Ok n, w)
         /\ forall remote fuel,
             exists topic pdf_path url_link enable_video,
               generate url_for_static url_for_viewer remote fuel rq w =
               bind count_guest_request
                    (fun _ => build_presentation url_for_static url_for_viewer remote fuel
                                                 topic n pdf_path url_link enable_video) w)
  /\ (forall remote fuel topic n w0,
         exists cached_name,
           PlanCall [Text ("Topic: " ++ Py.format_opt topic ++ ". Length: "
                           ++ Py.str_of_int n ++ " slides.")] cached_name
           ∈ trace (plan_presentation remote fuel topic n None None w0).2).
Proof.
  split; [| split].
  - intros H. unfold read_slide_count. by rewrite H.
  - intros s n Hs Hn.
    assert (read_slide_count rq w = (Ok n, w)) as Hread.
    { unfold read_slide_count. by rewrite Hs, Hn. }
    split; [exact Hread |]. intros remote fuel.
    eexists _, _, _, _. unfold generate. rewrite bind_eq, Hread. reflexivity.
  - intros remote fuel topic n w0. apply plan_presentation_prompt.
Qed.

End SlideCount.

Lemma slide_count_used_as_given_witness :
  read_slide_count (request_of [("slide_count", "-2")]) fresh = (Ok (-2), fresh).
Proof.
  exact (proj1 (proj1 (proj2 (slide_count_used_as_given flask_static flask_viewer
                                (request_of [("slide_count", "-2")]) fresh))
                      "-2" (-2) eq_refl eq_refl)).
Defined.

(** C9 as stated fails: a slide count of 0 is neither rejected nor replaced
    by the default; planning is asked for 0 slides. *)
Lemma slide_count_zero_counterexample :
  exists n,
    (read_slide_count request_zero_slides fresh).1 = Ok n
    /\ ~ (0 < n) /\ n <> 3
    /\ PlanCall [Text ("Topic: Quantum Computing. Length: " ++ Py.str_of_int n ++ " slides.")]
                None
       ∈ trace (post_generate flask_static flask_viewer remote_video_ready 0
                              request_zero_slides fresh).2.
Proof.
  exists 0. split; [reflexivity |]. split; [lia |]. split; [lia |].
  vm_compute. right. left.
Qed.

(** ** The stored video flag *)

Section Stored.

Context (url_for_static : bool -> string -> string)
        (url_for_viewer : string -> string).

(** C10.  A request stores nothing, or it stores exactly one presentation;
    the [has_video] of that presentation is the request's [enable_video]
    flag, whatever the media types of its slides. *)
Theorem has_video_is_enable_video remote fuel rq w :
  let out := post_generate url_for_static url_for_viewer remote fuel rq w in
  (presentations out.2 = presentations w
   /\ forall url, out.1 <> Ok (RedirectJson url))
  \/ (exists p, presentations out.2 = (presentations w ++ [p])%list
                /\ has_video p = form_flag rq "enable_video" "true"
                /\ out.1 = Ok (RedirectJson (url_for_viewer (pres_id p)))).
Proof.
  cbv zeta. rewrite post_generate_eq, guest_limit_check_eq.
  cbn [g_user set_g_user]. rewrite guest_usage_set_g_user.
  assert (forall w1,
             presentations w1 = presentations w ->
             let run := generate url_for_static url_for_viewer remote fuel rq w1 in
             (presentations run.2 = presentations w
              /\ forall url, run.1 <> Ok (RedirectJson url))
             \/ (exists p, presentations run.2 = (presentations w ++ [p])%list
                           /\ has_video p = form_flag rq "enable_video" "true"
                           /\ run.1 = Ok (RedirectJson (url_for_viewer (pres_id p)))))
    as Hhandler.
  { intros w1 Hsame. cbv zeta. unfold generate. rewrite bind_eq.
    pose proof (read_slide_count_world rq w1) as Hworld.
    destruct (read_slide_count rq w1) as [[n | e |] w0]; simpl in Hworld; subst w0;
      [| by left ..].
    rewrite bind_eq, count_guest_request_eq.
    match goal with
    | |- context [ build_presentation _ _ ?r ?f ?t ?n ?p ?u ?v ?w ] =>
        pose proof (build_presentation_stores url_for_static url_for_viewer
                      r f t n p u v w) as Hstores;
        assert (presentations w = presentations w1) as Hcount
            by (by destruct (g_user w1))
    end.
    cbv zeta in Hstores. rewrite Hcount, Hsame in Hstores. exact Hstores. }
  destruct (current_user w) as [u |]; [by apply Hhandler |].
  destruct (GUEST_LIMIT <=? guest_usage w); [by left | by apply Hhandler].
Qed.

End Stored.

(** Video was requested and the poller timed out: every stored slide is
    an image, and [has_video] is true. *)
Example has_video_without_a_video :
  presentations (post_generate flask_static flask_viewer remote_video_times_out 0
                               request_two_slides fresh).2
  = [mkPresentation "p" "Quantum Computing"
                    [Some (image_slide flask_static first_slide "img_0.png");
                     Some (image_slide flask_static second_slide "img_1.png")]
                    None true].
Proof. vm_compute. reflexivity. Qed.


(** * Further properties of the services *)

(** ** The video poller beyond the timeout *)

Lemma poll_until_done_done_at (env : VideoEnv) (k fuel : nat) (operation last : Operation)
      (poll_count : nat) (w : World) :
  op_done operation = false ->
  (forall j, (poll_count <= j < poll_count + k)%nat ->
             exists op, poll_reply env j = Some op /\ op_done op = false) ->
  poll_reply env (poll_count + k) = Some last ->
  op_done last = true ->
  (poll_count + k < max_polls)%nat ->
  (k < fuel)%nat ->
  poll_until_done env fuel operation poll_count w =
  (Ok (last, S (poll_count + k)), extend_trace (concat (replicate (S k) poll_round)) w).
Proof.
  revert fuel operation poll_count w.
  induction k as [| k IH]; intros fuel operation poll_count w Hpending Hbefore Hlast Hdone
                                  Hbound Hfuel;
    (destruct fuel as [| fuel]; [lia |]);
    rewrite poll_until_done_eq, Hpending;
    (destruct (Nat.ltb_spec poll_count max_polls) as [_ | ?]; [| lia]);
    cbn [negb andb].
  - rewrite Nat.add_0_r in *. run. rewrite Hlast. run.
    rewrite poll_until_done_eq, Hdone. cbn [negb andb]. run.
    by rewrite !log_event_extend, extend_trace_extend.
  - destruct (Hbefore poll_count ltac:(lia)) as (op & Hreply & Hop).
    run. rewrite Hreply. run.
    rewrite (IH fuel op (S poll_count)); try done; try lia.
    + replace (S poll_count + k)%nat with (poll_count + S k)%nat by lia.
      f_equal. by rewrite !log_event_extend, !extend_trace_extend.
    + intros j Hj. apply Hbefore. lia.
    + by replace (S poll_count + k)%nat with (poll_count + S k)%nat by lia.
Qed.

Section PollerOutcome.

Context (url_for_static : bool -> string -> string).

(** X1.  When the operation is seen done after [n] polls, [n] at most
    120, the poller has slept 5 seconds before each of exactly [n] polls
    and polls no further.  If the finished operation holds a video it is
    downloaded once to [static/uploads/veo_<uuid>.mp4] and, the download
    succeeding, the public URL of that file is returned; if it holds no
    video, or the download raises, the result is [None]. *)
Theorem video_poller_stops_when_done (env : VideoEnv) (image_path prompt : string)
        (first last : Operation) (n : nat) (w : World) :
  image_readable env = true ->
  submitted env = Some first ->
  done_after env first n last ->
  generate_video url_for_static env image_path prompt w =
  (if has_generated_video last && download_ok env
   then Ok (Some (url_for_static true ("uploads/" ++ video_filename env)))
   else Ok None,
   extend_trace (VideosGenerate image_path ("Cinematic 4k. " ++ prompt)
                   :: concat (replicate n poll_round)
                   ++ (if has_generated_video last
                       then [FilesDownload (video_filepath env)] else [])) w).
Proof.
  intros Hopen Hsubmit Hdone.
  unfold generate_video, generate_video_body. run. rewrite Hopen. run. rewrite Hsubmit. run.
  assert (poll_until_done env max_polls first 0
            (log_event (VideosGenerate image_path ("Cinematic 4k. " ++ prompt)) w)
          = (Ok (last, n),
             extend_trace (concat (replicate n poll_round))
               (log_event (VideosGenerate image_path ("Cinematic 4k. " ++ prompt)) w))
          /\ op_done last = true) as [-> Hlast].
  { destruct Hdone as [(-> & -> & Hfirst) | (Hfirst & k & -> & Hk & Hbefore & Hreply & Hlast)].
    - split; [| done]. rewrite poll_until_done_eq, Hfirst. cbn [negb andb]. run.
      by rewrite extend_trace_nil.
    - split; [| done].
      rewrite (poll_until_done_done_at env k max_polls first last 0); try done.
      intros j Hj. apply Hbefore. lia. }
  run. rewrite Hlast. run.
  unfold video_filepath, video_filename.
  destruct (has_generated_video last); run.
  - destruct (download_ok env); run;
      by rewrite !log_event_extend, !extend_trace_extend.
  - by rewrite !log_event_extend, !extend_trace_extend, app_nil_r.
Qed.

(** X2.  A URL comes back only for a file that was downloaded: whenever the
    poller returns a URL, the download succeeded, the last call made is the
    download to [static/uploads/veo_<uuid>.mp4], and the URL is the public
    URL of that same file. *)
Theorem video_url_names_downloaded_file (env : VideoEnv) (image_path prompt : string)
        (w : World) (video_url : string) :
  (generate_video url_for_static env image_path prompt w).1 = Ok (Some video_url) ->
  video_url = url_for_static true ("uploads/" ++ video_filename env)
  /\ download_ok env = true
  /\ exists before,
      trace (generate_video url_for_static env image_path prompt w).2
      = (before ++ [FilesDownload (video_filepath env)])%list.
Proof.
  unfold generate_video, generate_video_body, video_filepath, video_filename. run.
  destruct (image_readable env); run; [| discriminate].
  destruct (submitted env) as [first |]; run; [| discriminate].
  destruct (poll_until_done env max_polls first 0 _) as [[[last n] | e |] w1];
    run; try discriminate.
  destruct (op_done last); run; [| discriminate].
  destruct (has_generated_video last); run; [| discriminate].
  destruct (download_ok env); run; [| discriminate].
  intros [= <-]. split; [done |]. split; [done |]. by eexists.
Qed.

End PollerOutcome.

Lemma video_poller_stops_when_done_witness :
  generate_video flask_static video_done_at_3 "static/uploads/img_0.png" "Slow pan" fresh
  = (Ok (Some "http://localhost:5000/static/uploads/veo_v.mp4"),
     extend_trace [VideosGenerate "static/uploads/img_0.png" "Cinematic 4k. Slow pan";
                   Sleep 5; OperationsGet; Sleep 5; OperationsGet; Sleep 5; OperationsGet;
                   FilesDownload "static/uploads/veo_v.mp4"] fresh).
Proof.
  refine (video_poller_stops_when_done flask_static video_done_at_3
            "static/uploads/img_0.png" "Slow pan" pending (mkOperation true (Some ["clip"]))
            3 fresh eq_refl eq_refl _).
  right. split; [reflexivity |]. exists 2%nat.
  split; [reflexivity |]. split; [unfold max_polls; lia |]. split; [| by split].
  intros j Hj. exists (mkOperation false (Some ["clip"])).
  destruct j as [| [| j]]; [by split | by split | lia].
Defined.

Lemma video_url_names_downloaded_file_witness :
  "http://localhost:5000/static/uploads/veo_v.mp4"
  = flask_static true ("uploads/" ++ video_filename video_done_at_3)
  /\ download_ok video_done_at_3 = true
  /\ exists before,
      trace (generate_video flask_static video_done_at_3 "static/uploads/img_0.png"
                            "Slow pan" fresh).2
      = (before ++ [FilesDownload (video_filepath video_done_at_3)])%list.
Proof.
  apply (video_url_names_downloaded_file flask_static video_done_at_3
           "static/uploads/img_0.png" "Slow pan" fresh).
  vm_compute. reflexivity.
Defined.

(** ** Calls made by the media batch *)

#[local] Hint Resolve appends_preorder : respects.

Lemma appends_respects_emit (P : Event -> bool) (e : Event) :
  P e = true -> respects (appends P) (emit e).
Proof. intros H. apply respects_modify. intros w. by apply appends_emit. Qed.

Lemma appends_mono (P Q : Event -> bool) (w w' : World) :
  (forall e, P e = true -> Q e = true) -> appends P w w' -> appends Q w w'.
Proof.
  intros HPQ (delta & Htrace & Hdelta). exists delta. split; [done |].
  eapply Forall_impl; [exact Hdelta | exact HPQ].
Qed.

Lemma count_events_none (p : Event -> bool) (tr : list Event) :
  Forall (fun e => p e = false) tr -> count_events p tr = 0%nat.
Proof.
  induction 1 as [| e tr He _ IH]; simpl; [done |]. by rewrite He, IH.
Qed.

Lemma submit_all_eq (i : nat) (specs : list SlideSpec) (w : World) :
  submit_all i specs w =
  (Ok tt, extend_trace (imap (fun k s => ImageCall (visual_prompt s) (i + k)) specs) w).
Proof.
  revert i w. induction specs as [| s rest IH]; intros i w; simpl.
  - by rewrite extend_trace_nil.
  - run. rewrite IH, log_event_extend, extend_trace_extend. simpl.
    rewrite Nat.add_0_r. do 3 f_equal.
    apply imap_ext. intros k s' _. simpl. f_equal. lia.
Qed.

Section BatchCalls.

Context (url_for_static : bool -> string -> string).

(** The poll loop emits sleeps and polls only. *)
Lemma poll_until_done_appends (P : Event -> bool) env fuel operation poll_count :
  P (Sleep 5) = true -> P OperationsGet = true ->
  respects (appends P) (poll_until_done env fuel operation poll_count).
Proof.
  intros Hsleep Hget. revert operation poll_count.
  induction fuel as [| fuel IH]; intros operation poll_count; simpl;
    respects_auto; by apply appends_respects_emit.
Qed.


(** The poller submits at most one video request. *)
Lemma generate_video_one_submission env image_path prompt w :
  (count_events is_videos_generate
                (trace (generate_video url_for_static env image_path prompt w).2)
   <= count_events is_videos_generate (trace w) + 1)%nat.
Proof.
  unfold generate_video, generate_video_body. run.
  destruct (image_readable env); run; [| lia].
  assert (count_events is_videos_generate
            (trace (log_event (VideosGenerate image_path ("Cinematic 4k. " ++ prompt)) w))
          = (count_events is_videos_generate (trace w) + 1)%nat) as Hsubmit.
  { simpl. rewrite count_events_app. simpl. lia. }
  destruct (submitted env) as [first |]; run; [| by rewrite Hsubmit].
  destruct (poll_until_done_appends (fun e => negb (is_videos_generate e)) env max_polls
              first 0 eq_refl eq_refl
              (log_event (VideosGenerate image_path ("Cinematic 4k. " ++ prompt)) w))
    as (delta & Htrace & Hdelta).
  assert (count_events is_videos_generate delta = 0%nat) as Hzero.
  { apply count_events_none. eapply Forall_impl; [exact Hdelta |].
    intros e He. by apply negb_true_iff. }
  destruct (poll_until_done env max_polls first 0 _) as [[[last n] | e |] w1];
    cbn [snd] in Htrace; run;
    try (rewrite Htrace, count_events_app, Hzero, Hsubmit; lia).
  destruct (op_done last); run;
    [| rewrite Htrace, count_events_app, Hzero, Hsubmit; lia].
  destruct (has_generated_video last); run;
    [| rewrite Htrace, count_events_app, Hzero, Hsubmit; lia].
  destruct (download_ok env); run; simpl;
    rewrite Htrace, !count_events_app, Hzero, Hsubmit; simpl; lia.
Qed.

(** The loop body touches the world only through the poller. *)
Lemma on_completed_world plan enable_video env idx img_url local_path st w :
  let out := on_completed url_for_static plan enable_video env (idx, img_url, local_path) st w in
  (enable_video = false \/ idx <> 0%nat -> out.2 = w)
  /\ (out.2 = w
      \/ exists image_path prompt,
          out.2 = (generate_video url_for_static env image_path prompt w).2).
Proof.
  cbv zeta. unfold on_completed, setitem. run.
  destruct (plan_slides plan !! idx) as [s |]; run; [| by split; [| left]].
  destruct img_url as [filename |].
  - destruct (enable_video && (idx =? 0)%nat && Py.truthy (video_prompt s)
              && Py.truthy local_path) eqn:Hcond.
    + apply andb_prop in Hcond as [Hcond _]. apply andb_prop in Hcond as [Hcond _].
      apply andb_prop in Hcond as [-> Hidx]. apply Nat.eqb_eq in Hidx as ->.
      split; [by intros [? | ?] |]. right.
      exists (Py.format_opt local_path), (Py.format_opt (video_prompt s)).
      run. destruct (generate_video _ _ _ _ w) as [[video_url | e |] w1]; run; try done.
      destruct (Py.truthy video_url); run;
        (destruct (Py.truthy_str filename); run; [destruct video_url |]); run;
        try done; by destruct (decide _).
    + run. split; [intros _ | left];
        (destruct (Py.truthy_str filename); run; by destruct (decide _)).
  - run. change (Py.truthy_str "placeholder.png") with true. run.
    split; [intros _ | left];
      (destruct (media_url_var st); run; [by destruct (decide _) | done]).
Qed.

Lemma fan_in_world_unchanged plan enable_video env batch st w :
  (forall result, result ∈ batch -> enable_video = false \/ result.1.1 <> 0%nat) ->
  (fan_in url_for_static plan enable_video env batch st w).2 = w.
Proof.
  revert st w. induction batch as [| [[idx img_url] local_path] rest IH]; intros st w Hno;
    [done |].
  cbn [fan_in]. rewrite bind_eq.
  pose proof (proj1 (on_completed_world plan enable_video env idx img_url local_path st w))
    as Hstep.
  cbv zeta in Hstep. specialize (Hstep (Hno _ ltac:(by left))).
  destruct (on_completed _ _ _ _ _ st w) as [[st1 | e |] w1]; simpl in Hstep; subst w1;
    [| done ..].
  apply IH. intros result Hin. apply Hno. by right.
Qed.



(** X4.  Without [enable_video] the batch makes the image calls and no
    other call: no video is requested, polled or downloaded, whatever the
    plan says about video prompts. *)
Theorem batch_without_video_only_images remote plan w :
  (media_batch url_for_static remote plan false w).2 = extend_trace (image_calls plan) w.
Proof.
  unfold media_batch. rewrite bind_eq, submit_all_eq. rewrite bind_eq.
  match goal with
  | |- context [ fan_in _ ?p ?v ?e ?b ?st ?w0 ] =>
      pose proof (fan_in_world_unchanged p v e b st w0 (fun _ _ => or_introl eq_refl)) as Hsame;
      destruct (fan_in url_for_static p v e b st w0) as [[st' | e' |] w1]
  end; simpl in *; by subst w1.
Qed.

(** Futures taken in any order: with slide 0 absent from the order no
    video request goes out, and an order without repetition lets at most
    one go out. *)
Lemma fan_in_one_submission remote plan enable_video order st w :
  NoDup order ->
  let out := fan_in url_for_static plan enable_video (video_env remote)
                    (omap (fun k => futures remote plan !! k) order) st w in
  (0%nat ∉ order -> out.2 = w)
  /\ (count_events is_videos_generate (trace out.2)
      <= count_events is_videos_generate (trace w) + 1)%nat.
Proof.
  assert (forall l : list nat,
             0%nat ∉ l ->
             forall result : nat * option string * option string,
               result ∈ omap (fun k => futures remote plan !! k) l ->
               enable_video = false \/ result.1.1 <> 0%nat) as Hother.
  { intros l Hl result Hin. right.
    apply list_elem_of_omap in Hin as (k & Hk & Hfut).
    unfold futures in Hfut. rewrite list_lookup_imap in Hfut.
    destruct (plan_slides plan !! k) as [s |]; [| discriminate].
    simpl in Hfut. injection Hfut as <-.
    destruct (generate_image _ _ k) as [[i img_url] local_path] eqn:Hgen.
    apply generate_image_index in Hgen as ->. simpl. intros ->. by apply Hl. }
  revert st w. induction order as [| k rest IH]; intros st w Hnodup; cbv zeta.
  - simpl. split; [done | lia].
  - apply NoDup_cons in Hnodup as [Hk Hnodup]. split.
    + intros Hzero. apply fan_in_world_unchanged. by apply Hother.
    + simpl omap. destruct (futures remote plan !! k) as [[[idx img_url] local_path] |] eqn:Hfut;
        [| by apply IH].
      assert (idx = k) as ->.
      { unfold futures in Hfut. rewrite list_lookup_imap in Hfut.
        destruct (plan_slides plan !! k) as [s |]; [| discriminate].
        simpl in Hfut. injection Hfut as Hgen. by apply generate_image_index in Hgen. }
      cbn [fan_in]. rewrite bind_eq.
      pose proof (on_completed_world plan enable_video (video_env remote) k img_url local_path
                    st w) as [Hquiet Hstep].
      cbv zeta in Hquiet, Hstep.
      destruct (decide (k = 0%nat)) as [-> | Hne].
      * assert (count_events is_videos_generate
                  (trace (on_completed url_for_static plan enable_video (video_env remote)
                                       (0%nat, img_url, local_path) st w).2)
                <= count_events is_videos_generate (trace w) + 1)%nat as Hcount.
        { destruct Hstep as [-> | (image_path & prompt & ->)]; [lia |].
          apply generate_video_one_submission. }
        destruct (on_completed _ _ _ _ _ st w) as [[st1 | e |] w1]; simpl in *; try done.
        rewrite (fan_in_world_unchanged plan enable_video (video_env remote) _ st1 w1);
          [done |]. by apply Hother.
      * specialize (Hquiet (or_intror Hne)).
        destruct (on_completed _ _ _ _ _ st w) as [[st1 | e |] w1]; simpl in *; subst w1;
          try lia.
        by apply IH.
Qed.

(** X5.  When [as_completed] yields no future twice, a batch submits at
    most one video request, however many slides the plan has and whatever
    their video prompts are. *)
Theorem batch_submits_at_most_one_video remote plan enable_video w :
  NoDup (completion_order remote) ->
  (count_events is_videos_generate
                (trace (media_batch url_for_static remote plan enable_video w).2)
   <= count_events is_videos_generate (trace w) + 1)%nat.
Proof.
  intros Hnodup. unfold media_batch. rewrite bind_eq, submit_all_eq. rewrite bind_eq.
  unfold as_completed.
  match goal with
  | |- context [ fan_in _ ?p ?v ?e _ ?st ?w0 ] =>
      pose proof (proj2 (fan_in_one_submission remote p v (completion_order remote) st w0
                           Hnodup)) as Hcount;
      cbv zeta in Hcount;
      assert (count_events is_videos_generate (trace w0)
              = count_events is_videos_generate (trace w)) as Himages
  end.
  { simpl. rewrite count_events_app, (count_events_none _ (imap _ _)); [lia |].
    apply Forall_forall. intros e He. apply list_elem_of_lookup in He as [i He].
    rewrite list_lookup_imap in He. by destruct (plan_slides plan !! i); simplify_eq/=. }
  rewrite Himages in Hcount.
  destruct (fan_in _ _ _ _ _ _ _) as [[st' | e' |] w1]; simpl in *; done.
Qed.

End BatchCalls.

Lemma batch_submits_at_most_one_video_witness :
  (count_events is_videos_generate
                (trace (media_batch flask_static remote_video_ready two_slides true fresh).2)
   <= count_events is_videos_generate (trace fresh) + 1)%nat.
Proof.
  apply (batch_submits_at_most_one_video flask_static remote_video_ready two_slides true fresh).
  apply (bool_decide_unpack _). reflexivity.
Defined.

(** ** Outcome of the media batch *)

Section BatchOutcome.

Context (url_for_static : bool -> string -> string).


(** X7.  A slide list the batch returns has one slot per planned slide;
    a filled slot carries the title and the content of the planned slide of
    the same index; and when every image future has completed, every slot
    is filled. *)
Theorem returned_slides_follow_plan remote plan enable_video w slides w' :
  media_batch url_for_static remote plan enable_video w = (Ok slides, w') ->
  length slides = length (plan_slides plan)
  /\ (forall i r, slides !! i = Some (Some r) ->
                  exists s, plan_slides plan !! i = Some s
                            /\ slide_title r = title s /\ slide_content r = content s)
  /\ (completion_order remote ≡ₚ seq 0 (length (plan_slides plan)) ->
      forall i, (i < length (plan_slides plan))%nat -> exists r, slides !! i = Some (Some r)).
Proof.
  intros Hrun.
  destruct (media_batch_aligned url_for_static remote plan enable_video w slides w' Hrun)
    as [[Hlength Hslots] Hfilled].
  by repeat split.
Qed.

(** The slot of a future is settled by the iteration that handles it. *)
Lemma fan_in_slot plan enable_video env i future expected batch st w st' w' :
  future.1.1 = i ->
  (forall st0 w0 st1 w1,
      on_completed url_for_static plan enable_video env future st0 w0 = (Ok st1, w1) ->
      slides st1 !! i = Some (Some expected)) ->
  (forall result, result ∈ batch -> result.1.1 = i -> result = future) ->
  fan_in url_for_static plan enable_video env batch st w = (Ok st', w') ->
  slides st !! i = Some (Some expected) \/ future ∈ batch ->
  slides st' !! i = Some (Some expected).
Proof.
  intros Hindex Hstep. revert st w.
  induction batch as [| result rest IH]; intros st w Hsame Hrun Hslot.
  - simpl in Hrun. injection Hrun as <- <-.
    destruct Hslot as [Hslot | Hin]; [done | by apply elem_of_nil in Hin].
  - simpl in Hrun. apply bind_Ok_inv in Hrun as (st1 & w1 & Hone & Hrun).
    eapply IH; [| exact Hrun |].
    { intros x Hx. apply Hsame. by right. }
    destruct (decide (result.1.1 = i)) as [Hi | Hne].
    + left. rewrite (Hsame result ltac:(by left) Hi) in Hone. by eapply Hstep.
    + destruct result as [[idx img_url] local_path]. simpl in Hne.
      apply on_completed_inv in Hone as (s' & r & _ & _ & Hslides & _).
      destruct Hslot as [Hslot | Hin].
      * left. by rewrite Hslides, list_lookup_insert_ne.
      * right. apply elem_of_cons in Hin as [-> | Hin]; [| done].
        by destruct Hne.
Qed.

(** A future of the batch is the result of the image task of its index. *)
Lemma as_completed_index remote plan i s result :
  plan_slides plan !! i = Some s ->
  result ∈ as_completed remote plan -> result.1.1 = i ->
  result = generate_image (image_reply remote i) (visual_prompt s) i.
Proof.
  intros Hs Hin Hi. apply as_completed_elem in Hin as (s' & Hs' & ->).
  rewrite Hi in *. rewrite Hs in Hs'. by injection Hs' as <-.
Qed.

Lemma as_completed_has remote plan i s :
  plan_slides plan !! i = Some s -> i ∈ completion_order remote ->
  generate_image (image_reply remote i) (visual_prompt s) i ∈ as_completed remote plan.
Proof.
  intros Hs Hin. unfold as_completed. apply list_elem_of_omap. exists i. split; [done |].
  unfold futures. by rewrite list_lookup_imap, Hs.
Qed.

(** The loop body when the video step is not taken. *)
Lemma on_completed_image_only plan enable_video env idx filename local_path st w s st' w' :
  plan_slides plan !! idx = Some s ->
  Py.truthy_str filename = true ->
  enable_video = false \/ idx <> 0%nat \/ Py.truthy (video_prompt s) = false ->
  on_completed url_for_static plan enable_video env (idx, Some filename, local_path) st w
  = (Ok st', w') ->
  slides st' !! idx = Some (Some (image_slide url_for_static s filename)).
Proof.
  intros Hs Hname Hno Hrun.
  pose proof Hrun as Hinv.
  apply on_completed_inv in Hinv as (_ & _ & _ & Hlen & _).
  unfold on_completed, setitem in Hrun. run_in Hrun. rewrite Hs in Hrun.
  assert (enable_video && (idx =? 0)%nat && Py.truthy (video_prompt s)
          && Py.truthy local_path = false) as Hcond.
  { destruct Hno as [-> | [Hidx | ->]]; [done | |].
    - apply Nat.eqb_neq in Hidx. rewrite Hidx. by rewrite andb_false_r.
    - by rewrite andb_false_r. }
  rewrite Hcond in Hrun. run_in Hrun. rewrite Hname in Hrun. run_in Hrun.
  rewrite decide_True in Hrun by done. injection Hrun as <- <-. simpl.
  by rewrite list_lookup_insert_eq.
Qed.

(** The loop body for slide 0 when the poller returns a URL. *)
Lemma on_completed_video plan env filename path st w s video_url st' w' :
  plan_slides plan !! 0%nat = Some s ->
  Py.truthy (video_prompt s) = true ->
  Py.truthy_str path = true ->
  Py.truthy_str filename = true ->
  Py.truthy_str video_url = true ->
  (generate_video url_for_static env path (Py.format_opt (video_prompt s)) w).1
  = Ok (Some video_url) ->
  on_completed url_for_static plan true env (0%nat, Some filename, Some path) st w
  = (Ok st', w') ->
  slides st' !! 0%nat = Some (Some (video_slide s video_url)).
Proof.
  intros Hs Hprompt Hpath Hname Hurl Hvideo Hrun.
  pose proof Hrun as Hinv.
  apply on_completed_inv in Hinv as (_ & _ & _ & Hlen & _).
  unfold on_completed, setitem in Hrun. run_in Hrun. rewrite Hs in Hrun.
  cbn [Py.truthy Py.format_opt] in Hrun. rewrite Hprompt, Hpath in Hrun.
  cbn [Nat.eqb andb] in Hrun. run_in Hrun.
  destruct (generate_video _ _ _ _ w) as [[v | e |] w1]; simpl in Hvideo; try discriminate.
  injection Hvideo as ->. cbn [Py.truthy] in Hrun. rewrite Hurl in Hrun. run_in Hrun.
  rewrite Hname in Hrun. run_in Hrun.
  rewrite decide_True in Hrun by done. injection Hrun as <- <-. simpl.
  by rewrite list_lookup_insert_eq.
Qed.

(** X8.  In a slide list the batch returns, a slide whose image task
    succeeded and for which the video step does not apply (video not
    requested, or an index other than 0, or no video prompt) carries the
    public URL of its own image file and the type [image], in whatever
    order the futures completed. *)
Theorem successful_slide_gets_its_image remote plan enable_video w slides w' i s
        filename path :
  media_batch url_for_static remote plan enable_video w = (Ok slides, w') ->
  plan_slides plan !! i = Some s ->
  generate_image (image_reply remote i) (visual_prompt s) i = (i, Some filename, Some path) ->
  enable_video = false \/ i <> 0%nat \/ Py.truthy (video_prompt s) = false ->
  i ∈ completion_order remote ->
  slides !! i = Some (Some (image_slide url_for_static s filename)).
Proof.
  intros Hrun Hs Himage Hno Hin. unfold media_batch in Hrun.
  apply bind_Ok_inv in Hrun as ([] & w1 & _ & Hrun).
  apply bind_Ok_inv in Hrun as (st & w2 & Hfan & Hrun).
  injection Hrun as <- <-.
  pose proof (generate_image_filename _ _ _ _ _ Himage) as Hname.
  eapply (fan_in_slot plan enable_video (video_env remote) i (i, Some filename, Some path));
    [done | | | exact Hfan |].
  - intros st0 w0 st1 w3. by apply on_completed_image_only.
  - intros result Hresult Hi. rewrite <- Himage. by eapply as_completed_index.
  - right. rewrite <- Himage. by apply as_completed_has.
Qed.

(** X9.  When video is requested, slide 0 has a video prompt, its image
    task succeeded and the poller returns a (non-empty) URL, then in the
    slide list the batch returns slide 0 carries that video URL and the
    type [video]. *)
Theorem video_replaces_first_slide remote plan w slides w' s filename path video_url :
  media_batch url_for_static remote plan true w = (Ok slides, w') ->
  plan_slides plan !! 0%nat = Some s ->
  Py.truthy (video_prompt s) = true ->
  generate_image (image_reply remote 0) (visual_prompt s) 0 = (0%nat, Some filename, Some path) ->
  (forall w0, (generate_video url_for_static (video_env remote) path
                              (Py.format_opt (video_prompt s)) w0).1 = Ok (Some video_url)) ->
  Py.truthy_str video_url = true ->
  0%nat ∈ completion_order remote ->
  slides !! 0%nat = Some (Some (video_slide s video_url)).
Proof.
  intros Hrun Hs Hprompt Himage Hvideo Hurl Hin. unfold media_batch in Hrun.
  apply bind_Ok_inv in Hrun as ([] & w1 & _ & Hrun).
  apply bind_Ok_inv in Hrun as (st & w2 & Hfan & Hrun).
  injection Hrun as <- <-.
  pose proof (generate_image_filename _ _ _ _ _ Himage) as Hname.
  assert (Py.truthy_str path = true) as Hpath.
  { revert Himage. unfold generate_image.
    destruct (image_reply remote 0) as [| parts uuid saved]; [congruence |].
    destruct (filter _ parts); [congruence |]. destruct saved; [| congruence].
    intros [= _ <-]. reflexivity. }
  eapply (fan_in_slot plan true (video_env remote) 0 (0%nat, Some filename, Some path));
    [done | | | exact Hfan |].
  - intros st0 w0 st1 w3. by apply on_completed_video.
  - intros result Hresult Hi. rewrite <- Himage. by eapply as_completed_index.
  - right. rewrite <- Himage. by apply as_completed_has.
Qed.

End BatchOutcome.

Lemma returned_slides_follow_plan_witness :
  let slides := [Some (video_slide first_slide "http://localhost:5000/static/uploads/veo_v.mp4");
                 Some (image_slide flask_static second_slide "img_1.png")] in
  (media_batch flask_static remote_video_ready two_slides true fresh).1 = Ok slides
  /\ length slides = length (plan_slides two_slides)
  /\ (forall i r, slides !! i = Some (Some r) ->
                  exists s, plan_slides two_slides !! i = Some s
                            /\ slide_title r = title s /\ slide_content r = content s)
  /\ (completion_order remote_video_ready ≡ₚ seq 0 (length (plan_slides two_slides)) ->
      forall i, (i < length (plan_slides two_slides))%nat ->
                exists r, slides !! i = Some (Some r)).
Proof.
  intros slides.
  pose (out := media_batch flask_static remote_video_ready two_slides true fresh).
  assert (out = (Ok slides, out.2)) as Hrun by (vm_compute; reflexivity).
  split; [exact (f_equal fst Hrun) |].
  exact (returned_slides_follow_plan flask_static remote_video_ready two_slides true fresh
           slides out.2 Hrun).
Defined.

Lemma successful_slide_gets_its_image_witness :
  let slides := [Some (video_slide first_slide "http://localhost:5000/static/uploads/veo_v.mp4");
                 Some (image_slide flask_static second_slide "img_1.png")] in
  (media_batch flask_static remote_video_ready two_slides true fresh).1 = Ok slides
  /\ slides !! 1%nat = Some (Some (image_slide flask_static second_slide "img_1.png")).
Proof.
  intros slides.
  pose (out := media_batch flask_static remote_video_ready two_slides true fresh).
  assert (out = (Ok slides, out.2)) as Hrun by (vm_compute; reflexivity).
  split; [exact (f_equal fst Hrun) |].
  refine (successful_slide_gets_its_image flask_static remote_video_ready two_slides true fresh
            slides out.2 1%nat second_slide "img_1.png" "static/uploads/img_1.png"
            Hrun eq_refl eq_refl _ _).
  - right; left. discriminate.
  - constructor.
Defined.

Lemma video_replaces_first_slide_witness :
  let slides := [Some (video_slide first_slide "http://localhost:5000/static/uploads/veo_v.mp4");
                 Some (image_slide flask_static second_slide "img_1.png")] in
  (media_batch flask_static remote_video_ready two_slides true fresh).1 = Ok slides
  /\ slides !! 0%nat
     = Some (Some (video_slide first_slide "http://localhost:5000/static/uploads/veo_v.mp4")).
Proof.
  intros slides.
  pose (out := media_batch flask_static remote_video_ready two_slides true fresh).
  assert (out = (Ok slides, out.2)) as Hrun by (vm_compute; reflexivity).
  split; [exact (f_equal fst Hrun) |].
  refine (video_replaces_first_slide flask_static remote_video_ready two_slides fresh
            slides out.2 first_slide "img_0.png" "static/uploads/img_0.png"
            "http://localhost:5000/static/uploads/veo_v.mp4"
            Hrun eq_refl eq_refl eq_refl _ eq_refl _).
  - intros w0. vm_compute. reflexivity.
  - right. constructor.
Defined.

(** ** The planner *)

Lemma wait_processing_polls remote k fuel gets w last :
  (k < fuel)%nat ->
  (forall j, (j < k)%nat -> file_get_reply remote (gets + j) = Some PROCESSING) ->
  file_get_reply remote (gets + k) = Some last ->
  last <> PROCESSING ->
  wait_processing remote fuel PROCESSING gets w
  = (Ok last, extend_trace (concat (replicate (S k) file_round)) w).
Proof.
  revert fuel gets w.
  induction k as [| k IH]; intros fuel gets w Hfuel Hbefore Hlast Hsettled;
    (destruct fuel as [| fuel]; [lia |]); simpl wait_processing; run.
  - rewrite Nat.add_0_r in Hlast. rewrite Hlast. run.
    destruct last, fuel; try done; simpl; run;
      by rewrite !log_event_extend, !extend_trace_extend.
  - pose proof (Hbefore 0%nat ltac:(lia)) as Hfirst. rewrite Nat.add_0_r in Hfirst.
    rewrite Hfirst. run. rewrite (IH fuel (S gets)); try done; try lia.
    + by rewrite !log_event_extend, !extend_trace_extend.
    + intros j Hj. replace (S gets + j)%nat with (gets + S j)%nat by lia.
      apply Hbefore. lia.
    + by replace (S gets + k)%nat with (gets + S k)%nat by lia.
Qed.

Lemma wait_processing_poll_raises remote k fuel gets w :
  (k < fuel)%nat ->
  (forall j, (j < k)%nat -> file_get_reply remote (gets + j) = Some PROCESSING) ->
  file_get_reply remote (gets + k) = None ->
  wait_processing remote fuel PROCESSING gets w
  = (Raise Py.RemoteError, extend_trace (concat (replicate (S k) file_round)) w).
Proof.
  revert fuel gets w.
  induction k as [| k IH]; intros fuel gets w Hfuel Hbefore Hlast;
    (destruct fuel as [| fuel]; [lia |]); simpl wait_processing; run.
  - rewrite Nat.add_0_r in Hlast. rewrite Hlast. run.
    by rewrite !log_event_extend, !extend_trace_extend.
  - pose proof (Hbefore 0%nat ltac:(lia)) as Hfirst. rewrite Nat.add_0_r in Hfirst.
    rewrite Hfirst. run. rewrite (IH fuel (S gets)); try done; try lia.
    + by rewrite !log_event_extend, !extend_trace_extend.
    + intros j Hj. replace (S gets + j)%nat with (gets + S j)%nat by lia.
      apply Hbefore. lia.
    + by replace (S gets + k)%nat with (gets + S k)%nat by lia.
Qed.

Lemma upload_pdf_attaches remote fuel pdf_path contents user_prompt w name gets last :
  document_ready remote name gets last -> (gets <= fuel)%nat ->
  upload_pdf remote fuel pdf_path contents user_prompt w
  = (Ok ((contents ++ [FileRef name])%list, user_prompt ++ pdf_note),
     extend_trace (upload_events pdf_path gets) w).
Proof.
  intros [Hsettled Hready] Hfuel. unfold upload_pdf, upload_events.
  destruct gets as [| k].
  - run. rewrite Hready. run.
    destruct last, fuel; try done; simpl; run; by rewrite log_event_extend.
  - destruct Hready as (Hupload & Hbefore & Hlast). run. rewrite Hupload. run.
    rewrite (wait_processing_polls remote k fuel 0 _ last); try done; try lia.
    run. by rewrite !log_event_extend, !extend_trace_extend.
Qed.

Lemma upload_pdf_fails remote fuel pdf_path contents user_prompt w gets :
  document_fails remote gets -> (gets <= fuel)%nat ->
  upload_pdf remote fuel pdf_path contents user_prompt w
  = (Ok (contents, user_prompt), extend_trace (upload_events pdf_path gets) w).
Proof.
  intros Hfails Hfuel. unfold upload_pdf, upload_events.
  destruct gets as [| k].
  - run. simpl in Hfails. rewrite Hfails. run. by rewrite log_event_extend.
  - destruct Hfails as ((name & Hupload) & Hbefore & Hlast). run. rewrite Hupload. run.
    rewrite (wait_processing_poll_raises remote k fuel 0); try done; try lia.
    run. by rewrite !log_event_extend, !extend_trace_extend.
Qed.

Lemma get_cached_architect_eq (reply : CacheReply) (w : World) :
  exists w', get_cached_architect reply w = (Ok (cache_handle reply w), w')
             /\ trace w' = (trace w ++ cache_events w)%list.
Proof.
  unfold cache_handle, cache_events.
  destruct (Py.truthy (cached_architect_name w)) eqn:H.
  - rewrite get_cached_architect_hit by done. exists w. by rewrite app_nil_r.
  - rewrite get_cached_architect_miss by done. destruct reply; by eexists.
Qed.

(** The planner after the [if pdf_path:] block. *)
Lemma plan_presentation_after_upload remote fuel topic slide_count pdf_path url_link w :
  let upload :=
    (if Py.truthy pdf_path
     then upload_pdf remote fuel (Py.format_opt pdf_path) []
                     (prompt_with_url topic slide_count url_link)
     else ret ([], prompt_with_url topic slide_count url_link)) w in
  match upload with
  | (Ok (contents, user_prompt), w1) =>
      exists w2,
        plan_presentation remote fuel topic slide_count pdf_path url_link w
        = (Ok (planned (plan_reply remote)), w2)
        /\ trace w2
           = (trace w1 ++ cache_events w1
                ++ [PlanCall (contents ++ [Text user_prompt])
                             (cache_handle (cache_reply remote) w1)])%list
  | (Raise e, w1) => False
  | (Hang, w1) =>
      plan_presentation remote fuel topic slide_count pdf_path url_link w = (Hang, w1)
      /\ appends is_upload w w1
  end.
Proof.
  cbv zeta.
  assert (forall e,
             ((if Py.truthy pdf_path
               then upload_pdf remote fuel (Py.format_opt pdf_path) []
                               (prompt_with_url topic slide_count url_link)
               else ret ([], prompt_with_url topic slide_count url_link)) w).1 <> Raise e)
    as Hraise.
  { intros e. destruct (Py.truthy pdf_path); [apply upload_pdf_never_raises | done]. }
  assert (appends is_upload w
            ((if Py.truthy pdf_path
              then upload_pdf remote fuel (Py.format_opt pdf_path) []
                              (prompt_with_url topic slide_count url_link)
              else ret ([], prompt_with_url topic slide_count url_link)) w).2) as Hupload.
  { destruct (Py.truthy pdf_path); [apply upload_pdf_appends | by apply appends_same_trace]. }
  unfold plan_presentation. cbv zeta. rewrite bind_eq.
  change (if Py.truthy url_link
          then _ ++ newline ++ newline ++ "Context URL: " ++ Py.format_opt url_link
                 ++ " (Browse this site for content)."
          else _)
    with (prompt_with_url topic slide_count url_link).
  destruct ((if Py.truthy pdf_path
             then upload_pdf remote fuel (Py.format_opt pdf_path) []
                             (prompt_with_url topic slide_count url_link)
             else ret ([], prompt_with_url topic slide_count url_link)) w)
    as [[[contents user_prompt] | e |] w1].
  - destruct (get_cached_architect_eq (cache_reply remote) w1) as (w' & Hcache & Htrace).
    rewrite bind_eq, Hcache. run.
    destruct (plan_reply remote); simpl; eexists; (split; [reflexivity |]); simpl;
      by rewrite Htrace, <- app_assoc.
  - by destruct (Hraise e).
  - done.
Qed.

Section Planner.

Context (remote : Remote) (fuel : nat) (topic : option string) (slide_count : Z)
        (pdf_path url_link : option string) (w : World).

(** X10.  The planner never raises: a failure of the upload, of the wait
    for the document, of the cache creation or of the planning call is
    caught.  Whenever it returns, its value is the one the reply of the
    planning call determines ([None] when the call raised or its text did
    not parse); and it does return when no document is attached or the wait
    for the document ends. *)
Theorem planner_never_raises :
  let out := plan_presentation remote fuel topic slide_count pdf_path url_link w in
  (forall e, out.1 <> Raise e)
  /\ (forall value, out.1 = Ok value -> value = planned (plan_reply remote))
  /\ (upload_returns remote fuel pdf_path -> out.1 = Ok (planned (plan_reply remote))).
Proof.
  cbv zeta.
  pose proof (plan_presentation_after_upload remote fuel topic slide_count pdf_path url_link w)
    as Hstage.
  cbv zeta in Hstage.
  assert (upload_returns remote fuel pdf_path ->
          ((if Py.truthy pdf_path
            then upload_pdf remote fuel (Py.format_opt pdf_path) []
                            (prompt_with_url topic slide_count url_link)
            else ret ([], prompt_with_url topic slide_count url_link)) w).1 <> Hang) as Hhang.
  { intros Hreturns. destruct (Py.truthy pdf_path) eqn:Hpdf; [| done].
    destruct Hreturns as [? | (n & Hn & Hsettles)]; [congruence |].
    by eapply upload_pdf_settles. }
  destruct ((if Py.truthy pdf_path
             then upload_pdf remote fuel (Py.format_opt pdf_path) []
                             (prompt_with_url topic slide_count url_link)
             else ret ([], prompt_with_url topic slide_count url_link)) w)
    as [[[contents user_prompt] | e |] w1].
  - destruct Hstage as (w2 & -> & _). simpl. repeat split; [done | congruence].
  - done.
  - destruct Hstage as [-> _]. simpl. repeat split; [done | done |].
    intros Hreturns. by destruct (Hhang Hreturns).
Qed.

(** X11.  A planner that returns has made exactly one planning call, as
    its last remote call.  The call carries the cache handle: the one the
    process already holds, without a creation call, or else the one a
    single creation call returns, or none when that call fails.  A planner
    that does not return has made no planning call and no creation call. *)
Theorem planner_calls_once_with_the_handle :
  let out := plan_presentation remote fuel topic slide_count pdf_path url_link w in
  (forall value, out.1 = Ok value ->
     exists uploads contents,
       trace out.2
       = (trace w ++ uploads ++ cache_events w
            ++ [PlanCall contents (cache_handle (cache_reply remote) w)])%list
       /\ Forall (fun e => is_upload e = true) uploads)
  /\ (out.1 = Hang -> appends is_upload w out.2).
Proof.
  cbv zeta.
  pose proof (plan_presentation_after_upload remote fuel topic slide_count pdf_path url_link w)
    as Hstage.
  cbv zeta in Hstage.
  assert (cached_architect_name
            ((if Py.truthy pdf_path
              then upload_pdf remote fuel (Py.format_opt pdf_path) []
                              (prompt_with_url topic slide_count url_link)
              else ret ([], prompt_with_url topic slide_count url_link)) w).2
          = cached_architect_name w) as Hcached.
  { destruct (Py.truthy pdf_path); [| done].
    apply (respects_upload_pdf (keeps cached_architect_name) (fun _ => true)); [| done].
    by intros e w0 _. }
  assert (appends is_upload w
            ((if Py.truthy pdf_path
              then upload_pdf remote fuel (Py.format_opt pdf_path) []
                              (prompt_with_url topic slide_count url_link)
              else ret ([], prompt_with_url topic slide_count url_link)) w).2) as Hupload.
  { destruct (Py.truthy pdf_path); [apply upload_pdf_appends | by apply appends_same_trace]. }
  destruct ((if Py.truthy pdf_path
             then upload_pdf remote fuel (Py.format_opt pdf_path) []
                             (prompt_with_url topic slide_count url_link)
             else ret ([], prompt_with_url topic slide_count url_link)) w)
    as [[[contents user_prompt] | e |] w1];
    simpl in Hcached, Hupload.
  - destruct Hstage as (w2 & -> & Htrace). simpl. split; [| done].
    intros value _. destruct Hupload as (uploads & Hw1 & Huploads).
    exists uploads, (contents ++ [Text user_prompt])%list. split; [| done].
    rewrite Htrace, Hw1. unfold cache_events, cache_handle. rewrite Hcached.
    by rewrite <- app_assoc.
  - done.
  - destruct Hstage as [-> Happends]. simpl. split; [done | by intros _].
Qed.

(** X12.  A document that cannot be used is not fatal.  When the upload
    raises, or a poll of the processing state raises, the planner goes on:
    the planning call carries the text prompt alone, without the file and
    without the note about the PDF, and the planner returns what that call
    gives. *)
Theorem unusable_document_is_skipped (gets : nat) :
  Py.truthy pdf_path = true ->
  document_fails remote gets -> (gets <= fuel)%nat ->
  let out := plan_presentation remote fuel topic slide_count pdf_path url_link w in
  out.1 = Ok (planned (plan_reply remote))
  /\ trace out.2
     = (trace w ++ upload_events (Py.format_opt pdf_path) gets ++ cache_events w
          ++ [PlanCall [Text (prompt_with_url topic slide_count url_link)]
                       (cache_handle (cache_reply remote) w)])%list.
Proof.
  intros Hpdf Hfails Hfuel. cbv zeta.
  pose proof (plan_presentation_after_upload remote fuel topic slide_count pdf_path url_link w)
    as Hstage.
  cbv zeta in Hstage. rewrite Hpdf in Hstage.
  rewrite (upload_pdf_fails remote fuel _ _ _ w gets Hfails Hfuel) in Hstage.
  destruct Hstage as (w2 & -> & Htrace). split; [done |].
  simpl. rewrite Htrace. simpl. by rewrite <- app_assoc.
Qed.

(** X13.  A document is attached as soon as it is no longer [PROCESSING],
    whatever state it is in then, [FAILED] included: the planning call
    carries the file reference followed by the text prompt, which ends with
    the note about the PDF. *)
Theorem document_attached_in_any_final_state (name : string) (gets : nat) (last : FileState) :
  Py.truthy pdf_path = true ->
  document_ready remote name gets last -> (gets <= fuel)%nat ->
  let out := plan_presentation remote fuel topic slide_count pdf_path url_link w in
  out.1 = Ok (planned (plan_reply remote))
  /\ trace out.2
     = (trace w ++ upload_events (Py.format_opt pdf_path) gets ++ cache_events w
          ++ [PlanCall [FileRef name;
                        Text (prompt_with_url topic slide_count url_link ++ pdf_note)]
                       (cache_handle (cache_reply remote) w)])%list.
Proof.
  intros Hpdf Hready Hfuel. cbv zeta.
  pose proof (plan_presentation_after_upload remote fuel topic slide_count pdf_path url_link w)
    as Hstage.
  cbv zeta in Hstage. rewrite Hpdf in Hstage.
  rewrite (upload_pdf_attaches remote fuel _ _ _ w name gets last Hready Hfuel) in Hstage.
  destruct Hstage as (w2 & -> & Htrace). split; [done |].
  simpl. rewrite Htrace. simpl. by rewrite <- app_assoc.
Qed.

End Planner.

Lemma planner_never_raises_witness :
  (plan_presentation remote_document_plan_fails 5 (Some "Quantum Computing") 2
                     (Some "static/uploads/doc_d.pdf") None fresh).1
  = Ok PlanNone.
Proof.
  refine (proj2 (proj2 (planner_never_raises remote_document_plan_fails 5
                          (Some "Quantum Computing") 2 (Some "static/uploads/doc_d.pdf")
                          None fresh)) _).
  right. exists 3%nat. split; [lia |]. exists 2%nat. split; [lia | discriminate].
Defined.

Lemma planner_calls_once_with_the_handle_witness :
  exists uploads contents,
    trace (plan_presentation remote_upload_raises 0 (Some "Quantum Computing") 2
                             None None warm).2
    = (trace warm ++ uploads ++ []
         ++ [PlanCall contents (Some "cachedContents/a0")])%list
    /\ Forall (fun e => is_upload e = true) uploads.
Proof.
  exact (proj1 (planner_calls_once_with_the_handle remote_upload_raises 0
                  (Some "Quantum Computing") 2 None None warm)
               (PlanDict two_slides) eq_refl).
Defined.

Lemma unusable_document_is_skipped_witness :
  let out := plan_presentation remote_document_poll_raises 2 (Some "Quantum Computing") 2
                               (Some "static/uploads/doc_d.pdf") None fresh in
  out.1 = Ok (PlanDict two_slides)
  /\ trace out.2
     = [FilesUpload "static/uploads/doc_d.pdf"; Sleep 1; FilesGet; Sleep 1; FilesGet;
        CachesCreate;
        PlanCall [Text "Topic: Quantum Computing. Length: 2 slides."]
                 (Some "cachedContents/a1")].
Proof.
  refine (unusable_document_is_skipped remote_document_poll_raises 2
            (Some "Quantum Computing") 2 (Some "static/uploads/doc_d.pdf") None fresh
            2 eq_refl _ _); [| lia].
  split; [by exists "files/deck" |]. split; [| reflexivity].
  intros j Hj. destruct j; [reflexivity | lia].
Defined.

Lemma document_attached_in_any_final_state_witness :
  let out := plan_presentation remote_document_failed 2 (Some "Quantum Computing") 2
                               (Some "static/uploads/doc_d.pdf") None fresh in
  out.1 = Ok (PlanDict two_slides)
  /\ trace out.2
     = [FilesUpload "static/uploads/doc_d.pdf"; Sleep 1; FilesGet; Sleep 1; FilesGet;
        CachesCreate;
        PlanCall [FileRef "files/deck";
                  Text ("Topic: Quantum Computing. Length: 2 slides." ++ pdf_note)]
                 (Some "cachedContents/a1")].
Proof.
  refine (document_attached_in_any_final_state remote_document_failed 2
            (Some "Quantum Computing") 2 (Some "static/uploads/doc_d.pdf") None fresh
            "files/deck" 2 FAILED eq_refl _ _); [| lia].
  split; [discriminate |]. split; [reflexivity |]. split; [| reflexivity].
  intros j Hj. destruct j; [reflexivity | lia].
Defined.

(** ** The request for video *)

Section VideoFlag.

Context (url_for_static : bool -> string -> string)
        (url_for_viewer : string -> string).

Lemma media_batch_no_video_world remote plan w :
  (media_batch url_for_static remote plan false w).2 = extend_trace (image_calls plan) w.
Proof.
  unfold media_batch. rewrite bind_eq, submit_all_eq. rewrite bind_eq.
  match goal with
  | |- context [ fan_in _ ?p ?v ?e ?b ?st ?w0 ] =>
      pose proof (fan_in_world_unchanged url_for_static p v e b st w0
                    (fun _ _ => or_introl eq_refl)) as Hsame;
      destruct (fan_in url_for_static p v e b st w0) as [[st' | e' |] w1]
  end; simpl in *; by subst w1.
Qed.

Lemma use_partial_plan_no_video remote p :
  respects (appends (fun e => negb (is_video_call e)))
           (use_partial_plan url_for_static url_for_viewer remote p false).
Proof.
  assert (forall items env batch st,
             respects (appends (fun e => negb (is_video_call e)))
                      (fan_in_partial url_for_static items false env batch st)) as Hfan.
  { intros items env batch. induction batch as [| [[idx img_url] local_path] rest IH];
      intros st; simpl; unfold lookup_key; respects_auto. }
  assert (forall i items,
             respects (appends (fun e => negb (is_video_call e))) (submit_partial i items))
    as Hsubmit.
  { intros i items. revert i. induction items as [| s rest IH]; intros i; simpl;
      unfold lookup_key; respects_auto.
    by apply appends_respects_emit. }
  unfold use_partial_plan, lookup_key. destruct p as [| plan_title_key items]; respects_auto.
  - by apply appends_respects_emit.
  - apply respects_modify. intros w. by apply appends_same_trace.
Qed.

Lemma build_presentation_no_video remote fuel topic slide_count pdf_path url_link :
  respects (appends (fun e => negb (is_video_call e)))
           (build_presentation url_for_static url_for_viewer remote fuel topic slide_count
                               pdf_path url_link false).
Proof.
  unfold build_presentation. apply respects_bind.
  - intros w. eapply appends_mono; [| apply plan_presentation_appends].
    intros e. by destruct e.
  - intros [| | plan | partial missing];
      [apply respects_ret | apply respects_ret | | apply use_partial_plan_no_video].
    apply respects_bind.
    + intros w. rewrite media_batch_no_video_world. exists (image_calls plan).
      split; [done |]. apply Forall_forall. intros e He.
      apply elem_of_lookup_imap_1 in He as (i & s & -> & _). done.
    + intros slides w. rewrite save_presentation_eq.
      destruct (commit_ok remote); exists [DbCommit]; (split; [done | by repeat constructor]).
Qed.

(** X14.  Video is requested only by the exact field value [true].  For
    any other value of [enable_video] ([True], [on], [1], ...) or without
    the field, the request submits no video, polls no operation and
    downloads nothing, whatever the plan says. *)
Theorem video_needs_the_literal_true remote fuel rq w :
  form rq !! "enable_video" <> Some "true" ->
  exists delta,
    trace (post_generate url_for_static url_for_viewer remote fuel rq w).2
    = (trace w ++ delta)%list
    /\ Forall (fun e => is_video_call e = false) delta.
Proof.
  intros Hfield.
  assert (form_flag rq "enable_video" "true" = false) as Hflag.
  { unfold form_flag. destruct (form rq !! "enable_video") as [s |]; [| done].
    destruct (String.eqb_spec s "true") as [-> | _]; [by destruct Hfield | done]. }
  assert (appends (fun e => negb (is_video_call e)) w
            (post_generate url_for_static url_for_viewer remote fuel rq w).2) as Happends.
  { rewrite post_generate_eq, guest_limit_check_eq. cbn [g_user set_g_user].
    rewrite guest_usage_set_g_user.
    assert (appends (fun e => negb (is_video_call e)) w
              (generate url_for_static url_for_viewer remote fuel rq
                        (set_g_user (current_user w) w)).2) as Hhandler.
    { unfold generate. rewrite bind_eq.
      pose proof (read_slide_count_world rq (set_g_user (current_user w) w)) as Hworld.
      destruct (read_slide_count rq _) as [[n | e |] w0]; simpl in Hworld; subst w0;
        [| by apply appends_same_trace ..].
      rewrite bind_eq, count_guest_request_eq, Hflag.
      etrans; [| apply build_presentation_no_video].
      apply appends_same_trace. by destruct (g_user _). }
    destruct (current_user w); [done |].
    destruct (GUEST_LIMIT <=? guest_usage w); [by apply appends_same_trace | done]. }
  destruct Happends as (delta & Htrace & Hdelta). exists delta. split; [done |].
  eapply Forall_impl; [exact Hdelta |]. intros e He. by apply negb_true_iff.
Qed.

End VideoFlag.

Lemma video_needs_the_literal_true_witness :
  exists delta,
    trace (post_generate flask_static flask_viewer remote_video_ready 0
             (request_of [("topic", "Quantum Computing"); ("enable_video", "True")]) fresh).2
    = (trace fresh ++ delta)%list
    /\ Forall (fun e => is_video_call e = false) delta.
Proof.
  apply (video_needs_the_literal_true flask_static flask_viewer remote_video_ready 0
           (request_of [("topic", "Quantum Computing"); ("enable_video", "True")]) fresh).
  vm_compute. discriminate.
Defined.

(** ** The viewer *)

Lemma find_none_elem {A} (f : A -> bool) (l : list A) (x : A) :
  List.find f l = None -> x ∈ l -> f x = false.
Proof.
  induction l as [| y l IH]; intros Hfind Hin; [by apply elem_of_nil in Hin |].
  simpl in Hfind. destruct (f y) eqn:Hy; [discriminate |].
  apply elem_of_cons in Hin as [-> | Hin]; [done | by apply IH].
Qed.

Lemma find_some_elem {A} (f : A -> bool) (l : list A) (x : A) :
  List.find f l = Some x -> x ∈ l /\ f x = true.
Proof.
  induction l as [| y l IH]; intros Hfind; [discriminate |].
  simpl in Hfind. destruct (f y) eqn:Hy.
  - injection Hfind as <-. split; [by left | done].
  - destruct (IH Hfind). split; [by right | done].
Qed.

Lemma find_snoc_none {A} (f : A -> bool) (l : list A) (x : A) :
  List.find f l = None -> f x = true -> List.find f (l ++ [x]) = Some x.
Proof.
  induction l as [| y l IH]; intros Hfind Hx; simpl; [by rewrite Hx |].
  simpl in Hfind. destruct (f y); [discriminate | by apply IH].
Qed.

Lemma find_snoc_some {A} (f : A -> bool) (l : list A) (x : A) :
  f x = true -> is_Some (List.find f (l ++ [x])).
Proof.
  intros Hx. induction l as [| y l IH]; simpl; [by rewrite Hx |].
  by destruct (f y).
Qed.

Lemma before_request_eq (w : World) :
  before_request w = set_g_user (current_user w) w.
Proof. unfold before_request. by rewrite load_user_eq. Qed.

(** The planner returns what the reply of the planning call determines. *)
Lemma plan_presentation_value remote fuel topic slide_count pdf_path url_link w value w' :
  plan_presentation remote fuel topic slide_count pdf_path url_link w = (Ok value, w') ->
  value = planned (plan_reply remote).
Proof.
  intros Hrun.
  pose proof (plan_presentation_after_upload remote fuel topic slide_count pdf_path url_link w)
    as Hstage.
  cbv zeta in Hstage.
  destruct ((if Py.truthy pdf_path
             then upload_pdf remote fuel (Py.format_opt pdf_path) []
                             (prompt_with_url topic slide_count url_link)
             else ret ([], prompt_with_url topic slide_count url_link)) w)
    as [[[contents user_prompt] | e |] w1].
  - destruct Hstage as (w2 & Heq & _). congruence.
  - done.
  - destruct Hstage as [Heq _]. congruence.
Qed.

Section Viewer.

Context (url_for_static : bool -> string -> string)
        (url_for_viewer : string -> string).

(** The row behind a redirect. *)
Lemma build_presentation_redirect remote fuel topic slide_count pdf_path url_link
      enable_video w link w' :
  build_presentation url_for_static url_for_viewer remote fuel topic slide_count
                     pdf_path url_link enable_video w = (Ok (RedirectJson link), w') ->
  link = url_for_viewer (pres_uuid remote)
  /\ exists plan slides,
      plan_reply remote = PlanText plan
      /\ presentations w'
         = (presentations w
              ++ [mkPresentation (pres_uuid remote) (plan_title plan) slides
                                 (user_ident <$> g_user w) enable_video])%list.
Proof.
  unfold build_presentation. intros Hrun.
  apply bind_Ok_inv in Hrun as (value & w1 & Hplan & Hrun).
  pose proof (plan_presentation_keeps presentations remote fuel topic slide_count pdf_path
                url_link (fun _ _ => eq_refl) (fun _ _ => eq_refl) w) as Hrows.
  pose proof (plan_presentation_keeps g_user remote fuel topic slide_count pdf_path
                url_link (fun _ _ => eq_refl) (fun _ _ => eq_refl) w) as Huser.
  unfold keeps in Hrows, Huser. rewrite Hplan in Hrows, Huser. simpl in Hrows, Huser.
  apply plan_presentation_value in Hplan.
  destruct value as [| | plan | partial missing];
    [discriminate Hrun | discriminate Hrun | |
     by apply use_partial_plan_Ok in Hrun; congruence].
  apply bind_Ok_inv in Hrun as (slides & w2 & Hbatch & Hrun).
  pose proof (media_batch_keeps presentations url_for_static remote plan enable_video
                (fun _ _ => eq_refl) w1) as Hrows'.
  pose proof (media_batch_keeps g_user url_for_static remote plan enable_video
                (fun _ _ => eq_refl) w1) as Huser'.
  unfold keeps in Hrows', Huser'. rewrite Hbatch in Hrows', Huser'.
  simpl in Hrows', Huser'.
  rewrite save_presentation_eq in Hrun. destruct (commit_ok remote); [| discriminate].
  injection Hrun as <- <-. split; [done |]. exists plan, slides. split.
  - by destruct (plan_reply remote); try discriminate; injection Hplan as ->.
  - simpl. by rewrite Hrows', Hrows, Huser', Huser.
Qed.

(** X15.  A request answered with a redirect stored its presentation
    under the fresh identifier the redirect names: its title is the title
    of the plan, its owner the user of the request (none for a guest), its
    [has_video] the flag of the request.  From then on the viewer shows
    that presentation under that identifier to every caller, whatever the
    session of the caller: the viewer checks no ownership. *)
Theorem generated_presentation_is_viewable remote fuel rq w link w' :
  post_generate url_for_static url_for_viewer remote fuel rq w = (Ok (RedirectJson link), w') ->
  get_presentation w (pres_uuid remote) = None ->
  link = url_for_viewer (pres_uuid remote)
  /\ exists plan slides,
      plan_reply remote = PlanText plan
      /\ forall later,
          presentations later = presentations w' ->
          get_viewer (pres_uuid remote) later
          = (Replied (ViewerPage
                        (mkPresentation (pres_uuid remote) (plan_title plan) slides
                                        (user_ident <$> current_user w)
                                        (form_flag rq "enable_video" "true"))),
             before_request later).
Proof.
  intros Hrun Hfresh.
  assert (exists w1, presentations w1 = presentations w /\ g_user w1 = current_user w
                     /\ build_presentation url_for_static url_for_viewer remote fuel
                          (form rq !! "topic")
                          (default 3 (form rq !! "slide_count" ≫= Py.int_of_str))
                          (if Py.truthy (files rq !! "pdf_file")
                           then Some (path_join UPLOAD_FOLDER ("doc_" ++ doc_uuid remote ++ ".pdf"))
                           else None)
                          (form rq !! "url_link") (form_flag rq "enable_video" "true") w1
                        = (Ok (RedirectJson link), w')) as (w1 & Hrows & Huser & Hbuild).
  { rewrite post_generate_eq, guest_limit_check_eq in Hrun.
    cbn [g_user set_g_user] in Hrun. rewrite guest_usage_set_g_user in Hrun.
    assert (generate url_for_static url_for_viewer remote fuel rq
                     (set_g_user (current_user w) w) = (Ok (RedirectJson link), w')) as Hgen.
    { destruct (current_user w); [done |].
      by destruct (GUEST_LIMIT <=? guest_usage w). }
    clear Hrun. unfold generate in Hgen.
    apply bind_Ok_inv in Hgen as (n & w0 & Hcount & Hgen).
    pose proof (read_slide_count_world rq (set_g_user (current_user w) w)) as Hworld.
    rewrite Hcount in Hworld. simpl in Hworld. subst w0.
    assert (n = default 3 (form rq !! "slide_count" ≫= Py.int_of_str)) as ->.
    { unfold read_slide_count in Hcount.
      destruct (form rq !! "slide_count") as [s |]; simpl; [| by injection Hcount as <-].
      destruct (Py.int_of_str s); [by injection Hcount as <- | discriminate]. }
    rewrite bind_eq, count_guest_request_eq in Hgen.
    eexists. split; [| split; [| exact Hgen]]; cbn [g_user set_g_user];
      by destruct (current_user w). }
  apply build_presentation_redirect in Hbuild as (-> & plan & slides & Hplan & Hstored).
  split; [done |]. exists plan, slides. split; [done |].
  intros later Hlater. unfold get_viewer, viewer, get_presentation.
  rewrite before_request_eq. cbn [presentations set_g_user].
  rewrite Hlater, Hstored, Hrows, Huser.
  rewrite find_snoc_none; [done | exact Hfresh |].
  simpl. apply String.eqb_refl.
Qed.

End Viewer.

Lemma generated_presentation_is_viewable_witness :
  "/viewer/p" = flask_viewer (pres_uuid remote_video_ready)
  /\ exists plan slides,
      plan_reply remote_video_ready = PlanText plan
      /\ forall later,
          presentations later
          = presentations (post_generate flask_static flask_viewer remote_video_ready 0
                                         request_two_slides fresh).2 ->
          get_viewer (pres_uuid remote_video_ready) later
          = (Replied (ViewerPage
                        (mkPresentation (pres_uuid remote_video_ready) (plan_title plan) slides
                                        (user_ident <$> current_user fresh)
                                        (form_flag request_two_slides "enable_video" "true"))),
             before_request later).
Proof.
  pose (out := post_generate flask_static flask_viewer remote_video_ready 0
                             request_two_slides fresh).
  assert (out = (Ok (RedirectJson "/viewer/p"), out.2)) as Hrun by (vm_compute; reflexivity).
  exact (generated_presentation_is_viewable flask_static flask_viewer remote_video_ready 0
           request_two_slides fresh "/viewer/p" out.2 Hrun eq_refl).
Defined.

(** ** Accounts *)

Section AccountProperties.

Context (url_for_index : string) (check_password_hash : string -> string -> bool).

(** What a successful registration did. *)
Lemma register_inv signup rq w link w' :
  register url_for_index signup rq w = (Replied (Redirect link), w') ->
  exists address password name,
    form rq !! "email" = Some address
    /\ form rq !! "password" = Some password
    /\ form rq !! "name" = Some name
    /\ user_by_email w address = None
    /\ session w' = <["user_id" := new_user_id signup]> (session w)
    /\ users w'
       = (users w ++ [mkUser (new_user_id signup) address (salted_hash signup) name])%list.
Proof.
  unfold register. cbv zeta.
  destruct (form rq !! "email") as [address |]; [| discriminate].
  destruct (user_by_email w address) eqn:Hfree; [discriminate |].
  destruct (form rq !! "password") as [password |]; [| discriminate].
  destruct (form rq !! "name") as [name |]; [| discriminate].
  destruct (signup_commit_ok signup); [| discriminate].
  intros [= _ <-]. by exists address, password, name.
Qed.

(** The registration changes the user table only by a successful signup. *)
Lemma register_users signup rq w :
  users (register url_for_index signup rq w).2 = users w
  \/ exists link, (register url_for_index signup rq w).1 = Replied (Redirect link).
Proof.
  unfold register. cbv zeta.
  destruct (form rq !! "email") as [address |]; [| by left].
  destruct (user_by_email w address); [by left |].
  destruct (form rq !! "password") as [password |]; [| by left].
  destruct (form rq !! "name") as [name |]; [| by left].
  destruct (signup_commit_ok signup); [right; by eexists | by left].
Qed.

(** X16.  Registration keeps the email addresses of the user table
    distinct, by its own lookup before the insert: a request either leaves
    the table as it was, or appends one row, for an address no row had,
    holding the hash [generate_password_hash] returned; rows already there
    are never changed. *)
Theorem register_keeps_emails_unique signup rq w :
  NoDup (emails w) ->
  let out := post_register url_for_index signup rq w in
  NoDup (emails out.2)
  /\ (users out.2 = users w
      \/ exists user,
          users out.2 = (users w ++ [user])%list
          /\ form rq !! "email" = Some (email user)
          /\ (email user ∉ emails w)
          /\ password_hash user = salted_hash signup
          /\ out.1 = Replied (Redirect url_for_index)).
Proof.
  intros Hunique. cbv zeta. unfold post_register. rewrite before_request_eq.
  set (w0 := set_g_user (current_user w) w).
  destruct (register_users signup rq w0) as [Hsame | [link Hdone]].
  - unfold emails. rewrite Hsame. split; [done | by left].
  - destruct (register url_for_index signup rq w0) as [reply w'] eqn:Hrun.
    simpl in Hdone. subst reply.
    pose proof Hrun as Hlink.
    apply register_inv in Hrun
      as (address & password & name & Hemail & _ & _ & Hfree & _ & Husers).
    assert (address ∉ emails w) as Hnew.
    { unfold emails. intros Hin. apply list_elem_of_fmap in Hin as (u & -> & Hu).
      pose proof (find_none_elem _ _ u Hfree Hu) as Hne. simpl in Hne.
      by rewrite String.eqb_refl in Hne. }
    simpl. split.
    + unfold emails. rewrite Husers, fmap_snoc. apply NoDup_app.
      split; [done |]. split; [| by apply NoDup_singleton].
      intros x Hx Hin. apply list_elem_of_singleton in Hin. simpl in Hin. by subst x.
    + right. eexists. split; [exact Husers |]. simpl. repeat split; try done.
      revert Hlink. unfold register. cbv zeta. rewrite Hemail.
      destruct (user_by_email w0 address); [discriminate |].
      destruct (form rq !! "password"); [| discriminate].
      destruct (form rq !! "name"); [| discriminate].
      destruct (signup_commit_ok signup); [| discriminate]. by intros [= <-].
Qed.

(** X17.  Registration and login fit together.  After a successful
    registration the session is that of the new user.  Later, from any
    session, a login with the same form succeeds and opens the session of
    that user, provided the password checks against the hash made at
    signup and the database gave the new row a key no row had. *)
Theorem register_then_login signup rq w link w' later :
  post_register url_for_index signup rq w = (Replied (Redirect link), w') ->
  (forall password, form rq !! "password" = Some password ->
                    check_password_hash (salted_hash signup) password = true) ->
  get_user w (new_user_id signup) = None ->
  users later = users w' ->
  exists user,
    form rq !! "email" = Some (email user)
    /\ form rq !! "name" = Some (name user)
    /\ user_ident user = new_user_id signup
    /\ current_user w' = Some user
    /\ (post_login url_for_index check_password_hash rq later).1
       = Replied (Redirect url_for_index)
    /\ current_user (post_login url_for_index check_password_hash rq later).2 = Some user.
Proof.
  unfold post_register. rewrite before_request_eq. intros Hrun Hcheck Hkey Hlater.
  apply register_inv in Hrun
    as (address & password & name & Hemail & Hpassword & Hname & Hfree & Hsession & Husers).
  cbn [users session set_g_user] in Hsession, Husers.
  set (user := mkUser (new_user_id signup) address (salted_hash signup) name) in *.
  assert (forall w1, users w1 = users w' ->
                     session w1 !! "user_id" = Some (new_user_id signup) ->
                     current_user w1 = Some user) as Hcurrent.
  { intros w1 Hrows Hid. unfold current_user, get_user. rewrite Hid, Hrows, Husers.
    apply find_snoc_none; [exact Hkey | simpl; apply Z.eqb_refl]. }
  exists user. split; [done |]. split; [done |]. split; [done |]. split.
  { apply Hcurrent; [done |]. by rewrite Hsession, lookup_insert_eq. }
  unfold post_login, login. rewrite before_request_eq. cbv zeta. rewrite Hemail.
  assert (user_by_email (set_g_user (current_user later) later) address = Some user) as ->.
  { unfold user_by_email. cbn [users set_g_user]. rewrite Hlater, Husers.
    apply find_snoc_none; [exact Hfree | simpl; apply String.eqb_refl]. }
  rewrite Hpassword. simpl password_hash. rewrite (Hcheck password Hpassword).
  split; [done |]. simpl. apply Hcurrent; [done |].
  simpl. by rewrite lookup_insert_eq.
Qed.

(** X18.  A login opens a session only for a stored user whose email is
    the one of the form and whose stored hash the password of the form
    checks against.  Every other login leaves the world as it was, the
    session included, and whatever the outcome a login changes neither the
    user table nor the presentations. *)
Theorem login_needs_a_matching_password rq w :
  let out := login url_for_index check_password_hash rq w in
  (out.2 = w /\ forall link, out.1 <> Replied (Redirect link))
  \/ (exists user password,
         user ∈ users w
         /\ form rq !! "email" = Some (email user)
         /\ form rq !! "password" = Some password
         /\ check_password_hash (password_hash user) password = true
         /\ out = (Replied (Redirect url_for_index),
                   set_session (<["user_id" := user_ident user]> (session w)) w)).
Proof.
  cbv zeta. unfold login. cbv zeta.
  destruct (form rq !! "email") as [address |]; [| by left].
  destruct (user_by_email w address) as [user |] eqn:Hfound; [| by left].
  apply find_some_elem in Hfound as [Hin Haddress].
  apply String.eqb_eq in Haddress as <-.
  destruct (form rq !! "password") as [password |]; [| by left].
  destruct (check_password_hash (password_hash user) password) eqn:Hcheck; [| by left].
  right. by exists user, password.
Qed.

(** X19.  Logging out makes the caller a guest again without resetting
    the guest count: the count of the session is the one from before, so a
    caller who had used up the guest quota is denied generation after
    logging out. *)
Theorem logout_returns_to_the_guest_quota w :
  let out := get_logout url_for_index w in
  out.1 = Replied (Redirect url_for_index)
  /\ current_user out.2 = None
  /\ guest_usage out.2 = guest_usage w
  /\ users out.2 = users w
  /\ (15 <= guest_usage w ->
      forall url_for_static url_for_viewer remote fuel rq,
        (post_generate url_for_static url_for_viewer remote fuel rq out.2).1
        = Ok guest_limit_reached).
Proof.
  cbv zeta. unfold get_logout, logout. rewrite before_request_eq. simpl.
  assert (current_user
            (set_session (delete "user_id" (session w)) (set_g_user (current_user w) w))
          = None) as Hguest.
  { unfold current_user. simpl. by rewrite lookup_delete_eq. }
  assert (guest_usage
            (set_session (delete "user_id" (session w)) (set_g_user (current_user w) w))
          = guest_usage w) as Hcount.
  { unfold guest_usage. simpl. by rewrite lookup_delete_ne. }
  repeat split; try done.
  intros Hused url_for_static url_for_viewer remote fuel rq.
  rewrite post_generate_eq, guest_limit_check_eq, Hguest. cbn [g_user set_g_user].
  rewrite guest_usage_set_g_user, Hcount.
  destruct (Z.leb_spec GUEST_LIMIT (guest_usage w)) as [_ | Hbelow];
    [done | unfold GUEST_LIMIT in *; lia].
Qed.

(** X20.  Registration lifts the guest limit.  After a successful
    registration, generation requests of that session are handed to the
    handler whatever the guest count is, and they leave the session, hence
    the guest count, as it is. *)
Theorem register_lifts_the_guest_limit signup rq w link w' :
  post_register url_for_index signup rq w = (Replied (Redirect link), w') ->
  is_Some (current_user w')
  /\ forall url_for_static url_for_viewer remote fuel request,
      let out := post_generate url_for_static url_for_viewer remote fuel request w' in
      out.1 <> Ok guest_limit_reached /\ session out.2 = session w'.
Proof.
  unfold post_register. rewrite before_request_eq. intros Hrun.
  apply register_inv in Hrun as (address & password & name & _ & _ & _ & _ & Hsession & Husers).
  cbn [users session set_g_user] in Hsession, Husers.
  assert (is_Some (current_user w')) as [user Huser].
  { unfold current_user, get_user. rewrite Hsession, lookup_insert_eq, Husers.
    apply find_snoc_some. simpl. apply Z.eqb_refl. }
  split; [by exists user |].
  intros url_for_static url_for_viewer remote fuel request. cbv zeta.
  rewrite post_generate_eq, guest_limit_check_eq, Huser. cbn [g_user set_g_user].
  split; [apply generate_never_denies |].
  pose proof (generate_session url_for_static url_for_viewer remote fuel request
                (set_g_user (Some user) w')) as (_ & H & _).
  destruct H as [H | [H _]]; [exact H | discriminate].
Qed.

End AccountProperties.

Lemma register_keeps_emails_unique_witness :
  let out := post_register "/" signup_grace form_grace one_user in
  NoDup (emails out.2)
  /\ (users out.2 = users one_user
      \/ exists user,
          users out.2 = (users one_user ++ [user])%list
          /\ form form_grace !! "email" = Some (email user)
          /\ (email user ∉ emails one_user)
          /\ password_hash user = salted_hash signup_grace
          /\ out.1 = Replied (Redirect "/")).
Proof.
  apply (register_keeps_emails_unique "/" signup_grace form_grace one_user).
  apply (bool_decide_unpack _). reflexivity.
Defined.

Lemma register_then_login_witness :
  let registered := (post_register "/" signup_grace form_grace one_user).2 in
  exists user,
    form form_grace !! "email" = Some (email user)
    /\ form form_grace !! "name" = Some (name user)
    /\ user_ident user = new_user_id signup_grace
    /\ current_user registered = Some user
    /\ (post_login "/" toy_check form_grace (get_logout "/" registered).2).1
       = Replied (Redirect "/")
    /\ current_user (post_login "/" toy_check form_grace (get_logout "/" registered).2).2
       = Some user.
Proof.
  intros registered.
  pose (out := post_register "/" signup_grace form_grace one_user).
  assert (out = (Replied (Redirect "/"), registered)) as Hrun by (vm_compute; reflexivity).
  refine (register_then_login "/" toy_check signup_grace form_grace one_user "/" registered
            (get_logout "/" registered).2 Hrun _ eq_refl eq_refl).
  intros password Hpassword. vm_compute in Hpassword. injection Hpassword as <-. reflexivity.
Defined.

Lemma logout_returns_to_the_guest_quota_witness :
  (post_generate flask_static flask_viewer remote_video_ready 0 request_two_slides
                 (get_logout "/" returning_user).2).1
  = Ok guest_limit_reached.
Proof.
  refine (proj2 (proj2 (proj2 (proj2 (logout_returns_to_the_guest_quota "/" returning_user))))
            _ flask_static flask_viewer remote_video_ready 0%nat request_two_slides).
  vm_compute. discriminate.
Defined.

Lemma register_lifts_the_guest_limit_witness :
  let registered := (post_register "/" signup_grace form_grace one_user).2 in
  is_Some (current_user registered)
  /\ forall url_for_static url_for_viewer remote fuel request,
      let out := post_generate url_for_static url_for_viewer remote fuel request registered in
      out.1 <> Ok guest_limit_reached /\ session out.2 = session registered.
Proof.
  intros registered.
  pose (out := post_register "/" signup_grace form_grace one_user).
  assert (out = (Replied (Redirect "/"), registered)) as Hrun by (vm_compute; reflexivity).
  exact (register_lifts_the_guest_limit "/" signup_grace form_grace one_user "/" registered Hrun).
Defined.

(** ** The wait for the document, and the results of the image tasks *)

Lemma wait_processing_forever remote fuel gets w :
  (forall k, file_get_reply remote k = Some PROCESSING) ->
  wait_processing remote fuel PROCESSING gets w
  = (Hang, extend_trace (concat (replicate fuel file_round)) w).
Proof.
  intros Hstuck. revert gets w. induction fuel as [| fuel IH]; intros gets w; simpl.
  - by rewrite extend_trace_nil.
  - run. rewrite Hstuck. run. rewrite IH.
    by rewrite !log_event_extend, !extend_trace_extend.
Qed.

(** X21.  The wait for an uploaded document has no timeout of its own.
    While the file is reported [PROCESSING] the planner keeps polling once
    a second: however many iterations are followed, it has not returned, it
    has made that many polls, and it has made no cache or planning call. *)
Theorem document_wait_has_no_timeout remote topic slide_count pdf_path url_link w name :
  Py.truthy pdf_path = true ->
  upload_reply remote = Some (name, PROCESSING) ->
  (forall k, file_get_reply remote k = Some PROCESSING) ->
  forall fuel,
    plan_presentation remote fuel topic slide_count pdf_path url_link w
    = (Hang, extend_trace (upload_events (Py.format_opt pdf_path) fuel) w).
Proof.
  intros Hpdf Hupload Hstuck fuel.
  pose proof (plan_presentation_after_upload remote fuel topic slide_count pdf_path url_link w)
    as Hstage.
  cbv zeta in Hstage. rewrite Hpdf in Hstage.
  assert (upload_pdf remote fuel (Py.format_opt pdf_path) []
                     (prompt_with_url topic slide_count url_link) w
          = (Hang, extend_trace (upload_events (Py.format_opt pdf_path) fuel) w)) as Hwait.
  { unfold upload_pdf, upload_events. run. rewrite Hupload. run.
    rewrite wait_processing_forever by done. run.
    by rewrite !log_event_extend, !extend_trace_extend. }
  rewrite Hwait in Hstage. by destruct Hstage as [-> _].
Qed.

Lemma document_wait_has_no_timeout_witness :
  plan_presentation remote_document_stuck 1000 (Some "Quantum Computing") 2
                    (Some "static/uploads/doc_d.pdf") None fresh
  = (Hang, extend_trace (upload_events "static/uploads/doc_d.pdf" 1000) fresh).
Proof.
  exact (document_wait_has_no_timeout remote_document_stuck (Some "Quantum Computing") 2
           (Some "static/uploads/doc_d.pdf") None fresh "files/deck"
           eq_refl eq_refl (fun _ => eq_refl) 1000%nat).
Defined.

(** X22.  What the loop of the handler reads from a completed future is
    well formed.  The index names a slide of the plan, so neither
    [plan['slides'][idx]] nor [slides[idx] = ...] can raise [IndexError].
    The file name and the local path come together: a result with a file
    name has the non-empty path of that file under the upload folder (so
    the test [and local_path] of the video step never decides), and a
    result without a file name has no path. *)
Theorem future_results_are_well_formed remote plan idx img_url local_path :
  (idx, img_url, local_path) ∈ as_completed remote plan ->
  (idx < length (plan_slides plan))%nat
  /\ match img_url with
     | Some filename =>
         local_path = Some (path_join UPLOAD_FOLDER filename)
         /\ Py.truthy_str filename = true
         /\ Py.truthy local_path = true
     | None => local_path = None
     end.
Proof.
  intros Hin. apply as_completed_elem in Hin as (s & Hs & Hresult). simpl in Hs, Hresult.
  split; [by eapply lookup_lt_Some |].
  revert Hresult. unfold generate_image.
  destruct (image_reply remote idx) as [| parts uuid saved]; [by intros [= -> ->] |].
  destruct (filter _ parts); [by intros [= -> ->] |].
  destruct saved; [| by intros [= -> ->]].
  intros [= -> ->]. done.
Qed.

Lemma future_results_are_well_formed_witness :
  (1 < length (plan_slides two_slides))%nat
  /\ Some "static/uploads/img_1.png" = Some (path_join UPLOAD_FOLDER "img_1.png")
  /\ Py.truthy_str "img_1.png" = true
  /\ Py.truthy (Some "static/uploads/img_1.png") = true.
Proof.
  apply (future_results_are_well_formed remote_video_ready two_slides 1
           (Some "img_1.png") (Some "static/uploads/img_1.png")).
  vm_compute. constructor.
Defined.
